(** * YOLOv3-PyTorch: the graph builder, the model graph, the detection head
      and the training loop's loss guard

    A shallow embedding of [easydet/model/module/layer.py] ([create_modules],
    [Darknet.__init__], [Darknet.forward], [Darknet.fuse], [YOLOLayer],
    [get_yolo_layers]) and of the control flow of [train.py] ([train]: the
    parameter groups, resuming, the warm-up, the batch loop and the
    checkpoints).

    Conventions.
    - Python exceptions are values of [exn]; a computation that may raise
      returns a [result].
    - Python integers are [Z]; tensor extents and positions are [nat].
    - Tensor elements are real numbers: arithmetic is exact. Rounding,
      overflow and underflow of torch's float32 are not modelled.
    - A tensor is its shape together with its elements in row-major order,
      which is the order a contiguous torch tensor stores them in. *)

From Stdlib Require Import ZArith QArith Qreals Reals Lra Lia DecimalString.
From stdpp Require Import base option list gmap strings.

Local Open Scope string_scope.
Local Open Scope Z_scope.
Local Open Scope list_scope.
Local Open Scope nat_scope.

(** ** Exceptions *)

Inductive exn : Type :=
| KeyError (key : string)
| IndexError
| UnboundLocalError (name : string)
| TypeError
| ValueError
| AttributeError
| RuntimeError
| ZeroDivisionError.

Inductive result (A : Type) : Type :=
| Ok (a : A)
| Raise (e : exn).
Arguments Ok {A} a.
Arguments Raise {A} e.

#[global] Instance result_ret : MRet result := fun A a => Ok a.
#[global] Instance result_bind : MBind result := fun A B f m =>
  match m with
  | Ok a => f a
  | Raise e => Raise e
  end.
#[global] Instance result_fmap : FMap result := fun A B f m =>
  match m with
  | Ok a => Ok (f a)
  | Raise e => Raise e
  end.

(** ** Python sequences *)

Module Py.

(** Position of subscript [k] in a sequence of [n] items: a negative
    subscript counts from the end, anything outside is an IndexError. *)
Definition norm_index (n : nat) (k : Z) : result nat :=
  if decide (0 <= k < Z.of_nat n)%Z then Ok (Z.to_nat k)
  else if decide (- Z.of_nat n <= k < 0)%Z then Ok (Z.to_nat (Z.of_nat n + k))
  else Raise IndexError.

(** [l[k]] *)
Definition getitem {A} (l : list A) (k : Z) : result A :=
  i ← norm_index (length l) k;
  match l !! i with
  | Some a => Ok a
  | None => Raise IndexError
  end.

(** [l[k] = a] *)
Definition setitem {A} (l : list A) (k : Z) (a : A) : result (list A) :=
  i ← norm_index (length l) k;
  Ok (<[i := a]> l).

(** [[f(x) for x in l]] where [f] may raise. *)
Fixpoint comprehension {A B} (f : A → result B) (l : list A) : result (list B) :=
  match l with
  | [] => Ok []
  | x :: l' => y ← f x; ys ← comprehension f l'; Ok (y :: ys)
  end.

(** [for x in l: s = body(s, x)] where the body may raise. *)
Fixpoint for_each {S A} (body : S → A → result S) (s : S) (l : list A) : result S :=
  match l with
  | [] => Ok s
  | x :: l' => s' ← body s x; for_each body s' l'
  end.

(** [enumerate(l)] *)
Definition enumerate {A} (l : list A) : list (nat * A) :=
  imap (fun i a => (i, a)) l.

End Py.

(** ** Tensors *)

Module Tensor.

Record tensor (A : Type) : Type := Build { shape : list nat; data : list A }.
Arguments Build {A} shape data.
Arguments shape {A} t.
Arguments data {A} t.

Definition numel (s : list nat) : nat := foldr Nat.mul 1 s.

(** Every tensor torch hands out holds as many elements as its shape says. *)
Definition wf {A} (t : tensor A) : Prop := length (data t) = numel (shape t).

(** torch's [infer_size]: the extents a [view(dims)] of [n] elements gets.
    At most one entry may be [-1]; it is inferred from the others, unless
    they multiply to zero. *)
Definition infer_size (dims : list Z) (n : nat) : result (list nat) :=
  if decide (Exists (fun d => (d < -1)%Z) dims) then Raise RuntimeError
  else
    let known := Z.to_nat <$> filter (fun d => d ≠ (-1)%Z) dims in
    match length dims - length known with
    | 0 => if decide (numel known = n) then Ok known else Raise RuntimeError
    | 1 =>
        let newsize := numel known in
        if decide (0 < newsize ∧ n mod newsize = 0)
        then Ok ((fun d => if decide (d = (-1)%Z) then n / newsize else Z.to_nat d) <$> dims)
        else Raise RuntimeError
    | _ => Raise RuntimeError
    end.

(** [t.view(dims)]: the same elements in the same order under a new shape. *)
Definition view {A} (dims : list Z) (t : tensor A) : result (tensor A) :=
  s ← infer_size dims (length (data t));
  Ok (Build s (data t)).

(** Row-major position of a multi-index, and back. *)
Definition ravel4 (d1 d2 d3 : nat) (i0 i1 i2 i3 : nat) : nat :=
  ((i0 * d1 + i1) * d2 + i2) * d3 + i3.
Definition ravel5 (d1 d2 d3 d4 : nat) (i0 i1 i2 i3 i4 : nat) : nat :=
  (((i0 * d1 + i1) * d2 + i2) * d3 + i3) * d4 + i4.
Definition unravel5 (d1 d2 d3 d4 : nat) (k : nat) : nat * nat * nat * nat * nat :=
  let k3 := k / d4 in
  let k2 := k3 / d3 in
  let k1 := k2 / d2 in
  (k1 / d1, k1 mod d1, k2 mod d2, k3 mod d3, k mod d4).

(** [t.permute(0, 1, 3, 4, 2).contiguous()] of a 5-d tensor: element
    [(b, a, y, x, o)] of the result is element [(b, a, o, y, x)] of [t], and
    the result is laid out afresh in row-major order. *)
Definition permute_01342 {A} `{Inhabited A} (t : tensor A) : result (tensor A) :=
  match shape t with
  | [d0; d1; d2; d3; d4] =>
      Ok (Build [d0; d1; d3; d4; d2]
            ((fun k => let '(b, a, y, x, o) := unravel5 d1 d3 d4 d2 k in
                       data t !!! ravel5 d1 d2 d3 d4 b a o y x)
               <$> seq 0 (d0 * d1 * d3 * d4 * d2)))
  | _ => Raise RuntimeError
  end.

(** Element access by multi-index. *)
Definition get4 {A} `{Inhabited A} (t : tensor A) (i0 i1 i2 i3 : nat) : A :=
  match shape t with
  | [_; d1; d2; d3] => data t !!! ravel4 d1 d2 d3 i0 i1 i2 i3
  | _ => inhabitant
  end.
Definition get5 {A} `{Inhabited A} (t : tensor A) (i0 i1 i2 i3 i4 : nat) : A :=
  match shape t with
  | [_; d1; d2; d3; d4] => data t !!! ravel5 d1 d2 d3 d4 i0 i1 i2 i3 i4
  | _ => inhabitant
  end.
Definition get3 {A} `{Inhabited A} (t : tensor A) (i0 i1 i2 : nat) : A :=
  match shape t with
  | [_; d1; d2] => data t !!! ((i0 * d1 + i1) * d2 + i2)
  | _ => inhabitant
  end.

(** Whether position [o] of the last axis lies in the slice [lo:hi];
    [hi = None] is an open slice. *)
Definition in_slice (lo : nat) (hi : option nat) (o : nat) : bool :=
  bool_decide (lo ≤ o) &&
  match hi with
  | Some h => bool_decide (o < h)
  | None => true
  end.

(** An in-place update of the slice [..., lo:hi] of a 5-d tensor: [f] maps
    the multi-index and the old element to the new one. *)
Definition update_last {A} (lo : nat) (hi : option nat)
    (f : nat → nat → nat → nat → nat → A → A) (t : tensor A) : tensor A :=
  match shape t with
  | [_; d1; d2; d3; d4] =>
      Build (shape t)
        (imap (fun k v =>
                 let '(b, a, y, x, o) := unravel5 d1 d2 d3 d4 k in
                 if in_slice lo hi o then f b a y x o v else v)
              (data t))
  | _ => t
  end.

End Tensor.

(** ** The detection head: [class YOLOLayer] *)

Module YOLOLayer.
Import Tensor.

#[global] Instance R_inhabited : Inhabited R := populate 0%R.

(** [torch.sigmoid] *)
Definition sigmoid (x : R) : R := (1 / (1 + exp (- x)))%R.

(** The grid geometry [create_grids] caches on the layer: [self.stride],
    [self.grid_xy] of shape (1, 1, ny, nx, 2) and [self.anchor_wh] of shape
    (1, na, 1, 1, 2). *)
Record grids : Type := Grids {
  stride : R;
  grid_xy : tensor R;
  anchor_wh : tensor R }.

(** The attributes of a layer. [self.na], [self.nl] and [self.no] are set
    once by [__init__] from its arguments and never assigned again: they are
    the functions [na], [nl] and [no] below. The geometry attributes do not
    exist before the first [create_grids]: [grid] is [None] until then. *)
Record t : Type := Layer {
  anchors : list (R * R);
  index : Z;
  layers : list Z;
  nc : Z;
  nx : nat;
  ny : nat;
  grid : option grids;
  training : bool }.

Definition nl (self : t) : nat := length (layers self).
Definition na (self : t) : nat := length (anchors self).
Definition no (self : t) : Z := (nc self + 5)%Z.

(** [YOLOLayer.__init__] with ONNX_EXPORT off; [img_size] is read by the
    export branch only. A fresh [nn.Module] is in training mode. *)
Definition init (anchors : list (R * R)) (nc : Z) (yolo_index : Z) (layers : list Z) : t :=
  {| anchors := anchors; index := yolo_index; layers := layers; nc := nc;
     nx := 0; ny := 0; grid := None; training := true |}.

(** [self.train(mode)] of [nn.Module]; [self.eval()] is [train false]. *)
Definition train (mode : bool) (self : t) : t :=
  {| anchors := anchors self; index := index self; layers := layers self;
     nc := nc self; nx := nx self; ny := ny self; grid := grid self;
     training := mode |}.

(** The cached geometry is the one of the cached resolution: the cached
    tensors exist and have the extents [create_grids] gives them. *)
Definition geometry_ok (self : t) : Prop :=
  ∃ g, grid self = Some g ∧
       Tensor.shape (grid_xy g) = [1; 1; ny self; nx self; 2] ∧
       Tensor.shape (anchor_wh g) = [1; na self; 1; 1; 2].

(** What [forward] returns: the reshaped prediction in training mode, the
    pair (decoded, reshaped) in inference mode. *)
Inductive output : Type :=
| OutTrain (pred : tensor R)
| OutInfer (io pred : tensor R).

(** A call of [create_grids]: its [image_size] and [ng = (nx, ny)]. *)
Definition call : Type := list nat * (nat * nat).

Section Geometry.

(** The pixel stride of one grid cell for an image size and a grid size.
    [create_grids] computes it; its file is missing and the specification
    gives no formula, so it stays a parameter. *)
Variable cell_stride : list nat → nat * nat → R.

(** Modelled from the spec: [create_grids] of [easydet/model/common.py],
    which is missing from the sources. It derives the grid geometry for the
    resolution [ng = (nx, ny)] and caches it on the layer: nx, ny, the
    per-cell pixel stride, the per-cell grid-origin offset (the cell's (x, y)
    position) and the per-anchor width/height scaled to grid cells. *)
Definition create_grids (self : t) (image_size : list nat) (ng : nat * nat) : t :=
  let s := cell_stride image_size ng in
  {| anchors := anchors self; index := index self; layers := layers self;
     nc := nc self;
     nx := ng.1; ny := ng.2;
     grid := Some
       {| stride := s;
          grid_xy :=
            Build [1; 1; ng.2; ng.1; 2]
              (y ← seq 0 ng.2; x ← seq 0 ng.1; [INR x; INR y]);
          anchor_wh :=
            Build [1; na self; 1; 1; 2]
              ('(w, h) ← anchors self; [(w / s)%R; (h / s)%R]) |};
     training := training self |}.

(** The guard at the head of [forward]:
    [if (self.nx, self.ny) != (nx, ny): create_grids(...)]. The second
    component lists the [create_grids] calls made. *)
Definition ensure_grids (self : t) (image_size : list nat) (ng : nat * nat)
  : t * list call :=
  if decide ((nx self, ny self) ≠ ng)
  then (create_grids self image_size ng, [(image_size, ng)])
  else (self, []).

(** The inference branch up to the final view: [io = pred.clone()] and the
    four slice updates. The operands must broadcast: the cached tensors
    have the extents [create_grids] gives them for this grid, and the last
    axis holds the four box channels. *)
Definition decode (g : grids) (pred : tensor R) : result (tensor R) :=
  match shape pred with
  | [_; a; y; x; o] =>
      if decide (shape (grid_xy g) = [1; 1; y; x; 2] ∧
                 shape (anchor_wh g) = [1; a; 1; 1; 2] ∧ 4 ≤ o)
      then
        let io := pred in
        let io := update_last 0 (Some 2)
                    (fun _ _ y x o v => (sigmoid v + get5 (grid_xy g) 0 0 y x o)%R) io in
        let io := update_last 2 (Some 4)
                    (fun _ a _ _ o v => (exp v * get5 (anchor_wh g) 0 a 0 0 (o - 2))%R) io in
        let io := update_last 0 (Some 4) (fun _ _ _ _ _ v => (v * stride g)%R) io in
        let io := update_last 4 None (fun _ _ _ _ _ v => sigmoid v) io in
        Ok io
      else Raise RuntimeError
  | _ => Raise RuntimeError
  end.

(** [pred.view(bs, self.na, self.no, self.ny, self.nx)
         .permute(0, 1, 3, 4, 2).contiguous()] *)
Definition reshaped (self : t) (bs : nat) (pred : tensor R) : result (tensor R) :=
  view [Z.of_nat bs; Z.of_nat (na self); no self;
        Z.of_nat (ny self); Z.of_nat (nx self)] pred ≫= permute_01342.

(** [forward] after the guard, on the layer [self] as the guard left it. *)
Definition forward_body (self : t) (bs : nat) (pred : tensor R) : result output :=
  pred ← reshaped self bs pred;
  if training self then Ok (OutTrain pred)
  else
    g ← from_option Ok (Raise AttributeError) (grid self);
    io ← decode g pred;
    io ← view [Z.of_nat bs; (-1)%Z; no self] io;
    Ok (OutInfer io pred).

(** [YOLOLayer.forward(pred, image_size, out)] with ONNX_EXPORT off and
    ASFF off, as the source fixes it; [out] is read by the ASFF branch
    only. The layer is returned as the call leaves it, also when the call
    raises. *)
Definition forward (self : t) (pred : tensor R) (image_size : list nat)
  : t * list call * result output :=
  match shape pred with
  | [bs; _; ny; nx] =>
      let '(self, calls) := ensure_grids self image_size (nx, ny) in
      (self, calls, forward_body self bs pred)
  | _ => (self, [], Raise ValueError)
  end.

End Geometry.

End YOLOLayer.

(** ** The architecture description *)

Module Config.

(** The values [parse_model_config] stores in a record: integers, decimal
    numbers, words, lists of integers ([layers], [from], [mask]) and the
    anchor table (rows of width and height). *)
Inductive value : Type :=
| VInt (z : Z)
| VFloat (q : Q)
| VStr (s : string)
| VInts (l : list Z)
| VAnchors (l : list (Q * Q)).

(** A record of the description: a Python [dict] keyed by strings. *)
Abbreviation spec := (gmap string value).

(** A dict literal. *)
Definition dict (items : list (string * value)) : spec := list_to_map items.

(** [k in module] *)
Definition has (m : spec) (k : string) : bool := bool_decide (is_Some (m !! k)).

(** [module[k]] *)
Definition get (m : spec) (k : string) : result value :=
  match m !! k with
  | Some v => Ok v
  | None => Raise (KeyError k)
  end.

(** [module[k] == s] for a string literal [s]. *)
Definition is_str (v : value) (s : string) : bool :=
  match v with
  | VStr s' => bool_decide (s' = s)
  | _ => false
  end.

(** The fields the builder passes on as numbers hold integers, those it
    iterates over hold lists: a field of another kind is refused where the
    constructor or the loop it reaches would refuse it. *)
Definition as_int (v : value) : result Z :=
  match v with
  | VInt z => Ok z
  | _ => Raise TypeError
  end.
Definition as_ints (v : value) : result (list Z) :=
  match v with
  | VInts l => Ok l
  | _ => Raise TypeError
  end.
Definition as_anchors (v : value) : result (list (Q * Q)) :=
  match v with
  | VAnchors l => Ok l
  | _ => Raise TypeError
  end.

(** [f"{v}"] for a word or an integer. The text Python prints for the other
    kinds (the repr of a decimal number or of a list) is not modelled: they
    print as [<value>]. *)
Definition format (v : value) : string :=
  match v with
  | VStr s => s
  | VInt z => DecimalString.NilZero.string_of_int (Z.to_int z)
  | _ => "<value>"
  end.

Definition get_int (m : spec) (k : string) : result Z := get m k ≫= as_int.
Definition get_ints (m : spec) (k : string) : result (list Z) := get m k ≫= as_ints.

(** The text of a decimal integer as Python's [int] reads it: blanks
    around it are dropped (space, tab, line feed, vertical tab, form feed
    and carriage return), one sign may lead, and single underscores may
    stand between digits. The text is taken to be ASCII. *)
Definition is_space (c : Ascii.ascii) : bool :=
  let n := Ascii.nat_of_ascii c in (n =? 32) || ((9 <=? n) && (n <=? 13)).

Definition digit_of (c : Ascii.ascii) : option Z :=
  let n := Ascii.nat_of_ascii c in
  if (48 <=? n) && (n <=? 57) then Some (Z.of_nat (n - 48)) else None.

Fixpoint lstrip (l : list Ascii.ascii) : list Ascii.ascii :=
  match l with
  | c :: l' => if is_space c then lstrip l' else l
  | [] => []
  end.

Definition strip (l : list Ascii.ascii) : list Ascii.ascii :=
  rev (lstrip (rev (lstrip l))).

(** The digits from the left, [acc] being the value so far, [count] the
    number of digits read and [after_digit] telling whether the character
    before was a digit: an underscore (character 95) is read only there,
    and the text ends only there. *)
Fixpoint read_digits (acc : Z) (count : nat) (after_digit : bool)
    (l : list Ascii.ascii) : option (Z * nat) :=
  match l with
  | [] => if after_digit then Some (acc, count) else None
  | c :: l' =>
      match digit_of c with
      | Some d => read_digits (10 * acc + d) (S count) true l'
      | None =>
          if after_digit && (Ascii.nat_of_ascii c =? 95)
          then read_digits acc count false l'
          else None
      end
  end.

(** A leading [+] (character 43) or [-] (character 45), and what follows
    it. *)
Definition split_sign (l : list Ascii.ascii) : bool * list Ascii.ascii :=
  match l with
  | c :: l' =>
      if Ascii.nat_of_ascii c =? 43 then (false, l')
      else if Ascii.nat_of_ascii c =? 45 then (true, l')
      else (false, l)
  | [] => (false, [])
  end.

(** [int(s)] for a string. CPython refuses a text of more than 4300
    digits (its default limit on the conversion), whatever their value. *)
Definition int_of_string (s : string) : result Z :=
  let '(negative, digits) := split_sign (strip (String.list_ascii_of_string s)) in
  match read_digits 0 0 false digits with
  | Some (z, count) =>
      if decide (count ≤ 4300) then Ok (if negative : bool then - z else z)%Z
      else Raise ValueError
  | None => Raise ValueError
  end.

(** Python's [int(v)]: an integer is itself, a decimal number is truncated
    towards zero, a string is read as the text of a decimal integer, and a
    list has no integer value. *)
Definition py_int (v : value) : result Z :=
  match v with
  | VInt z => Ok z
  | VFloat q => Ok (Z.quot (Qnum q) (Z.pos (Qden q)))
  | VStr s => int_of_string s
  | _ => Raise TypeError
  end.

End Config.

(** ** torch modules as [create_modules] builds them *)

Module Net.

(** Leaf layers. A constructor records its arguments; torch's own checks of
    them are not modelled (it refuses, for one, a convolution whose
    [groups] does not divide its channel counts), so the builder below
    returns for some descriptions torch would refuse. [bias] is the
    layer's bias vector, [None] when it was built with [bias=False].
    Weights and buffers, such as the running statistics of a
    BatchNorm2d, are not recorded. *)
Inductive layer : Type :=
| Conv2d (in_channels out_channels kernel_size : Z) (stride : Z + Z * Z)
    (padding groups : Z) (bias : option (list R))
| BatchNorm2d (num_features : Z)
| LeakyReLU | ReLU | ReLU6 | Swish | Mish | HSwish | HSigmoid
| ZeroPad2d
| MaxPool2d (kernel_size stride padding : Z)
| AvgPool2d (kernel_size stride padding : Z)
| SeModule (in_channels : Z)
| ShuffleBlock (groups : Z)
| Linear (in_features out_features : Z) (bias : option (list R))
| Upsample (scale_factor : Z)
| WeightFeatureFusion (layers : list Z) (weight : bool)
| YOLO (y : YOLOLayer.t).

(** An entry of the module list: an [nn.Sequential] of named children, or a
    layer standing for itself ([modules = maxpool] and the like). *)
Inductive module : Type :=
| Sequential (children : list (string * layer))
| Single (l : layer).

(** [modules.add_module(name, l)] on a Sequential under construction; the
    names the builder uses within one Sequential are distinct. *)
Definition add_module (m : list (string * layer)) (name : string) (l : layer)
  : list (string * layer) := m ++ [(name, l)].

(** [m[0]]: the first child of a Sequential; other modules have no
    subscript. *)
Definition first_child (m : module) : result layer :=
  match m with
  | Sequential children => snd <$> Py.getitem children 0
  | Single _ => Raise TypeError
  end.

(** [l.bias]. Only asked of first children, which are never a
    BatchNorm2d. *)
Definition bias_of (l : layer) : result (option (list R)) :=
  match l with
  | Conv2d _ _ _ _ _ _ b => Ok b
  | Linear _ _ b => Ok b
  | _ => Raise AttributeError
  end.

(** [l.bias = torch.nn.Parameter(b)] *)
Definition set_bias (b : list R) (l : layer) : layer :=
  match l with
  | Conv2d i o k s p g _ => Conv2d i o k s p g (Some b)
  | Linear i o _ => Linear i o (Some b)
  | _ => l
  end.

(** [m[0].bias = torch.nn.Parameter(b)] *)
Definition set_first_bias (b : list R) (m : module) : module :=
  match m with
  | Sequential ((name, l) :: children) => Sequential ((name, set_bias b l) :: children)
  | _ => m
  end.

End Net.

(** ** The graph builder: [create_modules] *)

Module Builder.
Import Config Net.

(** [torch.Tensor(anchors)] of the rows a yolo record selects. *)
Definition anchor_tensor (l : list (Q * Q)) : list (R * R) :=
  (fun wh => (Q2R wh.1, Q2R wh.2)) <$> l.

(** Sum, the mean of a slice ([None] stands for the NaN an empty slice
    gives), and the two operations of the bias initialisation on a slice
    given by a predicate on flat positions: reading it, and adding a
    scalar to it in place. *)
Definition Rsum (l : list R) : R := foldr Rplus 0%R l.

Definition mean (l : list R) : option R :=
  match l with
  | [] => None
  | _ => Some (Rsum l / INR (length l))%R
  end.

Fixpoint select_from (P : nat → bool) (i : nat) (b : list R) : list R :=
  match b with
  | [] => []
  | v :: b' =>
      if P i then v :: select_from P (S i) b' else select_from P (S i) b'
  end.

Fixpoint add_from (P : nat → bool) (d : R) (i : nat) (b : list R) : list R :=
  match b with
  | [] => []
  | v :: b' => (if P i then (v + d)%R else v) :: add_from P d (S i) b'
  end.

Definition select (P : nat → bool) (b : list R) : list R := select_from P 0 b.

(** [s += target - s.mean()] for the slice [s] that [P] selects. Adding to
    an empty slice changes nothing, whatever its mean. *)
Definition shift_mean (P : nat → bool) (target : R) (b : list R) : list R :=
  match mean (select P b) with
  | Some m => add_from P (target - m)%R 0 b
  | None => b
  end.

(** Column 4 and columns 5 onward of the first [rows] rows of [cols]
    entries. *)
Definition obj_slice (rows cols : nat) (k : nat) : bool :=
  bool_decide (k < rows * cols) && bool_decide (k mod cols = 4).
Definition cls_slice (rows cols : nat) (k : nat) : bool :=
  bool_decide (k < rows * cols) && bool_decide (5 ≤ k mod cols).

(** The arithmetic of the [try] block on the bias vector [bias_] of the
    target layer, for a head with [na] anchors and [no] outputs each:
[[
    bias = bias_[:no * na].view(na, -1)
    bias[:, 4] += bo - bias[:, 4].mean()
    bias[:, 5:] += bc - bias[:, 5:].mean()
]]
    [bias] shares its storage with [bias_], so the result is [bias_] with
    the two slices shifted.

    [bias_] is the parameter of a layer and requires grad, and [bias] is a
    view of it. [grad_enabled] is torch's grad mode while the builder runs
    ([torch.is_grad_enabled()]: on unless the caller has switched it off,
    as under [torch.no_grad()]). With it on, torch refuses the first
    in-place addition, once the subscript [bias[:, 4]] has been read: a
    view of a leaf that requires grad is not to be written in place. *)
Definition shift_biases (grad_enabled : bool) (na : nat) (no : Z) (bo bc : R)
    (bias_ : list R) : result (list R) :=
  let n := length (take (Z.to_nat (no * Z.of_nat na)) bias_) in
  s ← Tensor.infer_size [Z.of_nat na; (-1)%Z] n;
  match s with
  | [rows; cols] =>
      if decide (4 < cols) then
        if grad_enabled then Raise RuntimeError
        else
          let bias_ := shift_mean (obj_slice rows cols) bo bias_ in
          let bias_ := shift_mean (cls_slice rows cols) bc bias_ in
          Ok bias_
      else Raise IndexError
  | _ => Raise RuntimeError
  end.

(** [math.log(1 / (nc - 0.99))]: a domain error unless the argument is
    positive, which for an integer [nc] means [1 <= nc]. *)
Definition cls_bias (nc : Z) : result R :=
  if decide (1 <= nc)%Z then Ok (ln (1 / (IZR nc - 99 / 100)))%R
  else Raise ValueError.

(** The types the chain of branches knows. *)
Definition recognized (type : value) : bool :=
  is_str type "convolutional" || is_str type "maxpool" || is_str type "avgpool"
  || is_str type "semodule" || is_str type "shuffle" || is_str type "dense"
  || is_str type "upsample" || is_str type "route" || is_str type "shortcut"
  || is_str type "yolo".

(** The layer a reference of record [i] names: a negative one counts back
    from [i]. *)
Definition referenced (i : nat) (layer : Z) : nat :=
  Z.to_nat (if decide (layer < 0)%Z then Z.of_nat i + layer else layer)%Z.

(** The local variables of [create_modules] that live across iterations,
    and what it printed. [filters] is unbound until a branch assigns
    it. *)
Record state : Type := State {
  output_filters : list Z;
  module_list : list module;
  routs : list Z;
  yolo_index : Z;
  filters : option Z;
  stdout : list string }.

Definition print (line : string) (st : state) : state :=
  {| output_filters := output_filters st; module_list := module_list st;
     routs := routs st; yolo_index := yolo_index st; filters := filters st;
     stdout := stdout st ++ [line] |}.

(** [[i + layer if layer < 0 else layer for layer in layers]] *)
Definition absolute (i : nat) (layers : list Z) : list Z :=
  (fun layer => if decide (layer < 0)%Z then (Z.of_nat i + layer)%Z else layer) <$> layers.

(** [j = layers[yolo_index] if "from" in module else -1] *)
Definition target_index (module : spec) (layers : list Z) (yolo_index : Z) : result Z :=
  if has module "from" then Py.getitem layers yolo_index else Ok (-1)%Z.

(** [module_list[j][0].bias], as a vector: slicing [None] is a TypeError. *)
Definition target_bias (module_list : list Net.module) (j : Z) : result (list R) :=
  target ← Py.getitem module_list j;
  l ← first_child target;
  bias_ ← bias_of l;
  from_option Ok (Raise TypeError) bias_.

(** [module_list[j][0].bias = torch.nn.Parameter(bias_)] *)
Definition set_target_bias (module_list : list Net.module) (j : Z) (bias_ : list R)
  : result (list Net.module) :=
  target ← Py.getitem module_list j;
  Py.setitem module_list j (set_first_bias bias_ target).

(** The body of the [try] block of the yolo branch; it returns the module
    list with the target layer's bias replaced. *)
Definition smart_bias (grad_enabled : bool) (module : spec) (layers : list Z)
    (yolo_index : Z) (modules : YOLOLayer.t) (module_list : list Net.module)
  : result (list Net.module) :=
  let bo := (- (45 / 10))%R in
  bc ← cls_bias (YOLOLayer.nc modules);
  j ← target_index module layers yolo_index;
  bias_ ← target_bias module_list j;
  bias_ ← shift_biases grad_enabled (YOLOLayer.na modules) (YOLOLayer.no modules)
            bo bc bias_;
  set_target_bias module_list j bias_.

(** The activation chain of the convolutional branch. *)
Definition activation (name : value) : option layer :=
  if is_str name "leaky" then Some LeakyReLU
  else if is_str name "relu" then Some ReLU
  else if is_str name "relu6" then Some ReLU6
  else if is_str name "swish" then Some Swish
  else if is_str name "mish" then Some Mish
  else if is_str name "hswish" then Some HSwish
  else if is_str name "hsigmoid" then Some HSigmoid
  else None.

Section Build.

(** torch's grad mode while the builder runs. [train] and
    [Darknet.__init__] leave it as they find it: on, unless their caller
    has switched it off. *)
Variable grad_enabled : bool.

(** The values torch draws for a fresh bias vector: entry [c] of the bias
    of the layer built for record [i]. *)
Variable init_bias : nat → nat → R.

Definition fresh_bias (i : nat) (n : Z) : list R :=
  init_bias i <$> seq 0 (Z.to_nat n).

(** What one branch of the loop body leaves: the module it built and the
    state with [filters], [routs], [yolo_index], [module_list] (the bias
    initialisation writes to it) and [stdout] as the branch set them. *)
Definition branch (st : state) (i : nat) (module : spec) : result (Net.module * state) :=
  let with_filters (f : Z) (r : list Z) : state :=
    {| output_filters := output_filters st; module_list := module_list st;
       routs := routs st ++ r; yolo_index := yolo_index st; filters := Some f;
       stdout := stdout st |} in
  type ← get module "type";
  if is_str type "convolutional" then
    bn ← get_int module "batch_normalize";
    in_channels ← (if has module "in_features" then get_int module "in_features"
                   else Py.getitem (output_filters st) (-1));
    filters ← get_int module "filters";
    size ← get_int module "size";
    stride ← (if has module "stride" then inl <$> get_int module "stride"
              else sy ← get_int module "stride_y";
                   sx ← get_int module "stride_x";
                   Ok (inr (sy, sx)));
    groups ← (if has module "groups" then get_int module "groups" else Ok 1%Z);
    pad ← get_int module "pad";
    let padding := if decide (pad ≠ 0%Z) then ((size - 1) / 2)%Z else 0%Z in
    let bias := if decide (bn ≠ 0%Z) then None else Some (fresh_bias i filters) in
    let modules := add_module [] "Conv2d"
                     (Conv2d in_channels filters size stride padding groups bias) in
    let modules := if decide (bn ≠ 0%Z)
                   then add_module modules "BatchNorm2d" (BatchNorm2d filters)
                   else modules in
    let r := if decide (bn ≠ 0%Z) then [] else [Z.of_nat i] in
    act ← get module "activation";
    let modules := match activation act with
                   | Some l => add_module modules "activation" l
                   | None => modules
                   end in
    Ok (Sequential modules, with_filters filters r)
  else if is_str type "maxpool" then
    size ← get_int module "size";
    stride ← get_int module "stride";
    let maxpool := MaxPool2d size stride ((size - 1) / 2)%Z in
    if decide (size = 2%Z ∧ stride = 1%Z)
    then Ok (Sequential (add_module (add_module [] "ZeroPad2d" ZeroPad2d)
                           "MaxPool2d" maxpool), st)
    else Ok (Single maxpool, st)
  else if is_str type "avgpool" then
    size ← get_int module "size";
    stride ← get_int module "stride";
    Ok (Sequential (add_module [] "AvgPool2d"
                      (AvgPool2d size stride ((size - 1) / 2)%Z)), st)
  else if is_str type "semodule" then
    in_channels ← get_int module "in_features";
    Ok (Sequential (add_module [] "SeModule" (SeModule in_channels)), st)
  else if is_str type "shuffle" then
    groups ← get_int module "groups";
    Ok (Sequential (add_module [] "ShuffleBlock" (ShuffleBlock groups)), st)
  else if is_str type "dense" then
    bn ← get_int module "batch_normalize";
    in_features ← get_int module "in_features";
    out_features ← get_int module "out_features";
    let bias := if decide (bn ≠ 0%Z) then None else Some (fresh_bias i out_features) in
    let modules := add_module [] "Linear" (Linear in_features out_features bias) in
    let modules := if decide (bn ≠ 0%Z)
                   then add_module modules "BatchNorm2d" (BatchNorm2d out_features)
                   else modules in
    Ok (Sequential modules, st)
  else if is_str type "upsample" then
    stride ← get_int module "stride";
    Ok (Single (Upsample stride), st)
  else if is_str type "route" then
    layers ← get_ints module "layers";
    counts ← Py.comprehension
                (fun layer => Py.getitem (output_filters st)
                                (if decide (layer > 0)%Z then (layer + 1)%Z else layer))
                layers;
    Ok (Sequential [], with_filters (foldr Z.add 0%Z counts) (absolute i layers))
  else if is_str type "shortcut" then
    layers ← get_ints module "from";
    filters ← Py.getitem (output_filters st) (-1);
    Ok (Single (WeightFeatureFusion layers (has module "weights_type")),
        with_filters filters (absolute i layers))
  else if is_str type "yolo" then
    let yolo_index := (yolo_index st + 1)%Z in
    layers ← (if has module "from" then get_ints module "from" else Ok []);
    anchors ← get module "anchors" ≫= as_anchors;
    mask ← get_ints module "mask";
    anchors ← Py.comprehension (Py.getitem anchors) mask;
    nc ← get_int module "classes";
    let modules := YOLOLayer.init (anchor_tensor anchors) nc yolo_index layers in
    let st := {| output_filters := output_filters st; module_list := module_list st;
                 routs := routs st; yolo_index := yolo_index; filters := filters st;
                 stdout := stdout st |} in
    let st :=
      match smart_bias grad_enabled module layers yolo_index modules (module_list st) with
      | Ok ml =>
          {| output_filters := output_filters st; module_list := ml;
             routs := routs st; yolo_index := yolo_index; filters := filters st;
             stdout := stdout st |}
      | Raise _ => print "WARNING: smart bias initialization failure." st
      end in
    Ok (Single (YOLO modules), st)
  else
    Ok (Sequential [],
        print ("Warning: Unrecognized Layer Type: " ++ format type) st).

(** One iteration of the loop: the branch, then
[[
    module_list.append(modules)
    output_filters.append(filters)
]]
    The second line reads the local [filters]: an UnboundLocalError when
    no branch has assigned it so far. *)
Definition body (st : state) (im : nat * spec) : result state :=
  '(modules, st) ← branch st im.1 im.2;
  let module_list := module_list st ++ [modules] in
  match filters st with
  | Some f =>
      Ok {| output_filters := output_filters st ++ [f]; module_list := module_list;
            routs := routs st; yolo_index := yolo_index st; filters := Some f;
            stdout := stdout st |}
  | None => Raise (UnboundLocalError "filters")
  end.

(** The loop of [create_modules] over the records left after [pop(0)],
    from the locals as they are set before it. *)
Definition run_loop (channels : Z) (module_defines : list spec) : result state :=
  Py.for_each body
    {| output_filters := [channels]; module_list := []; routs := [];
       yolo_index := (-1)%Z; filters := None; stdout := [] |}
    (Py.enumerate module_defines).

(** [create_modules(module_defines, image_size)] with ONNX_EXPORT off, so
    that [image_size] is not read. The caller's list is mutated by
    [pop(0)]: the function returns it as the call leaves it, next to the
    module list, the routed mask and what was printed. *)
Definition create_modules (module_defines : list spec)
  : result (list spec * list Net.module * list bool * list string) :=
  match module_defines with
  | [] => Raise IndexError
  | hyper_params :: module_defines =>
      channels ← get hyper_params "channels" ≫= py_int;
      st ← run_loop channels module_defines;
      i ← (match module_defines with
           | [] => Raise (UnboundLocalError "i")
           | _ => Ok (length module_defines - 1)
           end);
      routs_binary ← Py.for_each (fun rb i => Py.setitem rb i true)
                       (replicate (i + 1) false) (routs st);
      Ok (module_defines, module_list st, routs_binary, stdout st)
  end.

End Build.

End Builder.

(** ** The model graph: [class Darknet] *)

Module Darknet.
Import Tensor Config Net.

(** The attributes of a model the builder and [forward] use. *)
Record t : Type := Model {
  module_defines : list spec;
  module_list : list Net.module;
  routs : list bool;
  yolo_layers : list nat;
  training : bool }.

(** An item of the output history, and a value of the local [x]: a tensor,
    or the empty list [[]] that stands in for an output nobody reads. *)
Inductive entry : Type :=
| ETensor (x : tensor R)
| EEmpty.

(** What [forward] returns: the list of the heads' outputs as it stands in
    training mode, the decoded detections of all heads and the raw
    predictions otherwise. *)
Inductive prediction : Type :=
| Train (yolo_out : list YOLOLayer.output)
| Infer (io : tensor R) (p : list (tensor R)).

(** The locals of [forward] that live across iterations, and the module
    list, whose detection heads cache their grids. *)
Record frame : Type := Frame {
  x : entry;
  out : list entry;
  yolo_out : list YOLOLayer.output;
  modules : list Net.module }.

(** [get_yolo_layers(model)] *)
Definition get_yolo_layers (module_defines : list spec) : result (list nat) :=
  let tag (ix : nat * spec) : result (nat * bool) :=
    type ← get ix.2 "type"; Ok (ix.1, is_str type "yolo") in
  tagged ← Py.comprehension tag (Py.enumerate module_defines);
  Ok (fst <$> filter (fun ix : nat * bool => ix.2 = true) (tagged : list (nat * bool))).

Section Forward.

Variable grad_enabled : bool.
Variable init_bias : nat → nat → R.
Variable cell_stride : list nat → nat * nat → R.

(** torch and [WeightFeatureFusion] (of [easydet/model/fuse.py]) are outside
    the sources: what a convolutional, upsample or maxpool module computes,
    what the fusion computes from the current tensor and the history,
    [torch.cat(tensors, 1)] and [F.interpolate(x, scale_factor=[0.5, 0.5])]
    are parameters. Each may raise. *)
Variable run : Net.module → tensor R → result (tensor R).
Variable fuse : list Z → bool → tensor R → list entry → result (tensor R).
Variable cat : list (tensor R) → result (tensor R).
Variable interpolate : tensor R → result (tensor R).

(** [Darknet.__init__] given what [parse_model_config(config)] returned.
    [create_modules] pops the first record off the list the model
    keeps. *)
Definition init (parsed : list spec) : result t :=
  '(module_defines, module_list, routs, _) ← Builder.create_modules grad_enabled init_bias parsed;
  yolo_layers ← get_yolo_layers module_defines;
  Ok {| module_defines := module_defines; module_list := module_list;
        routs := routs; yolo_layers := yolo_layers; training := true |}.

(** A tensor is expected where [[]] may stand. *)
Definition as_tensor (e : entry) : result (tensor R) :=
  match e with
  | ETensor x => Ok x
  | EEmpty => Raise TypeError
  end.

(** [torch.cat([out[i] for i in layers], 1)] *)
Definition cat_history (out : list entry) (layers : list Z) : result (tensor R) :=
  tensors ← Py.comprehension (fun i => e ← Py.getitem out i; as_tensor e) layers;
  cat tensors.

Definition set_x (e : entry) (fr : frame) : frame :=
  {| x := e; out := out fr; yolo_out := yolo_out fr; modules := modules fr |}.

(** [x = module(x, out)] of the shortcut branch: a call with two arguments
    is the fusion layer's. *)
Definition call_fusion (module : Net.module) (fr : frame) : result frame :=
  match module with
  | Single (WeightFeatureFusion layers weight) =>
      x ← as_tensor (x fr);
      x ← fuse layers weight x (out fr);
      Ok (set_x (ETensor x) fr)
  | _ => Raise TypeError
  end.

(** The route branch. *)
Definition route (layers : list Z) (fr : frame) : result frame :=
  if decide (length layers = 1) then
    l0 ← Py.getitem layers 0;
    x ← Py.getitem (out fr) l0;
    Ok (set_x x fr)
  else
    match cat_history (out fr) layers with
    | Ok x => Ok (set_x (ETensor x) fr)
    | Raise _ =>
        l1 ← Py.getitem layers 1;
        e1 ← Py.getitem (out fr) l1;
        t1 ← as_tensor e1;
        half ← interpolate t1;
        out ← Py.setitem (out fr) l1 (ETensor half);
        x ← cat_history out layers;
        Ok {| x := ETensor x; out := out; yolo_out := yolo_out fr;
              modules := modules fr |}
    end.

(** [yolo_out.append(module(x, image_size, out))]: a call with three
    arguments is the detection head's. The head is stored back as the call
    left it. *)
Definition call_yolo (i : nat) (module : Net.module) (image_size : list nat)
    (fr : frame) : result frame :=
  match module with
  | Single (YOLO y) =>
      pred ← as_tensor (x fr);
      let r := YOLOLayer.forward cell_stride y pred image_size in
      o ← r.2;
      Ok {| x := x fr; out := out fr; yolo_out := yolo_out fr ++ [o];
            modules := <[i := Single (YOLO r.1.1)]> (modules fr) |}
  | _ => Raise TypeError
  end.

(** The dispatch on the record's type. *)
Definition dispatch (i : nat) (module_define : spec) (module : Net.module)
    (image_size : list nat) (fr : frame) : result frame :=
  module_type ← get module_define "type";
  if is_str module_type "convolutional" || is_str module_type "upsample"
     || is_str module_type "maxpool" then
    x ← as_tensor (x fr);
    x ← run module x;
    Ok (set_x (ETensor x) fr)
  else if is_str module_type "shortcut" then call_fusion module fr
  else if is_str module_type "route" then
    layers ← get_ints module_define "layers";
    route layers fr
  else if is_str module_type "yolo" then call_yolo i module image_size fr
  else Ok fr.

(** One iteration of the loop of [forward]: the dispatch, then
    [out.append(x if self.routs[i] else [])]. *)
Definition step (routs : list bool) (image_size : list nat) (fr : frame)
    (item : nat * (spec * Net.module)) : result frame :=
  fr ← dispatch item.1 item.2.1 item.2.2 image_size fr;
  routed ← Py.getitem routs (Z.of_nat item.1);
  Ok {| x := x fr; out := out fr ++ [if (routed : bool) then x fr else EEmpty];
        yolo_out := yolo_out fr; modules := modules fr |}.

(** [enumerate(zip(self.module_defines, self.module_list))] *)
Definition items (self : t) : list (nat * (spec * Net.module)) :=
  Py.enumerate (zip (module_defines self) (module_list self)).

(** The locals at the head of the loop: [yolo_out, out = [], []]. *)
Definition enter (self : t) (input : tensor R) : frame :=
  {| x := ETensor input; out := []; yolo_out := []; modules := module_list self |}.

(** [x.shape[-2:]] *)
Definition image_size_of (input : tensor R) : list nat :=
  drop (length (shape input) - 2) (shape input).

(** The locals after the first [k] layers of a call [forward(input)]. *)
Definition run_layers (self : t) (input : tensor R) (k : nat) : result frame :=
  Py.for_each (step (routs self) (image_size_of input)) (enter self input)
    (take k (items self)).

(** The tail of [forward]: what is returned for the collected outputs.
    The unzipping of [yolo_out] into [io, p] takes pairs: a model in
    evaluation mode has its heads in evaluation mode, and a head's training
    output is refused there. *)
Definition finish (training : bool) (yolo_out : list YOLOLayer.output) : result prediction :=
  if training then Ok (Train yolo_out)
  else
    pairs ← Py.comprehension
              (fun o => match o with
                        | YOLOLayer.OutInfer io p => Ok (io, p)
                        | _ => Raise TypeError
                        end) yolo_out;
    match pairs with
    | [] => Raise ValueError
    | _ => io ← cat (fst <$> pairs); Ok (Infer io (snd <$> pairs))
    end.

(** [Darknet.forward(x)] with ONNX_EXPORT off. It returns the prediction
    and the model as the call leaves it: of what a model records here,
    the grids its heads cached. (The buffers a call in training mode
    updates inside torch's layers are not recorded.) The output history
    is a local of the call. *)
Definition forward (self : t) (input : tensor R) : result (prediction * t) :=
  fr ← run_layers self input (length (items self));
  r ← finish (training self) (yolo_out fr);
  Ok (r, {| module_defines := module_defines self; module_list := modules fr;
            routs := routs self; yolo_layers := yolo_layers self;
            training := training self |}).

End Forward.

End Darknet.

(** ** The training loop: [train] of [train.py]

    The control flow of the epoch and batch loops, with the effects that
    matter to it as a trace of events. What the loop calls but does not
    decide (the losses [compute_loss] yields, what [evaluate] reports,
    [fitness]) are parameters. The set-up before the loop and the plotting
    after it are left out. *)

Module Train.

(** The scalar [loss]: a number, an infinity or NaN. *)
Inductive loss : Type :=
| Finite (q : Q)
| PosInf
| NegInf
| NaN.

(** [torch.isfinite(loss)] *)
Definition isfinite (l : loss) : bool :=
  match l with
  | Finite _ => true
  | _ => false
  end.

(** The tuple [results]: P, R, mAP, F1 and the three validation losses. *)
Record results : Type := Results {
  res_P : Q; res_R : Q; res_mAP : Q; res_F1 : Q;
  val_giou : Q; val_obj : Q; val_cls : Q }.

(** [results = (0, 0, 0, 0, 0, 0, 0)] *)
Definition zero_results : results :=
  {| res_P := 0; res_R := 0; res_mAP := 0; res_F1 := 0;
     val_giou := 0; val_obj := 0; val_cls := 0 |}.

(** The command line arguments the loops read; the counts are taken
    non-negative. *)
Record args : Type := Args {
  epochs : nat;
  accumulate : nat;
  multi_scale : bool;
  notest : bool;
  nosave : bool;
  evolve : bool }.

Inductive event : Type :=
| Warned (epoch index : nat)
| Backward (epoch index : nat)
| OptimizerStep (ni : nat)
| SchedulerStep (epoch : nat)
| Evaluated (epoch : nat)
| SavedCheckpoint (epoch : nat)
| SavedBest (epoch : nat).

(** The locals [results] and [best_fitness], and what has happened. *)
Record state : Type := State {
  cur_results : results;
  best_fitness : Q;
  trace : list event }.

(** How a piece of the loop ends: it falls through, [train] returns, or an
    exception leaves [train]. *)
Inductive signal : Type :=
| Next
| Return (r : results)
| Throw (e : exn).

Definition log (e : event) (st : state) : state :=
  {| cur_results := cur_results st; best_fitness := best_fitness st;
     trace := trace st ++ [e] |}.

Section Loop.

(** [fitness] of the utilities, the loss [compute_loss] gives for batch
    [index] of an epoch, the results [evaluate] reports after an epoch, the
    number of batches the loader yields, and where a checkpoint makes the
    run start. *)
Variable fitness : results → Q.
Variable loss_at : nat → nat → loss.
Variable evaluate : nat → results.
Variable batches_num : nat.
Variable start_epoch : nat.
Variable start_fitness : Q.

(** The body of the batch loop. *)
Definition batch (a : args) (epoch : nat) (st : state) (index : nat) : state * signal :=
  let ni := index + batches_num * epoch in
  if multi_scale a && bool_decide (accumulate a = 0) then (st, Throw ZeroDivisionError)
  else if negb (isfinite (loss_at epoch index)) then
    (log (Warned epoch index) st, Return (cur_results st))
  else
    let st := log (Backward epoch index) st in
    if decide (accumulate a = 0) then (st, Throw ZeroDivisionError)
    else if decide (ni mod accumulate a = 0) then (log (OptimizerStep ni) st, Next)
    else (st, Next).

(** A loop whose body may return or raise. *)
Fixpoint loop {A} (body : state → A → state * signal) (st : state) (l : list A)
  : state * signal :=
  match l with
  | [] => (st, Next)
  | x :: l' =>
      match body st x with
      | (st', Next) => loop body st' l'
      | r => r
      end
  end.

(** The epoch's work after its batches: the scheduler step, the
    evaluation, the line written to [results.txt], the fitness bookkeeping
    and the checkpoints. The line is [context + ...], and [context] is
    still the [None] of the set-up when the loader has yielded no batch:
    adding a string to it is a TypeError. The local [state] is bound only
    when [save] holds. *)
Definition after_batches (a : args) (epoch : nat) (st : state) : state * signal :=
  let st := log (SchedulerStep epoch) st in
  let final_epoch := bool_decide (epoch + 1 = epochs a) in
  let st :=
    if negb (notest a) || final_epoch
    then log (Evaluated epoch)
           {| cur_results := evaluate epoch; best_fitness := best_fitness st;
              trace := trace st |}
    else st in
  if decide (batches_num = 0) then (st, Throw TypeError)
  else
    let fitness_i := fitness (cur_results st) in
    let best := if Qlt_le_dec (best_fitness st) fitness_i
                then fitness_i else best_fitness st in
    let st := {| cur_results := cur_results st; best_fitness := best;
                 trace := trace st |} in
    let save := negb (nosave a) || (final_epoch && negb (evolve a)) in
    if save then
      let st := log (SavedCheckpoint epoch) st in
      if Qeq_bool best fitness_i then (log (SavedBest epoch) st, Next)
      else (st, Next)
    else (st, Throw (UnboundLocalError "state")).

(** The body of the epoch loop. *)
Definition one_epoch (a : args) (st : state) (epoch : nat) : state * signal :=
  match loop (batch a epoch) st (seq 0 batches_num) with
  | (st, Next) => after_batches a epoch st
  | r => r
  end.

(** The locals at the head of the epoch loop. *)
Definition enter : state :=
  {| cur_results := zero_results; best_fitness := start_fitness; trace := [] |}.

(** [for epoch in range(start_epoch, args.epochs)] *)
Definition epoch_range (a : args) : list nat :=
  seq start_epoch (epochs a - start_epoch).

(** [train()]: the state the run ends in, and what it returns or raises.
    After the loop it returns [results]; the summary line it prints before
    reads [epoch], which the set-up has bound to 0, so a run whose range of
    epochs is empty returns the all-zero [results] of the set-up. *)
Definition train (a : args) : state * result results :=
  match loop (one_epoch a) enter (epoch_range a) with
  | (st, Next) => (st, Ok (cur_results st))
  | (st, Return r) => (st, Ok r)
  | (st, Throw e) => (st, Raise e)
  end.

(** The results with the best fitness among the evaluations a run has
    made so far, given in the order they were made; none when no
    evaluation ran. *)
Definition best_of (evaluated : list results) : option results :=
  foldl (fun best r =>
           match best with
           | Some b => if Qlt_le_dec (fitness b) (fitness r) then Some r else Some b
           | None => Some r
           end) None evaluated.

(** The epochs evaluated in a trace, in order. *)
Definition evaluations (tr : list event) : list results :=
  omap (fun e => match e with Evaluated epoch => Some (evaluate epoch) | _ => None end) tr.

End Loop.

End Train.

(** ** What the builder marks and what [forward] keeps *)

Module Routing.
Import Config Builder.

(** What the branch for record [i] appends to [routs]: [i] itself for a
    convolution without batch normalisation ([routs.append(i)]), the
    layers a route or a shortcut names, a negative one counted back from
    [i] ([routs.extend([i + layer if layer < 0 else layer ...])]), and
    nothing for the other types. *)
Definition marks (i : nat) (module : spec) : list Z :=
  match get module "type" with
  | Ok type =>
      if is_str type "convolutional" then
        match get_int module "batch_normalize" with
        | Ok bn => if decide (bn ≠ 0%Z) then [] else [Z.of_nat i]
        | Raise _ => []
        end
      else if is_str type "route" then
        match get_ints module "layers" with
        | Ok layers => absolute i layers
        | Raise _ => []
        end
      else if is_str type "shortcut" then
        match get_ints module "from" with
        | Ok layers => absolute i layers
        | Raise _ => []
        end
      else []
  | Raise _ => []
  end.

(** The channel counts of a module that starts with a convolution:
    [in_channels] and [out_channels] of [module[0]]. *)
Definition conv_channels (a : Net.module) : option (Z * Z) :=
  match a with
  | Net.Sequential ((_, Net.Conv2d cin cout _ _ _ _ _) :: _) => Some (cin, cout)
  | _ => None
  end.

(** The history up to layer [k] holds tensors where the mask is set. *)
Definition routed_are_tensors (routs : list bool) (k : nat) (out : list Darknet.entry)
  : Prop :=
  ∀ j, j < k → routs !! j = Some true → ∃ t, out !! j = Some (Darknet.ETensor t).

(** A record of type yolo. *)
Definition is_yolo (module : spec) : bool :=
  match get module "type" with
  | Ok type => is_str type "yolo"
  | Raise _ => false
  end.

(** The line the yolo branch prints when its [try] block fails. *)
Definition bias_warning : string := "WARNING: smart bias initialization failure.".

End Routing.

(** ** Fusing batch normalisation into convolutions: [Darknet.fuse] *)

Module Fusing.
Import Config Net.

(** [isinstance(b, nn.modules.batchnorm.BatchNorm2d)] *)
Definition is_batchnorm (l : layer) : bool :=
  match l with
  | BatchNorm2d _ => true
  | _ => false
  end.

(** The loop [for i, b in enumerate(a)] up to its [break]: the position,
    counted from [i], and the layer of the first child that is a batch
    normalisation. *)
Fixpoint first_batchnorm (children : list (string * layer)) (i : nat)
  : option (nat * layer) :=
  match children with
  | [] => None
  | (_, b) :: rest =>
      if is_batchnorm b then Some (i, b) else first_batchnorm rest (S i)
  end.

(** [nn.Sequential(l0, l1, ...)]: the children are named by their
    positions, ["0"], ["1"] and so on. *)
Definition sequential (layers : list layer) : module :=
  Sequential (imap (fun i l => (NilZero.string_of_uint (Nat.to_uint i), l)) layers).

Section Fuse.

(** [fuse_conv_and_bn(conv, bn)] of [easydet/model/fuse.py], which is
    outside the sources: the convolution that computes what [conv]
    followed by [bn] computes. It may raise. *)
Variable fuse_conv_and_bn : layer → layer → result layer.

(** The body of the loop over the module list, for one module [a]:
[[
    if isinstance(a, nn.Sequential):
        for i, b in enumerate(a):
            if isinstance(b, nn.modules.batchnorm.BatchNorm2d):
                conv = a[i - 1]
                fused = fuse_conv_and_bn(conv, b)
                a = nn.Sequential(fused, *list(a.children())[i + 1:])
                break
    fused_list.append(a)
]]
    [a[i - 1]] is a Python subscript: for [i = 0] it is [a[-1]]. *)
Definition fuse_module (a : module) : result module :=
  match a with
  | Sequential children =>
      match first_batchnorm children 0 with
      | Some (i, b) =>
          conv ← snd <$> Py.getitem children (Z.of_nat i - 1);
          fused ← fuse_conv_and_bn conv b;
          Ok (sequential (fused :: (snd <$> drop (S i) children)))
      | None => Ok a
      end
  | Single _ => Ok a
  end.

(** [Darknet.fuse()]: what it prints, and the model it leaves or the
    exception it raises. [self.module_list] is assigned once the loop has
    finished; the summary [self.info()] prints at the end is left out. *)
Definition fuse (self : Darknet.t) : list string * result Darknet.t :=
  (["Fusing Conv2d() and BatchNorm2d() layers..."],
   fused_list ← Py.comprehension fuse_module (Darknet.module_list self);
   Ok {| Darknet.module_defines := Darknet.module_defines self;
         Darknet.module_list := fused_list;
         Darknet.routs := Darknet.routs self;
         Darknet.yolo_layers := Darknet.yolo_layers self;
         Darknet.training := Darknet.training self |}).

End Fuse.

(** No child of the module is a batch normalisation. *)
Definition batchnorm_free (a : module) : Prop :=
  match a with
  | Sequential children => Forall (fun c => is_batchnorm c.2 = false) children
  | Single _ => True
  end.

(** The modules the builder makes hold at most one batch normalisation,
    as their second child. *)
Definition builder_shaped (a : module) : Prop :=
  batchnorm_free a ∨
  ∃ n0 c n1 b post,
    a = Sequential ((n0, c) :: (n1, b) :: post) ∧
    is_batchnorm c = false ∧ is_batchnorm b = true ∧
    Forall (fun c => is_batchnorm c.2 = false) post.

End Fusing.

(** ** The optimizer's parameter groups: the set-up of [train]

[[
    pg0, pg1, pg2 = [], [], []
    for model_key, model_value in dict(model.named_parameters()).items():
        if ".bias" in model_key:
            pg2 += [model_value]
        elif "Conv2d.weight" in model_key:
            pg1 += [model_value]
        else:
            pg0 += [model_value]
]]
    [pg0] is handed to SGD, [pg1] is added with the weight decay and [pg2]
    without. *)

Module ParamGroups.

(** [sub in s] on strings. *)
Fixpoint contains (sub s : string) : bool :=
  String.prefix sub s ||
  match s with
  | EmptyString => false
  | String _ s' => contains sub s'
  end.

Section Groups.

(** What a parameter is does not matter to the grouping. *)
Context {P : Type}.

(** The three lists as the loop leaves them; the names
    [named_parameters()] yields are distinct, so the dict holds them all,
    in order. *)
Definition group (acc : list P * list P * list P) (kv : string * P)
  : list P * list P * list P :=
  let '(pg0, pg1, pg2) := acc in
  if contains ".bias" kv.1 then (pg0, pg1, pg2 ++ [kv.2])
  else if contains "Conv2d.weight" kv.1 then (pg0, pg1 ++ [kv.2], pg2)
  else (pg0 ++ [kv.2], pg1, pg2).

Definition groups (named_parameters : list (string * P)) : list P * list P * list P :=
  foldl group ([], [], []) named_parameters.

End Groups.

End ParamGroups.

(** ** Checkpoints: what an epoch of [train] saves and what a run resumes
       from *)

Module Checkpoint.

Section Files.

(** The state dicts of the model and of the optimizer are opaque here. *)
Context {M O : Type}.

(** The dict [torch.save] writes. *)
Record checkpoint : Type := State {
  epoch : Z;
  best_fitness : option Q;
  training_results : option string;
  model : M;
  optimizer : option O }.

(** The two files: [weights/checkpoint.pth] and
    [weights/model_best.pth]. *)
Record files : Type := Files {
  checkpoint_pth : option checkpoint;
  model_best_pth : option checkpoint }.

(** The end of an epoch, from [save = ...] to [del state]:
[[
    save = (not args.nosave) or (final_epoch and not args.evolve)
    if save:
        with open("results.txt", "r") as f:
            state = {"epoch": epoch, "best_fitness": best_fitness,
                     "training_results": f.read(), "model": ...,
                     "optimizer": None if final_epoch else optimizer.state_dict()}
    torch.save(state, "weights/checkpoint.pth")
    if best_fitness == fitness_i:
        state = {"epoch": -1, "best_fitness": None, "training_results": None,
                 "model": model.state_dict(), "optimizer": None}
        torch.save(state, "weights/model_best.pth")
    del state
]]
    The local [state] is unbound when the step starts: the step of the
    epoch before has deleted it, as the set-up does after loading one.
    [ema_model] is the state dict of the averaged model, [model_now] that
    of the model itself. *)
Definition save_step (a : Train.args) (epoch : nat) (best_fitness fitness_i : Q)
    (results_txt : string) (ema_model model_now : M) (optimizer_now : O) (fs : files)
  : files * result unit :=
  let final_epoch := bool_decide (epoch + 1 = Train.epochs a) in
  let save := negb (Train.nosave a) || (final_epoch && negb (Train.evolve a)) in
  if save then
    let state := {| epoch := Z.of_nat epoch; best_fitness := Some best_fitness;
                    training_results := Some results_txt; model := ema_model;
                    optimizer := if final_epoch then None else Some optimizer_now |} in
    let fs := {| checkpoint_pth := Some state; model_best_pth := model_best_pth fs |} in
    if Qeq_bool best_fitness fitness_i then
      let state := {| epoch := (-1)%Z; best_fitness := None; training_results := None;
                      model := model_now; optimizer := None |} in
      ({| checkpoint_pth := checkpoint_pth fs; model_best_pth := Some state |}, Ok ())
    else (fs, Ok ())
  else (fs, Raise (UnboundLocalError "state")).

End Files.

Arguments checkpoint : clear implicits.
Arguments files : clear implicits.

(** The optimizer, as far as resuming reads it: for each of its parameter
    groups, the number of its parameters and whether the group holds the
    key [initial_lr]. A scheduler adds that key, [optimizer.state_dict()]
    saves the groups with their keys and [load_state_dict] restores
    them. *)
Record group : Type := Group {
  params : nat;
  has_initial_lr : bool }.

(** The optimizer of the set-up: [SGD(pg0, ...)] and the two calls of
    [add_param_group] make three groups, none with [initial_lr]. *)
Definition fresh_optimizer (pg0 pg1 pg2 : nat) : list group :=
  [Group pg0 false; Group pg1 false; Group pg2 false].

(** [optimizer.load_state_dict(saved)] (torch is outside the sources): a
    state whose groups differ in number or in size from the optimizer's
    own is refused; otherwise the saved groups replace them, around the
    optimizer's own parameters. *)
Definition load_state_dict (own saved : list group) : result (list group) :=
  if decide (params <$> own = params <$> saved) then Ok saved else Raise ValueError.

(** The constructor of a scheduler, [LambdaLR(optimizer, ..., last_epoch)]
    (torch is outside the sources):
[[
    if last_epoch == -1:
        for group in optimizer.param_groups:
            group.setdefault("initial_lr", group["lr"])
    else:
        for i, group in enumerate(optimizer.param_groups):
            if "initial_lr" not in group:
                raise KeyError("param 'initial_lr' is not specified "
                               "in param_groups[{}] when resuming an optimizer".format(i))
]] *)
Definition scheduler_init (groups : list group) (last_epoch : Z) : result (list group) :=
  if decide (last_epoch = (-1)%Z)
  then Ok ((fun g => {| params := params g; has_initial_lr := true |}) <$> groups)
  else
    match list_find (fun g => has_initial_lr g = false) groups with
    | Some (i, _) =>
        Raise (KeyError ("param 'initial_lr' is not specified in param_groups["
                         ++ DecimalString.NilZero.string_of_uint (Nat.to_uint i)
                         ++ "] when resuming an optimizer"))
    | None => Ok groups
    end.

Section Resume.

Context {M : Type}.

(** Loading the weights of a checkpoint into the model of the run, the
    [try] block of the set-up: it raises KeyError when the weights do not
    fit the model. *)
Variable load_model : M → result unit.

(** The set-up of [train] from the optimizer to the scheduler, with apex
    not installed:
[[
    start_epoch = 0
    best_fitness = 0.0
    if weights.endswith(".pth"):
        state = torch.load(weights, map_location=device)
        ...                                    # the weights
        if state["optimizer"] is not None:
            optimizer.load_state_dict(state["optimizer"])
            best_fitness = state["best_fitness"]
        ...                                    # results.txt
        start_epoch = state["epoch"] + 1
        del state
    ...
    scheduler = torch.optim.lr_scheduler.LambdaLR(optimizer, lr_lambda=lr_lambda,
                                                  last_epoch=start_epoch - 1)
]]
    [weights] is what the file holds when it is a [.pth] file. The set-up
    yields the epoch the run starts from, the best fitness so far ([None]
    as the file may hold it) and the groups of the optimizer. Rewriting
    [results.txt] is left out. *)
Definition resume (own : list group) (weights : option (checkpoint M (list group)))
  : result (Z * option Q * list group) :=
  '(start_epoch, best_fitness, groups) ←
    match weights with
    | Some state =>
        _ ← load_model (model state);
        '(best_fitness, groups) ←
          match optimizer state with
          | Some saved =>
              groups ← load_state_dict own saved;
              Ok (best_fitness state, groups)
          | None => Ok (Some 0%Q, own)
          end;
        Ok ((epoch state + 1)%Z, best_fitness, groups)
    | None => Ok (0%Z, Some 0%Q, own)
    end;
  groups ← scheduler_init groups (start_epoch - 1);
  Ok (start_epoch, best_fitness, groups).

End Resume.

End Checkpoint.

(** ** The bias warm-up at the head of an epoch of [train] *)

Module Prebias.

(** What the warm-up reads and writes: the local [prebias], the GIoU
    loss ratio [model.gr], and the learning rate and the momentum of the
    optimizer's group of biases, [optimizer.param_groups[2]] (a group
    may have no momentum). *)
Record state : Type := State {
  prebias : bool;
  gr : Q;
  bias_lr : Q;
  bias_momentum : option Q }.

Section Warmup.

(** [parameters["lr0"]] and [parameters["momentum"]]. *)
Variable lr0 momentum : Q.

(** The learning rate [scheduler.step()] gives the biases at the end of
    an epoch; the scheduler is torch's. *)
Variable scheduled_lr : nat → Q.

(** The locals before the epoch loop: [model.gr = 0.0] and
    [prebias = start_epoch == 0], with the optimizer as it was set up. *)
Definition enter (start_epoch : nat) (lr : Q) (m : option Q) : state :=
  {| prebias := bool_decide (start_epoch = 0); gr := 0; bias_lr := lr;
     bias_momentum := m |}.

(** The head of the epoch loop:
[[
    if prebias:
        warmup_epoch = 3
        warmup_parameter = 0.1, 0.9
        if epoch == warmup_epoch:
            warmup_parameter = parameters["lr0"], parameters["momentum"]
            model.gr = 1.0
            prebias = False
        optimizer.param_groups[2]["lr"] = warmup_parameter[0]
        if optimizer.param_groups[2].get("momentum") is not None:
            optimizer.param_groups[2]["momentum"] = warmup_parameter[1]
]] *)
Definition epoch_head (epoch : nat) (st : state) : state :=
  if prebias st then
    let warmup_epoch := 3 in
    let last := bool_decide (epoch = warmup_epoch) in
    let warmup_parameter := if last then (lr0, momentum) else (1 # 10, 9 # 10)%Q in
    {| prebias := if last then false else true;
       gr := if last then 1 else gr st;
       bias_lr := warmup_parameter.1;
       bias_momentum := match bias_momentum st with
                        | Some _ => Some warmup_parameter.2
                        | None => None
                        end |}
  else st.

(** [scheduler.step()] at the end of the epoch's batches. *)
Definition epoch_tail (epoch : nat) (st : state) : state :=
  {| prebias := prebias st; gr := gr st; bias_lr := scheduled_lr epoch;
     bias_momentum := bias_momentum st |}.

(** The state during the batches of epoch [start_epoch + k], the epochs
    before it having run to their ends. *)
Fixpoint during (start_epoch k : nat) (st : state) : state :=
  match k with
  | 0 => epoch_head start_epoch st
  | S k' => during (S start_epoch) k' (epoch_tail start_epoch (epoch_head start_epoch st))
  end.

End Warmup.

End Prebias.

(** ** Sample inputs *)

Module Sample.
Import Tensor Config Net.

(** A grid whose cells are 32 pixels wide whatever the sizes. *)
Definition stride32 : list nat → nat * nat → R := fun _ _ => 32%R.

(** A head with one anchor and one class, so six outputs per anchor; as
    constructed it is in training mode. *)
Definition head : YOLOLayer.t := YOLOLayer.init [(10, 13)%R] 1 0 [].
Definition head_eval : YOLOLayer.t := YOLOLayer.train false head.

(** All-zero feature maps for that head, on a 1x1 and on a 2x2 grid. *)
Definition zeros_1x1 : tensor R := Build [1; 6; 1; 1] (replicate 6 0%R).
Definition zeros_2x2 : tensor R := Build [1; 6; 2; 2] (replicate 24 0%R).

(** Fresh biases are zero. *)
Definition zero_bias : nat → nat → R := fun _ _ => 0%R.

Definition hyper_params : spec := dict [("channels", VInt 3)].

(** A 1x1 convolution without batch normalisation, so with a bias. *)
Definition conv (filters : Z) : spec :=
  dict [("type", VStr "convolutional"); ("batch_normalize", VInt 0);
        ("filters", VInt filters); ("size", VInt 1); ("stride", VInt 1);
        ("pad", VInt 1); ("activation", VStr "linear")].

(** A yolo record with one anchor and one class. *)
Definition yolo : spec :=
  dict [("type", VStr "yolo"); ("anchors", VAnchors [(10 # 1, 13 # 1)%Q]);
        ("mask", VInts [0%Z]); ("classes", VInt 1)].

(** The head that record builds, and the module a convolution of
    [filters] channels with an all-zero bias is. *)
Definition yolo_head : YOLOLayer.t :=
  YOLOLayer.init (Builder.anchor_tensor [(10 # 1, 13 # 1)%Q]) 1 0 [].
Definition conv_module (filters : nat) : Net.module :=
  Sequential [("Conv2d", Conv2d 3 (Z.of_nat filters) 1 (inl 1%Z) 0 1
                           (Some (replicate filters 0%R)))].

(** The two modules with their all-zero biases as the bias initialisation
    of the head above leaves them, when it runs with grad mode off: entry 4
    shifted and, where there is one, entry 5. *)
Definition shifted_conv_module (filters : nat) : Net.module :=
  Sequential
    [("Conv2d",
      Conv2d 3 (Z.of_nat filters) 1 (inl 1%Z) 0 1
        (Some (Builder.shift_mean (Builder.cls_slice 1 filters)
                 (ln (1 / (1 - 99 / 100)))
                 (Builder.shift_mean (Builder.obj_slice 1 filters)
                    (- (45 / 10))%R (replicate filters 0%R)))))].

(** A description whose convolution feeds the head six channels, and one
    whose convolution has five only. *)
Definition net : list spec := [hyper_params; conv 6; yolo].
Definition short_net : list spec := [hyper_params; conv 5; yolo].

(** The model [Darknet.__init__] builds from [net] with grad mode on: the
    bias of the convolution is as torch drew it. *)
Definition model : Darknet.t :=
  {| Darknet.module_defines := [conv 6; yolo];
     Darknet.module_list := [conv_module 6; Single (YOLO yolo_head)];
     Darknet.routs := [true; false];
     Darknet.yolo_layers := [1];
     Darknet.training := true |}.

(** Stand-ins for torch: every module outputs the all-zero 1x1 map. *)
Definition run (_ : Net.module) (_ : tensor R) : result (tensor R) := Ok zeros_1x1.
Definition fuse (_ : list Z) (_ : bool) (x : tensor R) (_ : list Darknet.entry)
  : result (tensor R) := Ok x.
Definition cat (l : list (tensor R)) : result (tensor R) :=
  match l with
  | x :: _ => Ok x
  | [] => Raise RuntimeError
  end.
Definition interpolate (x : tensor R) : result (tensor R) := Ok x.

(** An input image of one pixel. *)
Definition image : tensor R := Build [1; 3; 1; 1] (replicate 3 0%R).

(** A run of three epochs of one batch each: the evaluation of epoch 0
    reports mAP 9/10, that of epoch 1 reports 1/10, and the loss of the
    batch of epoch 2 is NaN. Fitness ranks results by their mAP. *)
Definition nan_run_loss (epoch index : nat) : Train.loss :=
  if bool_decide (epoch = 2) then Train.NaN else Train.Finite 1.
Definition nan_run_evaluate (epoch : nat) : Train.results :=
  {| Train.res_P := 0; Train.res_R := 0;
     Train.res_mAP := if bool_decide (epoch = 0) then 9 # 10 else 1 # 10;
     Train.res_F1 := 0; Train.val_giou := 0; Train.val_obj := 0;
     Train.val_cls := 0 |}.
Definition nan_run_args : Train.args :=
  {| Train.epochs := 3; Train.accumulate := 1; Train.multi_scale := false;
     Train.notest := false; Train.nosave := false; Train.evolve := false |}.
Definition nan_run : Train.state * result Train.results :=
  Train.train Train.res_mAP nan_run_loss nan_run_evaluate 1 0 0 nan_run_args.

(** A 3x3 convolution with batch normalisation, so without a bias. *)
Definition bn_conv (filters : Z) : spec :=
  dict [("type", VStr "convolutional"); ("batch_normalize", VInt 1);
        ("filters", VInt filters); ("size", VInt 3); ("stride", VInt 1);
        ("pad", VInt 1); ("activation", VStr "leaky")].
Definition bn_conv_module (in_channels filters : Z) : Net.module :=
  Sequential [("Conv2d", Conv2d in_channels filters 3 (inl 1%Z) 1 1 None);
              ("BatchNorm2d", BatchNorm2d filters);
              ("activation", LeakyReLU)].

(** The locals of the builder after two such convolutions of 16 and 32
    filters on a 3-channel input. *)
Definition after_two_convs : Builder.state :=
  {| Builder.output_filters := [3; 16; 32]%Z;
     Builder.module_list := [bn_conv_module 3 16; bn_conv_module 16 32];
     Builder.routs := []; Builder.yolo_index := (-1)%Z;
     Builder.filters := Some 32%Z; Builder.stdout := [] |}.

(** A route that concatenates the layer before it and layer 1, and a
    record of a type the builder does not know. *)
Definition route_back_and_1 : spec :=
  dict [("type", VStr "route"); ("layers", VInts [-1; 1]%Z)].
Definition reorg : spec := dict [("type", VStr "reorg")].

(** A record that lacks its type. *)
Definition untyped : spec := dict [("filters", VInt 8)].

(** The sample model after a call of [forward] on the one-pixel image:
    the head has cached the 1x1 grid. *)
Definition model_after_forward : Darknet.t :=
  {| Darknet.module_defines := [conv 6; yolo];
     Darknet.module_list :=
       take 1 (Darknet.module_list model) ++
       [Single (YOLO (YOLOLayer.create_grids stride32 yolo_head [1; 1] (1, 1)))];
     Darknet.routs := [true; false];
     Darknet.yolo_layers := [1];
     Darknet.training := true |}.

(** A model in evaluation mode that is one convolution and no head, and
    the locals of [forward] after its layer. *)
Definition headless : Darknet.t :=
  {| Darknet.module_defines := [conv 6];
     Darknet.module_list := [conv_module 6];
     Darknet.routs := [true];
     Darknet.yolo_layers := [];
     Darknet.training := false |}.
Definition headless_frame : Darknet.frame :=
  {| Darknet.x := Darknet.ETensor zeros_1x1;
     Darknet.out := [Darknet.ETensor zeros_1x1];
     Darknet.yolo_out := [];
     Darknet.modules := [conv_module 6] |}.

(** The model built from two batch-normalised convolutions and the route
    over layers 1 and 1, and the locals of [forward] after its layers. *)
Definition routed_net : list spec :=
  [hyper_params; bn_conv 16; bn_conv 32; route_back_and_1].
Definition routed_model : Darknet.t :=
  {| Darknet.module_defines := [bn_conv 16; bn_conv 32; route_back_and_1];
     Darknet.module_list := [bn_conv_module 3 16; bn_conv_module 16 32; Sequential []];
     Darknet.routs := [false; true; false];
     Darknet.yolo_layers := [];
     Darknet.training := true |}.
Definition routed_frame : Darknet.frame :=
  {| Darknet.x := Darknet.ETensor zeros_1x1;
     Darknet.out := [Darknet.EEmpty; Darknet.ETensor zeros_1x1; Darknet.EEmpty];
     Darknet.yolo_out := [];
     Darknet.modules := [bn_conv_module 3 16; bn_conv_module 16 32; Sequential []] |}.

(** A model with an average pooling after its convolution, and a
    stand-in for torch under which the pooling module fails. *)
Definition avgpool : spec :=
  dict [("type", VStr "avgpool"); ("size", VInt 2); ("stride", VInt 2)].
Definition pooled_model : Darknet.t :=
  {| Darknet.module_defines := [conv 6; avgpool];
     Darknet.module_list :=
       [conv_module 6; Sequential [("AvgPool2d", AvgPool2d 2 2 0)]];
     Darknet.routs := [true; false];
     Darknet.yolo_layers := [];
     Darknet.training := true |}.
Definition run_without_pooling (md : Net.module) (x : tensor R) : result (tensor R) :=
  match md with
  | Sequential (("AvgPool2d", _) :: _) => Raise RuntimeError
  | _ => Ok zeros_1x1
  end.

(** A stand-in for [fuse_conv_and_bn]: the convolution with a bias, the
    values of the fused weights and bias left out. *)
Definition fuse_conv_and_bn (conv bn : layer) : result layer :=
  match conv with
  | Conv2d i o k s p g _ => Ok (Conv2d i o k s p g (Some []))
  | _ => Raise AttributeError
  end.
Definition fused_conv_module (in_channels filters : Z) : Net.module :=
  Sequential [("0", Conv2d in_channels filters 3 (inl 1%Z) 1 1 (Some []));
              ("1", LeakyReLU)].
Definition fused_model : Darknet.t :=
  {| Darknet.module_defines := [bn_conv 16; bn_conv 32; route_back_and_1];
     Darknet.module_list := [fused_conv_module 3 16; fused_conv_module 16 32; Sequential []];
     Darknet.routs := [false; true; false];
     Darknet.yolo_layers := [];
     Darknet.training := true |}.

(** A run of three epochs of three batches with finite losses that steps
    the optimizer every second batch, and one that is not to save. *)
Definition finite_loss (epoch index : nat) : Train.loss := Train.Finite 1.
Definition accumulate_2_args : Train.args :=
  {| Train.epochs := 3; Train.accumulate := 2; Train.multi_scale := false;
     Train.notest := false; Train.nosave := false; Train.evolve := false |}.

(** The locals of the builder after the two records of [net], with grad
    mode on: the head has printed its warning. *)
Definition after_net : Builder.state :=
  {| Builder.output_filters := [3; 6; 6]%Z;
     Builder.module_list := [conv_module 6; Single (YOLO yolo_head)];
     Builder.routs := [0%Z]; Builder.yolo_index := 0%Z;
     Builder.filters := Some 6%Z;
     Builder.stdout := [Routing.bias_warning] |}.

(** Checkpoints of a run of three epochs whose optimizer has groups of
    two, one and one parameters. A state dict of the model stands as a
    number, and each fits the model. The first file is what epoch 0
    saves with the best fitness 9/10, the second what it saves as the
    best model. *)
Definition load_any (_ : nat) : result unit := Ok ().
Definition ready_groups : list Checkpoint.group :=
  [Checkpoint.Group 2 true; Checkpoint.Group 1 true; Checkpoint.Group 1 true].
Definition epoch_0_checkpoint : Checkpoint.checkpoint nat (list Checkpoint.group) :=
  Checkpoint.State 0%Z (Some (9 # 10)%Q) (Some "results") 1 (Some ready_groups).
Definition best_checkpoint : Checkpoint.checkpoint nat (list Checkpoint.group) :=
  Checkpoint.State (-1)%Z None None 2 None.

End Sample.

(** * Properties *)

(** ** Exceptions and Python sequences *)

Section PythonFacts.

Lemma bind_Ok {A B} (m : result A) (f : A → result B) (b : B) :
  m ≫= f = Ok b → ∃ a, m = Ok a ∧ f a = Ok b.
Proof. destruct m as [a|e]; [eauto|done]. Qed.

Lemma for_each_app {S A} (body : S → A → result S) (s : S) (l1 l2 : list A) :
  Py.for_each body s (l1 ++ l2) = Py.for_each body s l1 ≫= fun s' => Py.for_each body s' l2.
Proof.
  revert s. induction l1 as [|x l1 IH]; intros s; [done|].
  simpl. destruct (body s x) as [s'|e]; [apply IH|done].
Qed.

(** A loop whose body keeps a quantity [inv] of the state keeps it. *)
Lemma for_each_invariant {S A} (body : S → A → result S) (P : S → Prop)
    (s s' : S) (l : list A) :
  (∀ s x s', P s → body s x = Ok s' → P s') →
  P s → Py.for_each body s l = Ok s' → P s'.
Proof.
  intros Hstep. revert s. induction l as [|x l IH]; intros s Hs; simpl.
  - by intros [= <-].
  - destruct (body s x) as [s1|e] eqn:Hb; [|done]. eauto.
Qed.

Lemma enumerate_length {A} (l : list A) : length (Py.enumerate l) = length l.
Proof. unfold Py.enumerate. by rewrite length_imap. Qed.

Lemma enumerate_app {A} (l1 l2 : list A) :
  Py.enumerate (l1 ++ l2) =
    Py.enumerate l1 ++ ((fun ia => (length l1 + ia.1, ia.2)) <$> Py.enumerate l2).
Proof.
  unfold Py.enumerate. rewrite imap_app. f_equal.
  rewrite fmap_imap. by apply imap_ext.
Qed.

Lemma enumerate_lookup {A} (l : list A) (i : nat) (a : A) :
  l !! i = Some a → Py.enumerate l !! i = Some (i, a).
Proof. intros H. unfold Py.enumerate. by rewrite list_lookup_imap, H. Qed.

Lemma setitem_length {A} (l l' : list A) (k : Z) (a : A) :
  Py.setitem l k a = Ok l' → length l' = length l.
Proof.
  unfold Py.setitem. intros H. apply bind_Ok in H as (i & _ & [= <-]).
  apply length_insert.
Qed.

Lemma for_each_setitem_length {A} (a : A) (l l' : list A) (ks : list Z) :
  Py.for_each (fun rb i => Py.setitem rb i a) l ks = Ok l' → length l' = length l.
Proof.
  apply (for_each_invariant _ (fun l' => length l' = length l)); [|done].
  intros s k s' Hs Hset. apply setitem_length in Hset. congruence.
Qed.

Lemma comprehension_total {A B} (f : A → result B) (g : A → B) (l : list A) :
  Forall (fun x => f x = Ok (g x)) l → Py.comprehension f l = Ok (g <$> l).
Proof.
  induction 1 as [|x l Hx _ IH]; [done|].
  simpl. rewrite Hx. cbn [mbind result_bind]. rewrite IH. done.
Qed.

Lemma getitem_nonneg {A} `{Inhabited A} (l : list A) (k : Z) :
  (0 <= k < Z.of_nat (length l))%Z → Py.getitem l k = Ok (l !!! Z.to_nat k).
Proof.
  intros Hk. unfold Py.getitem, Py.norm_index. rewrite decide_True by done.
  cbn [mbind result_bind].
  destruct (lookup_lt_is_Some_2 l (Z.to_nat k)) as [a Ha]; [lia|].
  rewrite Ha. by rewrite (list_lookup_total_correct _ _ _ Ha).
Qed.

Lemma getitem_negative {A} `{Inhabited A} (l : list A) (k : Z) :
  (- Z.of_nat (length l) <= k < 0)%Z →
  Py.getitem l k = Ok (l !!! Z.to_nat (Z.of_nat (length l) + k)).
Proof.
  intros Hk. unfold Py.getitem, Py.norm_index.
  rewrite decide_False by lia. rewrite decide_True by done.
  cbn [mbind result_bind].
  destruct (lookup_lt_is_Some_2 l (Z.to_nat (Z.of_nat (length l) + k))) as [a Ha]; [lia|].
  rewrite Ha. by rewrite (list_lookup_total_correct _ _ _ Ha).
Qed.

Lemma lookup_total_imap {A} `{Inhabited A} (f : nat → A → A) (l : list A) (k : nat) :
  k < length l → imap f l !!! k = f k (l !!! k).
Proof.
  intros Hk. apply list_lookup_total_correct.
  rewrite list_lookup_imap.
  destruct (lookup_lt_is_Some_2 l k Hk) as [v Hv].
  rewrite Hv. simpl. by rewrite (list_lookup_total_correct _ _ _ Hv).
Qed.

Lemma lookup_total_fmap_seq {A} `{Inhabited A} (f : nat → A) (n k : nat) :
  k < n → (f <$> seq 0 n) !!! k = f k.
Proof.
  intros Hk. apply list_lookup_total_correct.
  rewrite list_lookup_fmap, lookup_seq_lt by done. done.
Qed.

End PythonFacts.

(** ** Tensors: views and the permutation *)

Section TensorFacts.
Import Tensor.

Lemma divmod_step (q r d : nat) :
  r < d → (q * d + r) / d = q ∧ (q * d + r) mod d = r.
Proof.
  intros Hr. split.
  - symmetry. apply (Nat.div_unique _ d q r); lia.
  - symmetry. apply (Nat.mod_unique _ d q r); lia.
Qed.

Lemma unravel5_ravel5 (d1 d2 d3 d4 i0 i1 i2 i3 i4 : nat) :
  i1 < d1 → i2 < d2 → i3 < d3 → i4 < d4 →
  unravel5 d1 d2 d3 d4 (ravel5 d1 d2 d3 d4 i0 i1 i2 i3 i4) = (i0, i1, i2, i3, i4).
Proof.
  intros H1 H2 H3 H4. unfold unravel5, ravel5.
  destruct (divmod_step (((i0 * d1 + i1) * d2 + i2) * d3 + i3) i4 d4 H4) as [-> ->].
  destruct (divmod_step ((i0 * d1 + i1) * d2 + i2) i3 d3 H3) as [-> ->].
  destruct (divmod_step (i0 * d1 + i1) i2 d2 H2) as [-> ->].
  destruct (divmod_step i0 i1 d1 H1) as [-> ->].
  reflexivity.
Qed.

Lemma ravel5_lt (d0 d1 d2 d3 d4 i0 i1 i2 i3 i4 : nat) :
  i0 < d0 → i1 < d1 → i2 < d2 → i3 < d3 → i4 < d4 →
  ravel5 d1 d2 d3 d4 i0 i1 i2 i3 i4 < d0 * d1 * d2 * d3 * d4.
Proof.
  intros H0 H1 H2 H3 H4. unfold ravel5.
  assert (i0 * d1 + i1 < d0 * d1) by nia.
  assert ((i0 * d1 + i1) * d2 + i2 < d0 * d1 * d2) by nia.
  assert (((i0 * d1 + i1) * d2 + i2) * d3 + i3 < d0 * d1 * d2 * d3) by nia.
  nia.
Qed.

Lemma ravel5_unravel5 (d1 d2 d3 d4 k : nat) :
  0 < d1 → 0 < d2 → 0 < d3 → 0 < d4 →
  let '(i0, i1, i2, i3, i4) := unravel5 d1 d2 d3 d4 k in
  ravel5 d1 d2 d3 d4 i0 i1 i2 i3 i4 = k ∧ i1 < d1 ∧ i2 < d2 ∧ i3 < d3 ∧ i4 < d4.
Proof.
  intros H1 H2 H3 H4. unfold unravel5, ravel5. cbv zeta.
  pose proof (Nat.div_mod_eq k d4).
  pose proof (Nat.div_mod_eq (k / d4) d3).
  pose proof (Nat.div_mod_eq (k / d4 / d3) d2).
  pose proof (Nat.div_mod_eq (k / d4 / d3 / d2) d1).
  pose proof (Nat.mod_upper_bound k d4).
  pose proof (Nat.mod_upper_bound (k / d4) d3).
  pose proof (Nat.mod_upper_bound (k / d4 / d3) d2).
  pose proof (Nat.mod_upper_bound (k / d4 / d3 / d2) d1).
  repeat split; try lia.
Qed.

Lemma filter_known_nonneg (dims : list Z) :
  Forall (fun d => 0 <= d)%Z dims → filter (fun d => d ≠ (-1)%Z) dims = dims.
Proof.
  induction 1 as [|d dims Hd _ IH]; [done|].
  rewrite filter_cons, decide_True by lia. by rewrite IH.
Qed.

(** A view whose extents are all given succeeds exactly when they multiply
    to the number of elements. *)
Lemma infer_size_nonneg (dims : list Z) (n : nat) :
  Forall (fun d => 0 <= d)%Z dims →
  infer_size dims n =
    if decide (numel (Z.to_nat <$> dims) = n) then Ok (Z.to_nat <$> dims)
    else Raise RuntimeError.
Proof.
  intros Hd. unfold infer_size.
  rewrite decide_False.
  - rewrite (filter_known_nonneg _ Hd), length_fmap, Nat.sub_diag. done.
  - rewrite Exists_exists. intros (d & Hin & Hlt).
    rewrite Forall_forall in Hd. specialize (Hd d Hin). lia.
Qed.

Lemma infer_size_5_inv (bs a y x n : nat) (o : Z) (s : list nat) :
  infer_size [Z.of_nat bs; Z.of_nat a; o; Z.of_nat y; Z.of_nat x] n = Ok s →
  (-1 <= o)%Z ∧
  ((0 <= o)%Z → s = [bs; a; Z.to_nat o; y; x] ∧ bs * (a * (Z.to_nat o * (y * x))) = n).
Proof.
  intros H. destruct (decide (o < -1)%Z) as [Hlt|Hge].
  - unfold infer_size in H. rewrite decide_True in H; [done|].
    apply Exists_cons_tl, Exists_cons_tl, Exists_cons_hd. done.
  - split; [lia|]. intros Ho.
    rewrite infer_size_nonneg in H by (repeat constructor; lia).
    case_decide as Hn; [|done]. injection H as <-.
    cbn [fmap list_fmap numel foldr] in *. rewrite !Nat2Z.id, Nat.mul_1_r in *.
    done.
Qed.

Lemma infer_size_3_inv (bs n : nat) (o : Z) (s : list nat) :
  infer_size [Z.of_nat bs; (-1)%Z; o] n = Ok s →
  (0 <= o)%Z ∧ s = [bs; n / (bs * Z.to_nat o); Z.to_nat o] ∧
  0 < bs * Z.to_nat o ∧ n mod (bs * Z.to_nat o) = 0.
Proof.
  unfold infer_size. case_decide as Hex; [done|].
  assert (-1 <= o)%Z as Ho.
  { destruct (decide (o < -1)%Z); [|lia]. destruct Hex.
    apply Exists_cons_tl, Exists_cons_tl, Exists_cons_hd. done. }
  rewrite filter_cons, decide_True by lia.
  rewrite filter_cons, decide_False by lia.
  rewrite filter_cons. destruct (decide (o ≠ (-1)%Z)) as [Hne|Heq]; simpl.
  - rewrite Nat2Z.id, Nat.mul_1_r. case_decide as Hn; [|done].
    rewrite decide_False by lia. rewrite decide_False by lia.
    intros [= <-]. repeat split; try lia; tauto.
  - done.
Qed.

Lemma infer_size_3 (bs n : nat) (o : Z) :
  (0 <= o)%Z → 0 < bs * Z.to_nat o → n mod (bs * Z.to_nat o) = 0 →
  infer_size [Z.of_nat bs; (-1)%Z; o] n = Ok [bs; n / (bs * Z.to_nat o); Z.to_nat o].
Proof.
  intros Ho Hpos Hmod. unfold infer_size. rewrite decide_False.
  - rewrite filter_cons, decide_True by lia.
    rewrite filter_cons, decide_False by lia.
    rewrite filter_cons, decide_True by lia. simpl.
    rewrite Nat2Z.id, Nat.mul_1_r. rewrite decide_True by done.
    rewrite decide_False by lia. rewrite decide_False by lia. done.
  - rewrite !Exists_cons, Exists_nil. lia.
Qed.

Lemma infer_size_2_inv (rows n : nat) (s : list nat) :
  infer_size [Z.of_nat rows; (-1)%Z] n = Ok s →
  0 < rows ∧ n mod rows = 0 ∧ s = [rows; n / rows].
Proof.
  unfold infer_size. case_decide as Hex; [done|].
  rewrite filter_cons, decide_True by lia.
  rewrite filter_cons, decide_False by lia. simpl.
  rewrite Nat2Z.id, Nat.mul_1_r. case_decide as Hn; [|done].
  rewrite decide_False by lia. intros [= <-]. tauto.
Qed.

(** The permutation reads element [(b, a, o, y, x)] for position
    [(b, a, y, x, o)] and keeps the number of elements. *)
Lemma permute_01342_spec {A} `{Inhabited A} (t : tensor A) (d0 d1 d2 d3 d4 : nat) :
  shape t = [d0; d1; d2; d3; d4] →
  ∃ p, permute_01342 t = Ok p ∧
       shape p = [d0; d1; d3; d4; d2] ∧
       length (data p) = d0 * d1 * d3 * d4 * d2 ∧
       ∀ b a y x o, b < d0 → a < d1 → y < d3 → x < d4 → o < d2 →
         get5 p b a y x o = data t !!! ravel5 d1 d2 d3 d4 b a o y x.
Proof.
  intros Hs. unfold permute_01342. rewrite Hs. eexists. split; [done|].
  split; [done|]. split.
  - simpl. by rewrite length_fmap, length_seq.
  - intros b a y x o Hb Ha Hy Hx Ho. unfold get5. cbn [shape data].
    rewrite lookup_total_fmap_seq by (by apply ravel5_lt).
    by rewrite unravel5_ravel5.
Qed.

Lemma in_slice_lt (lo h o : nat) :
  in_slice lo (Some h) o = bool_decide (lo ≤ o < h).
Proof.
  unfold in_slice. destruct (decide (lo ≤ o)), (decide (o < h));
    repeat first [rewrite bool_decide_true by lia | rewrite bool_decide_false by lia];
    done.
Qed.

Lemma in_slice_open (lo o : nat) : in_slice lo None o = bool_decide (lo ≤ o).
Proof. unfold in_slice. by rewrite andb_true_r. Qed.

(** A slice update keeps the shape and touches the slice only. *)
Lemma update_last_spec {A} `{Inhabited A} lo hi f (t : tensor A) (d0 d1 d2 d3 d4 : nat) :
  shape t = [d0; d1; d2; d3; d4] →
  length (data t) = d0 * d1 * d2 * d3 * d4 →
  shape (update_last lo hi f t) = [d0; d1; d2; d3; d4] ∧
  length (data (update_last lo hi f t)) = d0 * d1 * d2 * d3 * d4 ∧
  ∀ b a y x o, b < d0 → a < d1 → y < d2 → x < d3 → o < d4 →
    get5 (update_last lo hi f t) b a y x o =
      if in_slice lo hi o then f b a y x o (get5 t b a y x o) else get5 t b a y x o.
Proof.
  intros Hs Hl. unfold update_last. rewrite Hs. cbn [shape data].
  split; [done|]. split; [by rewrite length_imap|].
  intros b a y x o Hb Ha Hy Hx Ho. unfold get5. rewrite Hs. cbn [shape data].
  rewrite lookup_total_imap by (rewrite Hl; by apply ravel5_lt).
  by rewrite unravel5_ravel5.
Qed.

Lemma fmap_lookup_total_seq {A} `{Inhabited A} (l : list A) :
  (fun k => l !!! k) <$> seq 0 (length l) = l.
Proof.
  apply list_eq. intros i. rewrite list_lookup_fmap.
  destruct (decide (i < length l)) as [Hi|Hi].
  - rewrite lookup_seq_lt by done. cbn.
    destruct (lookup_lt_is_Some_2 l i Hi) as [a Ha].
    by rewrite Ha, (list_lookup_total_correct _ _ _ Ha).
  - rewrite lookup_seq_ge by lia. cbn. symmetry. apply lookup_ge_None. lia.
Qed.

Lemma unravel5_bound (d0 d1 d2 d3 d4 k : nat) :
  k < d0 * d1 * d2 * d3 * d4 →
  let '(i0, i1, i2, i3, i4) := unravel5 d1 d2 d3 d4 k in
  ravel5 d1 d2 d3 d4 i0 i1 i2 i3 i4 = k ∧
  i0 < d0 ∧ i1 < d1 ∧ i2 < d2 ∧ i3 < d3 ∧ i4 < d4.
Proof.
  intros Hk.
  assert (0 < d1 ∧ 0 < d2 ∧ 0 < d3 ∧ 0 < d4) as (H1 & H2 & H3 & H4).
  { repeat split; destruct d1, d2, d3, d4; lia. }
  pose proof (ravel5_unravel5 d1 d2 d3 d4 k H1 H2 H3 H4) as Hr.
  destruct (unravel5 d1 d2 d3 d4 k) as [[[[i0 i1] i2] i3] i4].
  destruct Hr as (Hr & ? & ? & ? & ?). repeat split; try done.
  unfold ravel5 in Hr.
  destruct (decide (i0 < d0)) as [|Hge]; [done|]. exfalso.
  assert (d0 * d1 * d2 * d3 * d4 <= i0 * d1 * d2 * d3 * d4) as Hle.
  { repeat apply Nat.mul_le_mono_r. lia. }
  assert (i0 * d1 * d2 * d3 * d4 <= k); [|lia].
  rewrite <- Hr.
  transitivity ((i0 * d1 + i1) * d2 * d3 * d4); [|nia].
  repeat apply Nat.mul_le_mono_r. lia.
Qed.

(** The permutation moves every element to one place: the elements of the
    result are those of the argument, each as often. *)
Lemma permute_01342_Permutation {A} `{Inhabited A} (t p : tensor A)
    (d0 d1 d2 d3 d4 : nat) :
  shape t = [d0; d1; d2; d3; d4] →
  length (data t) = d0 * d1 * d2 * d3 * d4 →
  permute_01342 t = Ok p →
  data p ≡ₚ data t.
Proof.
  intros Hs Hl. unfold permute_01342. rewrite Hs. intros [= <-]. cbn [data].
  set (N := d0 * d1 * d3 * d4 * d2).
  assert (length (data t) = N) as HN by (rewrite Hl; unfold N; ring).
  set (sigma := fun k => let '(b, a, y, x, o) := unravel5 d1 d3 d4 d2 k in
                         ravel5 d1 d2 d3 d4 b a o y x).
  set (tau := fun j => let '(b, a, o, y, x) := unravel5 d1 d2 d3 d4 j in
                       ravel5 d1 d3 d4 d2 b a y x o).
  assert (∀ k, k < N → sigma k < N ∧ tau (sigma k) = k) as Hsigma.
  { intros k Hk. unfold sigma, tau.
    pose proof (unravel5_bound d0 d1 d3 d4 d2 k Hk) as Hb.
    destruct (unravel5 d1 d3 d4 d2 k) as [[[[b a] y] x] o].
    destruct Hb as (Hr & ? & ? & ? & ? & ?). split.
    - replace N with (d0 * d1 * d2 * d3 * d4) by (unfold N; ring).
      by apply ravel5_lt.
    - by rewrite unravel5_ravel5. }
  assert (∀ j, j < N → tau j < N ∧ sigma (tau j) = j) as Htau.
  { intros j Hj. unfold sigma, tau.
    assert (j < d0 * d1 * d2 * d3 * d4) as Hj' by (unfold N in Hj; lia).
    pose proof (unravel5_bound d0 d1 d2 d3 d4 j Hj') as Hb.
    destruct (unravel5 d1 d2 d3 d4 j) as [[[[b a] o] y] x].
    destruct Hb as (Hr & ? & ? & ? & ? & ?). split.
    - by apply ravel5_lt.
    - by rewrite unravel5_ravel5. }
  fold N.
  match goal with
  | |- ?f <$> _ ≡ₚ _ =>
      assert (f <$> seq 0 N = (fun k => data t !!! k) <$> (sigma <$> seq 0 N)) as ->
  end.
  { rewrite <- list_fmap_compose. apply list_fmap_ext. intros i k _.
    unfold compose, sigma. reflexivity. }
  transitivity ((fun k => data t !!! k) <$> seq 0 N).
  - apply fmap_Permutation. apply NoDup_Permutation.
    + apply NoDup_fmap_2_strong; [|apply NoDup_seq].
      intros k1 k2 Hk1 Hk2 Heq.
      apply elem_of_seq in Hk1, Hk2.
      destruct (Hsigma k1) as [_ E1]; [lia|].
      destruct (Hsigma k2) as [_ E2]; [lia|]. congruence.
    + apply NoDup_seq.
    + intros j. rewrite list_elem_of_fmap, elem_of_seq. split.
      * intros (k & -> & Hk). apply elem_of_seq in Hk.
        destruct (Hsigma k); lia.
      * intros Hj. exists (tau j). destruct (Htau j) as [? ?]; [lia|].
        split; [done|]. apply elem_of_seq. lia.
  - rewrite <- HN. by rewrite fmap_lookup_total_seq.
Qed.

End TensorFacts.

(** ** The detection head: reshaping and decoding *)

Section HeadFacts.
Import Tensor YOLOLayer.

Lemma reshaped_shape (self : t) (bs : nat) (pred p : tensor R) :
  (0 <= no self)%Z →
  reshaped self bs pred = Ok p →
  length (data pred) = bs * (na self * (Z.to_nat (no self) * (ny self * nx self))) ∧
  shape p = [bs; na self; ny self; nx self; Z.to_nat (no self)] ∧
  length (data p) = bs * na self * ny self * nx self * Z.to_nat (no self) ∧
  data p ≡ₚ data pred ∧
  ∀ b a y x o, b < bs → a < na self → y < ny self → x < nx self →
    o < Z.to_nat (no self) →
    get5 p b a y x o =
      data pred !!! ravel5 (na self) (Z.to_nat (no self)) (ny self) (nx self) b a o y x.
Proof.
  intros Hno. unfold reshaped, view.
  destruct (infer_size _ _) as [s|] eqn:Hv; [|done]. cbn [mbind result_bind].
  destruct (infer_size_5_inv _ _ _ _ _ _ _ Hv) as [_ Hs5].
  destruct (Hs5 Hno) as [-> Hn]. clear Hs5.
  set (v := Build [bs; na self; Z.to_nat (no self); ny self; nx self] (data pred)).
  destruct (permute_01342_spec v _ _ _ _ _ eq_refl) as (p' & Hp' & Hsp & Hlp & Hget).
  rewrite Hp'. intros [= <-].
  split; [done|]. split; [done|]. split; [done|]. split; [|done].
  apply (permute_01342_Permutation v p' _ _ _ _ _ eq_refl); [|done].
  cbn [data v]. rewrite <- Hn. ring.
Qed.

Lemma reshaped_spec (self : t) (bs c : nat) (pred p : tensor R) :
  (0 <= no self)%Z →
  wf pred →
  shape pred = [bs; c; ny self; nx self] →
  reshaped self bs pred = Ok p →
  ∀ b a y x o, b < bs → a < na self → y < ny self → x < nx self →
    o < Z.to_nat (no self) →
    c = na self * Z.to_nat (no self) ∧
    get5 p b a y x o = get4 pred b (a * Z.to_nat (no self) + o) y x.
Proof.
  intros Hno Hwf Hs Hp b a y x o Hb Ha Hy Hx Ho.
  destruct (reshaped_shape _ _ _ _ Hno Hp) as (Hn & _ & _ & _ & Hget).
  assert (c = na self * Z.to_nat (no self)) as ->.
  { unfold wf in Hwf. rewrite Hs in Hwf. cbn [numel foldr] in Hwf.
    rewrite Nat.mul_1_r in Hwf. rewrite Hwf in Hn.
    assert (bs * (ny self * nx self) ≠ 0) as Hpos
      by (apply Nat.neq_mul_0; split; [lia|apply Nat.neq_mul_0; lia]).
    apply (Nat.mul_cancel_l _ _ _ Hpos).
    transitivity (bs * (c * (ny self * nx self))); [ring|].
    rewrite Hn. ring. }
  split; [done|]. rewrite Hget by done.
  unfold get4. rewrite Hs. f_equal. unfold ravel5, ravel4. lia.
Qed.

Lemma reshaped_ok (self : t) (bs : nat) (pred : tensor R) :
  (0 <= no self)%Z →
  wf pred →
  shape pred = [bs; na self * Z.to_nat (no self); ny self; nx self] →
  ∃ p, reshaped self bs pred = Ok p.
Proof.
  intros Hno Hwf Hs. unfold reshaped, view.
  rewrite infer_size_nonneg by (repeat constructor; lia).
  cbn [fmap list_fmap numel foldr]. rewrite !Nat2Z.id, Nat.mul_1_r.
  rewrite decide_True.
  - cbn [mbind result_bind]. unfold permute_01342. cbn [shape]. eauto.
  - unfold wf in Hwf. rewrite Hwf, Hs. cbn [numel foldr]. lia.
Qed.

Lemma sigmoid_0 : sigmoid 0 = (1 / 2)%R.
Proof. unfold sigmoid. rewrite Ropp_0, exp_0. lra. Qed.

(** The four slice updates of the inference branch, element by element. *)
Lemma decode_spec (g : grids) (p io : tensor R) (d0 a0 y0 x0 o0 : nat) :
  shape p = [d0; a0; y0; x0; o0] →
  length (data p) = d0 * a0 * y0 * x0 * o0 →
  decode g p = Ok io →
  shape io = [d0; a0; y0; x0; o0] ∧
  length (data io) = d0 * a0 * y0 * x0 * o0 ∧
  ∀ b a y x o, b < d0 → a < a0 → y < y0 → x < x0 → o < o0 →
    let v := get5 p b a y x o in
    (o < 2 → get5 io b a y x o =
               ((sigmoid v + get5 (grid_xy g) 0 0 y x o) * stride g)%R) ∧
    (2 ≤ o < 4 → get5 io b a y x o =
               ((exp v * get5 (anchor_wh g) 0 a 0 0 (o - 2)) * stride g)%R) ∧
    (4 ≤ o → get5 io b a y x o = sigmoid v).
Proof.
  intros Hs Hl. unfold decode. rewrite Hs. case_decide as Hg; [|done].
  intros [= <-].
  set (u1 := update_last 0 (Some 2) _ p).
  set (u2 := update_last 2 (Some 4) _ u1).
  set (u3 := update_last 0 (Some 4) _ u2).
  destruct (update_last_spec 0 (Some 2)
    (fun _ _ y x o v => (sigmoid v + get5 (grid_xy g) 0 0 y x o)%R) p _ _ _ _ _ Hs Hl)
    as (Hs1 & Hl1 & G1). fold u1 in Hs1, Hl1, G1.
  destruct (update_last_spec 2 (Some 4)
    (fun _ a _ _ o v => (exp v * get5 (anchor_wh g) 0 a 0 0 (o - 2))%R) u1 _ _ _ _ _ Hs1 Hl1)
    as (Hs2 & Hl2 & G2). fold u2 in Hs2, Hl2, G2.
  destruct (update_last_spec 0 (Some 4)
    (fun _ _ _ _ _ v => (v * stride g)%R) u2 _ _ _ _ _ Hs2 Hl2)
    as (Hs3 & Hl3 & G3). fold u3 in Hs3, Hl3, G3.
  destruct (update_last_spec 4 None
    (fun _ _ _ _ _ v => sigmoid v) u3 _ _ _ _ _ Hs3 Hl3)
    as (Hs4 & Hl4 & G4).
  split; [done|]. split; [done|].
  intros b a y x o Hb Ha Hy Hx Ho. cbv zeta.
  rewrite G4, G3, G2, G1 by done. rewrite !in_slice_lt, in_slice_open.
  repeat split; intros Hcase;
    repeat first [rewrite bool_decide_true by lia | rewrite bool_decide_false by lia];
    reflexivity.
Qed.

End HeadFacts.

(** ** The detection head: [forward] *)

Section YoloFacts.
Import Tensor YOLOLayer.

Variable cell_stride : list nat → nat * nat → R.

Lemma ensure_grids_frame (self : t) (image_size : list nat) (ng : nat * nat) :
  let self' := (ensure_grids cell_stride self image_size ng).1 in
  (nx self', ny self') = ng ∧ anchors self' = anchors self ∧
  nc self' = nc self ∧ training self' = training self ∧
  layers self' = layers self ∧ index self' = index self.
Proof.
  unfold ensure_grids. case_decide as Hne; simpl.
  - by destruct ng.
  - done.
Qed.

Lemma ensure_grids_geometry (self : t) (image_size : list nat) (ng : nat * nat) :
  (nx self, ny self) ≠ ng ∨ geometry_ok self →
  geometry_ok (ensure_grids cell_stride self image_size ng).1.
Proof.
  intros H. unfold ensure_grids. case_decide as Hne; cbn [fst].
  - eexists. split; [done|]. done.
  - destruct H as [H|H]; [by destruct Hne|done].
Qed.

Lemma forward_state (self : t) (pred : tensor R) (image_size : list nat)
    (bs c ny0 nx0 : nat) :
  shape pred = [bs; c; ny0; nx0] →
  (forward cell_stride self pred image_size).1 =
    ensure_grids cell_stride self image_size (nx0, ny0).
Proof.
  intros Hs. unfold forward. rewrite Hs. by destruct (ensure_grids _ _ _ _).
Qed.

(** C2. In training mode [forward], given a feature map of shape
    (bs, na * no, ny, nx), returns a tensor of shape (bs, na, ny, nx, no)
    that holds as many elements as its shape says, whose elements are
    those of the input, each as often, and whose element
    [(b, a, y, x, o)] is element [(b, a * no + o, y, x)] of the input: a
    rearrangement under the view-and-permute index mapping, no value
    transformed. *)
Theorem forward_training_pure_reshape
    (self : t) (pred : tensor R) (image_size : list nat) (bs ny0 nx0 : nat) :
  training self = true →
  (0 <= no self)%Z →
  wf pred →
  shape pred = [bs; na self * Z.to_nat (no self); ny0; nx0] →
  ∃ p, (forward cell_stride self pred image_size).2 = Ok (OutTrain p) ∧
       shape p = [bs; na self; ny0; nx0; Z.to_nat (no self)] ∧
       wf p ∧
       data p ≡ₚ data pred ∧
       ∀ b a y x o, b < bs → a < na self → y < ny0 → x < nx0 →
         o < Z.to_nat (no self) →
         get5 p b a y x o = get4 pred b (a * Z.to_nat (no self) + o) y x.
Proof.
  intros Htrain Hnc Hwf Hs. unfold forward. rewrite Hs.
  pose proof (ensure_grids_frame self image_size (nx0, ny0)) as Hf.
  destruct (ensure_grids _ _ _ _) as [self' calls]. cbn [fst snd] in *.
  destruct Hf as (Hxy & Ha & Hnc' & Htr & _). injection Hxy as Hx Hy.
  assert (na self' = na self) as Hna by (unfold na; by rewrite Ha).
  assert (no self' = no self) as Hno by (unfold no; by rewrite Hnc').
  assert (0 <= no self')%Z as Hpos by (by rewrite Hno).
  rewrite <- Hna, <- Hno, <- Hx, <- Hy in Hs |- *.
  destruct (reshaped_ok self' bs pred Hpos Hwf Hs) as [p Hp].
  unfold forward_body. rewrite Hp. cbn [mbind result_bind].
  rewrite Htr, Htrain. exists p. split; [done|].
  destruct (reshaped_shape _ _ _ _ Hpos Hp) as (_ & Hsp & Hlp & Hperm & _).
  split; [done|]. split; [|split; [done|]].
  - unfold wf. rewrite Hsp, Hlp. cbn [numel foldr]. lia.
  - intros b a y x o Hb Ha' Hy' Hx' Ho.
    by destruct (reshaped_spec _ _ _ _ _ Hpos Hwf Hs Hp b a y x o).
Qed.

(** C7. Two [forward] calls in succession on feature maps of the same
    (grid_y, grid_x): the second call makes no [create_grids] call and leaves
    the layer, cached grid tensors included, as the first call left it.
    When the second feature map has another resolution, the second call
    makes exactly one [create_grids] call, for the new resolution, and the
    layer holds the geometry built for it. This holds whether or not the
    calls raise afterwards. *)
Theorem grid_cache_reuse_and_rebuild
    (self s1 s2 : t) (pred1 pred2 : tensor R) (img1 img2 : list nat)
    (calls1 calls2 : list call) (r1 r2 : result output)
    (bs1 c1 ny1 nx1 bs2 c2 ny2 nx2 : nat) :
  shape pred1 = [bs1; c1; ny1; nx1] →
  shape pred2 = [bs2; c2; ny2; nx2] →
  forward cell_stride self pred1 img1 = (s1, calls1, r1) →
  forward cell_stride s1 pred2 img2 = (s2, calls2, r2) →
  ((nx2, ny2) = (nx1, ny1) → calls2 = [] ∧ s2 = s1 ∧ grid s2 = grid s1) ∧
  ((nx2, ny2) ≠ (nx1, ny1) →
     calls2 = [(img2, (nx2, ny2))] ∧
     s2 = create_grids cell_stride s1 img2 (nx2, ny2) ∧
     (nx s2, ny s2) = (nx2, ny2) ∧
     ∃ g, grid s2 = Some g ∧
          shape (grid_xy g) = [1; 1; ny2; nx2; 2] ∧
          shape (anchor_wh g) = [1; na s2; 1; 1; 2]).
Proof.
  intros Hs1 Hs2 H1 H2.
  pose proof (forward_state self pred1 img1 _ _ _ _ Hs1) as E1.
  pose proof (forward_state s1 pred2 img2 _ _ _ _ Hs2) as E2.
  rewrite H1 in E1. rewrite H2 in E2. cbn [fst] in E1, E2.
  pose proof (ensure_grids_frame self img1 (nx1, ny1)) as Hf.
  rewrite <- E1 in Hf. cbn [fst] in Hf. destruct Hf as (Hxy & _).
  unfold ensure_grids in E2. rewrite Hxy in E2. split.
  - intros Heq. rewrite decide_False in E2 by (intros Hne; by apply Hne).
    by injection E2 as -> ->.
  - intros Hne. rewrite decide_True in E2 by (intros Heq; by apply Hne).
    injection E2 as -> ->. repeat split. by eexists.
Qed.

(** What an inference call that returns has gone through. *)
Lemma forward_inference_inv
    (self self' : t) (pred io p : tensor R) (image_size : list nat) (calls : list call) :
  forward cell_stride self pred image_size = (self', calls, Ok (OutInfer io p)) →
  ∃ bs c ny0 nx0 g io0,
    shape pred = [bs; c; ny0; nx0] ∧
    (nx self', ny self') = (nx0, ny0) ∧ na self' = na self ∧ no self' = no self ∧
    (0 <= no self)%Z ∧ 0 < bs * Z.to_nat (no self) ∧
    reshaped self' bs pred = Ok p ∧
    grid self' = Some g ∧
    decode g p = Ok io0 ∧
    io = Build [bs; length (data io0) / (bs * Z.to_nat (no self)); Z.to_nat (no self)]
           (data io0).
Proof.
  unfold forward. intros H.
  destruct (shape pred) as [|bs [|c [|ny0 [|nx0 [|? ?]]]]] eqn:Hs; try by simplify_eq.
  pose proof (ensure_grids_frame self image_size (nx0, ny0)) as Hf.
  destruct (ensure_grids _ _ _ _) as [s1 calls1]. cbn [fst] in Hf.
  destruct Hf as (Hxy & Ha & Hnc & _). injection H as -> -> H.
  unfold forward_body in H.
  destruct (reshaped self' bs pred) as [p1|] eqn:Hp; [|done]. cbn [mbind result_bind] in H.
  destruct (training self'); [done|].
  destruct (grid self') as [g|]; [|done]. cbn [from_option mbind result_bind] in H.
  destruct (decode g p1) as [io0|] eqn:Hd; [|done]. cbn [mbind result_bind] in H.
  unfold view in H. destruct (infer_size _ _) as [s|] eqn:Hv; [|done].
  cbn [mbind result_bind] in H. injection H as <- <-.
  destruct (infer_size_3_inv _ _ _ _ Hv) as (Hno & -> & Hpos & _).
  assert (no self' = no self) as Hno' by (unfold no; by rewrite Hnc).
  rewrite Hno' in *.
  exists bs, c, ny0, nx0, g, io0.
  repeat split; try done; try congruence. unfold na. by rewrite Ha.
Qed.

(** C1. When [forward] returns in inference mode, the decoded tensor [io]
    of shape (bs, na * ny * nx, no) is computed from the reshaped raw
    feature map [p] (itself element [(b, a * no + o, y, x)] of the input at
    position [(b, a, y, x, o)]): channels 0-1 are sigmoid plus the cell's
    grid-origin offset, times the stride; channels 2-3 are exp times the
    anchor's width/height, times the stride; channels 4 and onward are
    sigmoid. When a raw x or y logit is 0 and the stride is positive, the
    decoded coordinate is the cell origin plus half a stride, so it lies in
    [origin, origin + stride). *)
Theorem forward_inference_decode
    (self self' : t) (pred io p : tensor R) (image_size : list nat) (calls : list call) :
  wf pred →
  forward cell_stride self pred image_size = (self', calls, Ok (OutInfer io p)) →
  ∃ g bs c ny0 nx0 nO,
    grid self' = Some g ∧
    shape pred = [bs; c; ny0; nx0] ∧
    shape p = [bs; na self; ny0; nx0; nO] ∧
    shape io = [bs; na self * ny0 * nx0; nO] ∧
    ∀ b a y x o, b < bs → a < na self → y < ny0 → x < nx0 → o < nO →
      let v := get5 p b a y x o in
      let d := get3 io b ((a * ny0 + y) * nx0 + x) o in
      let origin := (get5 (grid_xy g) 0 0 y x o * stride g)%R in
      c = na self * nO ∧
      v = get4 pred b (a * nO + o) y x ∧
      (o < 2 → d = ((sigmoid v + get5 (grid_xy g) 0 0 y x o) * stride g)%R) ∧
      (2 ≤ o < 4 → d = ((exp v * get5 (anchor_wh g) 0 a 0 0 (o - 2)) * stride g)%R) ∧
      (4 ≤ o → d = sigmoid v) ∧
      (o < 2 → v = 0%R → (0 < stride g)%R →
         d = (origin + stride g / 2)%R ∧ (origin <= d < origin + stride g)%R).
Proof.
  intros Hwf H.
  destruct (forward_inference_inv _ _ _ _ _ _ _ H)
    as (bs & c & ny0 & nx0 & g & io0 & Hs & Hxy & Hna & Hno' & Hno & Hpos & Hp & Hg & Hd & ->).
  injection Hxy as Hx Hy.
  assert (0 <= no self')%Z as Hno1 by (by rewrite Hno').
  destruct (reshaped_shape _ _ _ _ Hno1 Hp) as (Hn & Hsp & Hlp & _ & _).
  rewrite <- Hx, <- Hy in Hs.
  pose proof (reshaped_spec _ _ _ _ _ Hno1 Hwf Hs Hp) as Hpred.
  rewrite Hna, Hno', Hx, Hy in Hsp, Hlp, Hpred.
  destruct (decode_spec _ _ _ _ _ _ _ _ Hsp Hlp Hd) as (Hsio & Hlio & Hget).
  set (nO := Z.to_nat (no self)) in *.
  assert (length (data io0) / (bs * nO) = na self * ny0 * nx0) as Hdiv.
  { symmetry. apply Nat.div_unique_exact; [lia|]. rewrite Hlio. ring. }
  exists g, bs, c, ny0, nx0, nO.
  split; [done|]. split; [congruence|]. split; [done|].
  split; [by rewrite Hdiv|].
  intros b a y x o Hb Ha Hy' Hx' Ho. cbv zeta.
  destruct (Hpred b a y x o Hb Ha Hy' Hx' Ho) as [Hc Hv].
  destruct (Hget b a y x o Hb Ha Hy' Hx' Ho) as (G1 & G2 & G3).
  assert (get3 (Build [bs; length (data io0) / (bs * nO); nO] (data io0))
            b ((a * ny0 + y) * nx0 + x) o = get5 io0 b a y x o) as ->.
  { unfold get3, get5. rewrite Hsio. cbn [shape data]. rewrite Hdiv.
    f_equal. unfold ravel5. ring. }
  split; [done|]. split; [done|]. split; [done|]. split; [done|]. split; [done|].
  intros Ho2 Hv0 Hstride. rewrite (G1 Ho2), Hv0, sigmoid_0. split; lra.
Qed.

(** An inference call returns on every well-formed feature map of the
    head's channel count and a positive batch size, provided the cache is
    either rebuilt by this call or was built for this resolution. The
    cache is sound afterwards. *)
Lemma forward_inference_returns
    (self : t) (pred : tensor R) (image_size : list nat) (bs ny0 nx0 : nat) :
  training self = false →
  (0 <= nc self)%Z →
  wf pred →
  shape pred = [bs; na self * Z.to_nat (no self); ny0; nx0] →
  0 < bs →
  (nx self, ny self) ≠ (nx0, ny0) ∨ geometry_ok self →
  ∃ self' calls io p,
    forward cell_stride self pred image_size = (self', calls, Ok (OutInfer io p)) ∧
    geometry_ok self'.
Proof.
  intros Htrain Hnc Hwf Hs Hbs Hgeo. unfold forward. rewrite Hs.
  pose proof (ensure_grids_frame self image_size (nx0, ny0)) as Hf.
  pose proof (ensure_grids_geometry self image_size (nx0, ny0) Hgeo) as Hg.
  destruct (ensure_grids _ _ _ _) as [self' calls]. cbn [fst snd] in *.
  destruct Hf as (Hxy & Ha & Hnc' & Htr & _). injection Hxy as Hx Hy.
  assert (na self' = na self) as Hna by (unfold na; by rewrite Ha).
  assert (no self' = no self) as Hno by (unfold no; by rewrite Hnc').
  assert (5 <= no self')%Z as Hpos by (rewrite Hno; unfold no; lia).
  rewrite <- Hna, <- Hno, <- Hx, <- Hy in Hs.
  assert (0 <= no self')%Z as Hno0 by lia.
  destruct (reshaped_ok self' bs pred Hno0 Hwf Hs) as [p Hp].
  destruct (reshaped_shape _ _ _ _ Hno0 Hp) as (_ & Hsp & Hlp & _ & _).
  destruct Hg as (g & Hgrid & Hgxy & Hgwh).
  exists self', calls.
  unfold forward_body. rewrite Hp. cbn [mbind result_bind].
  rewrite Htr, Htrain, Hgrid. cbn [from_option mbind result_bind].
  destruct (decode g p) as [io|e] eqn:Hd.
  - cbn [mbind result_bind].
    destruct (decode_spec _ _ _ _ _ _ _ _ Hsp Hlp Hd) as (Hsio & Hlio & _).
    unfold view. rewrite infer_size_3; [| lia | apply Nat.mul_pos_pos; lia |].
    + cbn [mbind result_bind]. eexists _, _. split; [done|].
      by exists g.
    + rewrite Hlio.
      replace (bs * na self' * ny self' * nx self' * Z.to_nat (no self'))
        with (na self' * ny self' * nx self' * (bs * Z.to_nat (no self'))) by ring.
      apply Nat.Div0.mod_mul.
  - exfalso. unfold decode in Hd. rewrite Hsp in Hd.
    rewrite decide_True in Hd; [done|]. split; [done|]. split; [done|]. lia.
Qed.

End YoloFacts.

(** ** The bias initialisation *)

Section BiasFacts.
Import Config Net Builder.

Variable grad_enabled : bool.

Lemma select_add_same (P : nat → bool) (d : R) (i : nat) (b : list R) :
  select_from P i (add_from P d i b) = (fun v => (v + d)%R) <$> select_from P i b.
Proof.
  revert i. induction b as [|v b IH]; intros i; [done|].
  simpl. destruct (P i); simpl; by rewrite IH.
Qed.

Lemma select_add_other (P Q : nat → bool) (d : R) (i : nat) (b : list R) :
  (∀ k, P k = true → Q k = false) →
  select_from P i (add_from Q d i b) = select_from P i b.
Proof.
  intros Hd. revert i. induction b as [|v b IH]; intros i; [done|].
  simpl. destruct (P i) eqn:HP; [rewrite (Hd i HP)|]; by rewrite IH.
Qed.

Lemma select_from_nonempty (P : nat → bool) (i k : nat) (b : list R) :
  k < length b → P (i + k) = true → select_from P i b ≠ [].
Proof.
  revert i k. induction b as [|v b IH]; intros i k Hk HP; [simpl in Hk; lia|].
  simpl. destruct k as [|k].
  - rewrite Nat.add_0_r in HP. by rewrite HP.
  - destruct (P i); [done|]. apply (IH (S i) k); [simpl in Hk; lia|].
    by replace (S i + k) with (i + S k) by lia.
Qed.

Lemma select_from_Forall (Pr : R → Prop) (P : nat → bool) (i : nat) (b : list R) :
  Forall Pr b → Forall Pr (select_from P i b).
Proof.
  intros H. revert i. induction H as [|v b Hv _ IH]; intros i; simpl; [done|].
  destruct (P i); [constructor|]; auto.
Qed.

Lemma Rsum_shift (l : list R) (d : R) :
  Rsum ((fun v => (v + d)%R) <$> l) = (Rsum l + INR (length l) * d)%R.
Proof.
  induction l as [|v l IH]; [simpl; lra|].
  cbn [fmap list_fmap Rsum foldr length]. fold (Rsum ((fun v => (v + d)%R) <$> l)).
  fold (Rsum l). rewrite IH, S_INR. lra.
Qed.

Lemma Rsum_zeros (l : list R) : Forall (eq 0%R) l → Rsum l = 0%R.
Proof.
  induction 1 as [|v l <- _ IH]; [done|].
  cbn [Rsum foldr]. fold (Rsum l). rewrite IH. lra.
Qed.

Lemma mean_Some (l : list R) (m : R) :
  mean l = Some m → l ≠ [] ∧ m = (Rsum l / INR (length l))%R.
Proof. destruct l; [done|]. intros [= <-]. done. Qed.

Lemma mean_nonempty (l : list R) :
  l ≠ [] → mean l = Some (Rsum l / INR (length l))%R.
Proof. by destruct l. Qed.

Lemma mean_shift (l : list R) (m target : R) :
  mean l = Some m →
  mean ((fun v => (v + (target - m))%R) <$> l) = Some target.
Proof.
  intros Hm. apply mean_Some in Hm as [Hne ->].
  rewrite mean_nonempty by (by destruct l).
  rewrite Rsum_shift, length_fmap. f_equal.
  assert (INR (length l) ≠ 0%R) by (apply not_0_INR; by destruct l).
  by field.
Qed.

(** After [s += target - s.mean()] the mean of a slice that is not empty
    is [target]; were all its entries 0 before, each of them is [target]
    now. Slices disjoint from it keep their entries. *)
Lemma shift_mean_hits (P : nat → bool) (target : R) (b : list R) :
  select P b ≠ [] →
  mean (select P (shift_mean P target b)) = Some target ∧
  (Forall (eq 0%R) (select P b) →
   Forall (eq target) (select P (shift_mean P target b))).
Proof.
  intros Hne. unfold shift_mean.
  rewrite (mean_nonempty _ Hne). unfold select. rewrite select_add_same.
  split.
  - apply mean_shift. by apply mean_nonempty.
  - intros Hz. rewrite (Rsum_zeros (select_from P 0 b)) by done.
    apply Forall_fmap. eapply Forall_impl; [exact Hz|].
    intros v <-. unfold compose, Rdiv. lra.
Qed.

Lemma shift_mean_other (P Q : nat → bool) (target : R) (b : list R) :
  (∀ k, P k = true → Q k = false) →
  select P (shift_mean Q target b) = select P b.
Proof.
  intros Hd. unfold shift_mean. destruct (mean _); [|done].
  by apply select_add_other.
Qed.

Lemma shift_mean_length (Q : nat → bool) (target : R) (b : list R) :
  length (shift_mean Q target b) = length b.
Proof.
  unfold shift_mean. destruct (mean _); [|done].
  generalize 0. induction b as [|v b IH]; intros i; simpl; [done|]. by rewrite IH.
Qed.

Lemma obj_cls_disjoint (rows cols k : nat) :
  obj_slice rows cols k = true → cls_slice rows cols k = false.
Proof.
  unfold obj_slice, cls_slice. intros H.
  apply andb_true_iff in H as [_ H]. apply bool_decide_eq_true in H.
  rewrite (bool_decide_false (5 ≤ _)) by lia. apply andb_false_r.
Qed.

Lemma cls_obj_disjoint (rows cols k : nat) :
  cls_slice rows cols k = true → obj_slice rows cols k = false.
Proof.
  unfold obj_slice, cls_slice. intros H.
  apply andb_true_iff in H as [_ H]. apply bool_decide_eq_true in H.
  rewrite (bool_decide_false (_ = 4)) by lia. apply andb_false_r.
Qed.

(** The two shifts on a vector that holds [na] slices of [no] entries. *)
Lemma shift_biases_means (na : nat) (no : Z) (bo bc : R) (b b' : list R) :
  shift_biases grad_enabled na no bo bc b = Ok b' →
  (6 <= no)%Z →
  na * Z.to_nat no ≤ length b →
  let obj := obj_slice na (Z.to_nat no) in
  let cls := cls_slice na (Z.to_nat no) in
  mean (select obj b') = Some bo ∧
  mean (select cls b') = Some bc ∧
  (Forall (eq 0%R) b →
   Forall (eq bo) (select obj b') ∧ Forall (eq bc) (select cls b')).
Proof.
  intros H Hno Hlen. unfold shift_biases in H.
  apply bind_Ok in H as (s & Hs & H).
  apply infer_size_2_inv in Hs as (Hna & _ & ->).
  rewrite length_take in H.
  replace (Z.to_nat (no * Z.of_nat na)) with (Z.to_nat no * na) in H by lia.
  rewrite Nat.min_l in H by lia.
  rewrite Nat.div_mul in H by lia.
  set (cols := Z.to_nat no) in *.
  rewrite decide_True in H by lia.
  destruct grad_enabled; [done|]. injection H as <-. cbv zeta.
  set (obj := obj_slice na cols). set (cls := cls_slice na cols).
  assert (select obj b ≠ []) as Hobj.
  { apply (select_from_nonempty obj 0 4); [nia|].
    unfold obj, obj_slice. rewrite bool_decide_true by nia.
    rewrite bool_decide_true by (apply Nat.mod_small; lia). done. }
  assert (select cls (shift_mean obj bo b) ≠ []) as Hcls.
  { apply (select_from_nonempty cls 0 5); [rewrite shift_mean_length; nia|].
    unfold cls, cls_slice. rewrite bool_decide_true by nia.
    rewrite bool_decide_true by (rewrite Nat.mod_small; lia). done. }
  destruct (shift_mean_hits obj bo b Hobj) as [Hm1 Hz1].
  destruct (shift_mean_hits cls bc (shift_mean obj bo b) Hcls) as [Hm2 Hz2].
  rewrite (shift_mean_other obj cls) by apply obj_cls_disjoint.
  split; [done|]. split; [done|]. intros Hz. split.
  - apply Hz1. by apply select_from_Forall.
  - apply Hz2. rewrite (shift_mean_other cls obj) by apply cls_obj_disjoint.
    by apply select_from_Forall.
Qed.

Lemma target_bias_set (ml ml' : list Net.module) (j : Z) (b b' : list R) :
  target_bias ml j = Ok b →
  set_target_bias ml j b' = Ok ml' →
  target_bias ml' j = Ok b'.
Proof.
  unfold target_bias, set_target_bias. intros Hb Hset.
  apply bind_Ok in Hb as (target & Ht & Hb). rewrite Ht in Hset.
  cbn [mbind result_bind] in Hset.
  apply bind_Ok in Hb as (l & Hl & Hb).
  apply bind_Ok in Hb as (ob & Hob & Hb).
  unfold Py.getitem in Ht. apply bind_Ok in Ht as (i & Hi & Ht).
  destruct (ml !! i) as [t0|] eqn:Hlk; [|done]. injection Ht as ->.
  unfold Py.setitem in Hset. rewrite Hi in Hset. cbn [mbind result_bind] in Hset.
  injection Hset as <-.
  unfold Py.getitem. rewrite length_insert, Hi. cbn [mbind result_bind].
  rewrite list_lookup_insert_eq by (by eapply lookup_lt_Some).
  cbn [mbind result_bind].
  destruct target as [[|[name l0] children]|]; try done.
  cbn in Hl. injection Hl as ->. cbn.
  destruct l; try done; cbn in Hob; injection Hob as <-; done.
Qed.

(** With grad mode on the in-place additions are refused: the [try]
    block never gets past them. *)
Lemma shift_biases_needs_grad_off (na : nat) (no : Z) (bo bc : R) (b b' : list R) :
  shift_biases grad_enabled na no bo bc b = Ok b' → grad_enabled = false.
Proof.
  unfold shift_biases. intros H. apply bind_Ok in H as (s & _ & H).
  destruct s as [|rows [|cols [|? ?]]]; try done.
  case_decide; [|done]. by destruct grad_enabled.
Qed.

Lemma smart_bias_needs_grad_off module layers yi modules (ml ml' : list Net.module) :
  smart_bias grad_enabled module layers yi modules ml = Ok ml' → grad_enabled = false.
Proof.
  unfold smart_bias. intros H.
  do 3 (apply bind_Ok in H as (? & _ & H)).
  apply bind_Ok in H as (? & Hshift & _).
  by apply shift_biases_needs_grad_off in Hshift.
Qed.

Lemma smart_bias_length module layers yi modules (ml ml' : list Net.module) :
  smart_bias grad_enabled module layers yi modules ml = Ok ml' → length ml' = length ml.
Proof.
  unfold smart_bias, set_target_bias. intros H.
  do 5 (apply bind_Ok in H as (? & _ & H)).
  by apply setitem_length in H.
Qed.

(** C5, as amended. When the bias initialisation of a yolo record
    succeeds (in whatever grad mode; it does so with grad mode off only),
    it has rewritten the bias vector of its target layer
    [module_list[j][0]] from [b] to [b']. If [b] holds at least [na * no]
    entries (one slice of [no] per anchor), then the mean over the
    anchors of entry 4 of each slice of [b'] is -4.5 and the mean of the
    entries 5 and onward of the slices is [log(1 / (nc - 0.99))], in exact
    arithmetic and whatever values [b] held; if [b] was all zero, every
    such entry is exactly -4.5, respectively [log(1 / (nc - 0.99))]. *)
Theorem smart_bias_shifts_means
    (module : spec) (layers : list Z) (yolo_index : Z) (modules : YOLOLayer.t)
    (ml ml' : list Net.module) :
  smart_bias grad_enabled module layers yolo_index modules ml = Ok ml' →
  ∃ j b b',
    target_index module layers yolo_index = Ok j ∧
    target_bias ml j = Ok b ∧
    target_bias ml' j = Ok b' ∧
    let na := YOLOLayer.na modules in
    let no := Z.to_nat (YOLOLayer.no modules) in
    let bo := (- (45 / 10))%R in
    let bc := ln (1 / (IZR (YOLOLayer.nc modules) - 99 / 100)) in
    (na * no ≤ length b →
     mean (select (obj_slice na no) b') = Some bo ∧
     mean (select (cls_slice na no) b') = Some bc ∧
     (Forall (eq 0%R) b →
      Forall (eq bo) (select (obj_slice na no) b') ∧
      Forall (eq bc) (select (cls_slice na no) b'))).
Proof.
  unfold smart_bias. intros H.
  apply bind_Ok in H as (bc & Hbc & H).
  apply bind_Ok in H as (j & Hj & H).
  apply bind_Ok in H as (b & Hb & H).
  apply bind_Ok in H as (b' & Hshift & H).
  exists j, b, b'. split; [done|]. split; [done|].
  split; [by eapply target_bias_set|].
  cbv zeta. intros Hlen.
  unfold cls_bias in Hbc. case_decide as Hnc; [|done]. injection Hbc as <-.
  apply (shift_biases_means _ _ _ _ _ _ Hshift); [unfold YOLOLayer.no; lia|done].
Qed.

End BiasFacts.

(** ** The graph builder *)

Section BuilderFacts.
Import Config Net Builder.

Variable grad_enabled : bool.
Variable init_bias : nat → nat → R.

(** A branch of the loop body leaves [output_filters] alone and keeps the
    length of the module list. *)
Lemma branch_frame (st st' : state) (i : nat) (module : spec) (m : Net.module) :
  branch grad_enabled init_bias st i module = Ok (m, st') →
  output_filters st' = output_filters st ∧
  length (module_list st') = length (module_list st).
Proof.
  unfold branch. intros H.
  apply bind_Ok in H as (type & _ & H).
  repeat match type of H with
         | (if ?b then _ else _) = Ok _ => destruct b eqn:?
         end;
    repeat (apply bind_Ok in H as (? & _ & H));
    repeat match type of H with
           | (if ?b then _ else _) = Ok _ => destruct b eqn:?
           end;
    try (injection H as <- <-; done).
  destruct (smart_bias _ _ _ _ _ _) as [ml|e] eqn:Hb; injection H as <- <-;
    cbn; [|done].
  split; [done|]. by apply smart_bias_length in Hb.
Qed.

(** An iteration appends one module and one channel count. *)
Lemma body_lengths (st st' : state) (im : nat * spec) :
  body grad_enabled init_bias st im = Ok st' →
  length (module_list st') = S (length (module_list st)) ∧
  length (output_filters st') = S (length (output_filters st)).
Proof.
  unfold body. intros H. apply bind_Ok in H as ([m st1] & Hb & H).
  apply branch_frame in Hb as [Hf Hm].
  destruct (filters st1); [|done]. injection H as <-. cbn.
  rewrite !length_app, Hf, Hm. cbn. lia.
Qed.

Lemma for_each_body_lengths (st0 st : state) (l : list (nat * spec)) :
  Py.for_each (body grad_enabled init_bias) st0 l = Ok st →
  length (module_list st) = length (module_list st0) + length l ∧
  length (output_filters st) = length (output_filters st0) + length l.
Proof.
  revert st0. induction l as [|im l IH]; intros st0; simpl.
  - intros [= <-]. lia.
  - destruct (body grad_enabled init_bias st0 im) as [st1|] eqn:Hb; [|done].
    cbn [mbind result_bind]. intros H.
    apply body_lengths in Hb as [Hm Hf].
    destruct (IH st1 H) as [G1 G2]. lia.
Qed.

Lemma run_loop_lengths (channels : Z) (defs : list spec) (st : state) :
  run_loop grad_enabled init_bias channels defs = Ok st →
  length (module_list st) = length defs ∧
  length (output_filters st) = S (length defs).
Proof.
  unfold run_loop. intros H. apply for_each_body_lengths in H as [H1 H2].
  rewrite enumerate_length in *. cbn in *. lia.
Qed.

(** What holds whenever [create_modules] returns: the caller's list has
    lost its first record and nothing else, and the module list and the
    routed mask have one entry per remaining record. *)
Lemma create_modules_returns (defs defs' : list spec) (ml : list Net.module)
    (rb : list bool) (printed : list string) :
  create_modules grad_enabled init_bias defs = Ok (defs', ml, rb, printed) →
  (∃ hyper_params, defs = hyper_params :: defs') ∧
  length ml = length defs' ∧ length rb = length ml.
Proof.
  unfold create_modules. destruct defs as [|hyper_params rest]; [done|].
  intros H.
  apply bind_Ok in H as (channels & _ & H).
  apply bind_Ok in H as (st & Hloop & H).
  apply bind_Ok in H as (i & Hi & H).
  apply bind_Ok in H as (routs_binary & Hrb & H).
  injection H as <- <- <- <-.
  apply run_loop_lengths in Hloop as [Hml _].
  apply for_each_setitem_length in Hrb. rewrite length_replicate in Hrb.
  split; [by eexists|]. split; [done|].
  destruct rest as [|r rest]; [done|]. injection Hi as <-.
  rewrite Hrb, Hml. cbn. lia.
Qed.

(** C3, where the code departs from it. A description whose first layer
    is a maxpool (any branch that does not assign [filters]) makes
    [create_modules] raise: the statement
    [output_filters.append(filters)] reads a local no branch has assigned
    yet. No module list is returned. *)
Theorem create_modules_first_layer_maxpool_raises :
  create_modules grad_enabled init_bias
    [dict [("channels", VInt 3)];
     dict [("type", VStr "maxpool"); ("size", VInt 2); ("stride", VInt 2)]]
  = Raise (UnboundLocalError "filters").
Proof. reflexivity. Qed.

(** C8, where the code departs from it. A description whose first layer
    has an unrecognized type makes [create_modules] raise: the warning
    branch assigns no [filters], and
    [output_filters.append(filters)] reads it unbound. *)
Theorem create_modules_first_layer_unrecognized_raises :
  create_modules grad_enabled init_bias
    [dict [("channels", VInt 3)]; dict [("type", VStr "reorg")]]
  = Raise (UnboundLocalError "filters").
Proof. reflexivity. Qed.

(** X4. What the warning branch does once [filters] is bound (some earlier
    convolutional, route or shortcut layer assigned it): a warning is
    printed, an empty Sequential joins the module list and the stale
    [filters] joins the channel counts. *)
Lemma unrecognized_layer_after_filters (st : state) (i : nat) (module : spec)
    (type : value) (f : Z) :
  get module "type" = Ok type →
  recognized type = false →
  filters st = Some f →
  body grad_enabled init_bias st (i, module) =
    Ok {| output_filters := output_filters st ++ [f];
          module_list := module_list st ++ [Sequential []];
          routs := routs st; yolo_index := yolo_index st; filters := Some f;
          stdout := stdout st ++
            [("Warning: Unrecognized Layer Type: " ++ format type)%string] |}.
Proof.
  intros Hty Hrec Hf. unfold recognized in Hrec.
  repeat (apply orb_false_elim in Hrec as [Hrec ?]).
  unfold body, branch. cbn [fst snd]. rewrite Hty. cbn [mbind result_bind].
  repeat match goal with H : is_str type _ = false |- _ => rewrite H; clear H end.
  cbn. rewrite Hf. done.
Qed.

(** X5. The route branch on references that are not 0: the declared count is
    the sum of the counts of the referenced layers, layer [k]'s count
    being entry [k + 1] of [output_filters] (entry 0 is the input's). *)
Lemma route_declared_filters (st : state) (i : nat) (module : spec) (layers : list Z) :
  get module "type" = Ok (VStr "route") →
  get module "layers" = Ok (VInts layers) →
  length (output_filters st) = S i →
  Forall (fun layer => (- Z.of_nat i <= layer < 0 ∨ 0 < layer < Z.of_nat i)%Z) layers →
  ∃ st', branch grad_enabled init_bias st i module = Ok (Sequential [], st') ∧
         filters st' =
           Some (foldr Z.add 0%Z
                   ((fun layer => output_filters st !!! S (referenced i layer)) <$> layers)) ∧
         routs st' = routs st ++ absolute i layers.
Proof.
  intros Hty Hl Hlen Hrefs. unfold branch. rewrite Hty. cbn [mbind result_bind].
  change (is_str (VStr "route") "convolutional") with false.
  change (is_str (VStr "route") "maxpool") with false.
  change (is_str (VStr "route") "avgpool") with false.
  change (is_str (VStr "route") "semodule") with false.
  change (is_str (VStr "route") "shuffle") with false.
  change (is_str (VStr "route") "dense") with false.
  change (is_str (VStr "route") "upsample") with false.
  change (is_str (VStr "route") "route") with true. cbv iota.
  unfold get_ints. rewrite Hl. cbn [mbind result_bind as_ints].
  rewrite (comprehension_total _
             (fun layer => output_filters st !!! S (referenced i layer))).
  - cbn [mbind result_bind]. eexists. split; [done|]. done.
  - eapply Forall_impl; [exact Hrefs|]. intros layer Hr. cbv beta.
    unfold referenced. destruct Hr as [Hneg|Hpos].
    + rewrite decide_False by lia. rewrite decide_True by lia.
      rewrite getitem_negative by (rewrite Hlen; lia).
      do 2 f_equal. rewrite Hlen. lia.
    + rewrite decide_True by lia. rewrite decide_False by lia.
      rewrite getitem_nonneg by (rewrite Hlen; lia).
      do 2 f_equal. lia.
Qed.

(** C4, where the code departs from it. In the description below record
    2 is a route whose single reference is the absolute index 0. The
    first convolution outputs 16 channels, yet the count the builder
    declares for the route (the last entry of [output_filters]) is 3, the
    count of the network input kept at position 0, while [routs] marks
    layer 0 as the one the route reads. *)
Theorem route_to_layer_0_declares_input_channels :
  (fun st => (output_filters st, routs st)) <$>
    run_loop grad_enabled init_bias 3
      [dict [("type", VStr "convolutional"); ("batch_normalize", VInt 1);
             ("filters", VInt 16); ("size", VInt 3); ("stride", VInt 1);
             ("pad", VInt 1); ("activation", VStr "leaky")];
       dict [("type", VStr "convolutional"); ("batch_normalize", VInt 1);
             ("filters", VInt 32); ("size", VInt 3); ("stride", VInt 1);
             ("pad", VInt 1); ("activation", VStr "leaky")];
       dict [("type", VStr "route"); ("layers", VInts [0%Z])]]
  = Ok ([3; 16; 32; 3]%Z, [0%Z]).
Proof. reflexivity. Qed.

End BuilderFacts.

(** ** The model graph *)

Section DarknetFacts.
Import Tensor Config Net Darknet.

Variable grad_enabled : bool.
Variable init_bias : nat → nat → R.
Variable cell_stride : list nat → nat * nat → R.
Variable run : Net.module → tensor R → result (tensor R).
Variable fuse : list Z → bool → tensor R → list entry → result (tensor R).
Variable cat : list (tensor R) → result (tensor R).
Variable interpolate : tensor R → result (tensor R).

Local Abbreviation step := (Darknet.step cell_stride run fuse cat interpolate).
Local Abbreviation dispatch := (Darknet.dispatch cell_stride run fuse cat interpolate).
Local Abbreviation run_layers := (Darknet.run_layers cell_stride run fuse cat interpolate).

(** C10. When the construction of a model returns, the list the model
    keeps in [module_defines] is the parsed description without its
    first record, every other record unchanged and in place; it has one
    record per module, so zipping the two lists in [forward] pairs record
    [i] with module [i] and drops nothing. *)
Theorem init_module_defines_aligned (parsed : list spec) (m : Darknet.t) :
  Darknet.init grad_enabled init_bias parsed = Ok m →
  (∃ hyper_params, parsed = hyper_params :: module_defines m) ∧
  length (module_list m) = length (module_defines m) ∧
  length (routs m) = length (module_list m) ∧
  length (items m) = length (module_defines m) ∧
  ∀ i d md, module_defines m !! i = Some d → module_list m !! i = Some md →
    items m !! i = Some (i, (d, md)).
Proof.
  unfold Darknet.init. intros H.
  apply bind_Ok in H as ([[[defs ml] rb] printed] & Hc & H).
  apply bind_Ok in H as (yl & _ & H). injection H as <-.
  cbn [module_defines module_list routs].
  apply create_modules_returns in Hc as (Hpop & Hml & Hrb).
  split; [done|]. split; [done|]. split; [done|].
  unfold items. cbn [module_defines module_list]. split.
  - rewrite enumerate_length, length_zip. lia.
  - intros i d md Hd Hmd. apply enumerate_lookup.
    by rewrite lookup_zip_with, Hd, Hmd.
Qed.

Lemma route_out_length (layers : list Z) (fr fr' : frame) :
  Darknet.route cat interpolate layers fr = Ok fr' →
  length (out fr') = length (out fr).
Proof.
  unfold Darknet.route. case_decide as Hone.
  - intros H. do 2 (apply bind_Ok in H as (? & _ & H)). by injection H as <-.
  - destruct (cat_history _ _ _) as [x0|e].
    + by intros [= <-].
    + intros H. do 4 (apply bind_Ok in H as (? & _ & H)).
      apply bind_Ok in H as (out' & Hset & H).
      apply bind_Ok in H as (? & _ & H). injection H as <-. cbn.
      by apply setitem_length in Hset.
Qed.

(** The dispatch never changes how many items the history holds. *)
Lemma dispatch_out_length (i : nat) (module_define : spec) (module : Net.module)
    (image_size : list nat) (fr fr' : frame) :
  dispatch i module_define module image_size fr = Ok fr' →
  length (out fr') = length (out fr).
Proof.
  unfold Darknet.dispatch. intros H.
  apply bind_Ok in H as (ty & _ & H).
  destruct (_ || _).
  { do 2 (apply bind_Ok in H as (? & _ & H)). by injection H as <-. }
  destruct (is_str ty "shortcut").
  { unfold call_fusion in H. destruct module as [|[]]; try done.
    do 2 (apply bind_Ok in H as (? & _ & H)). by injection H as <-. }
  destruct (is_str ty "route").
  { apply bind_Ok in H as (layers & _ & H). by apply route_out_length in H. }
  destruct (is_str ty "yolo").
  { unfold call_yolo in H. destruct module as [|[]]; try done.
    do 2 (apply bind_Ok in H as (? & _ & H)). by injection H as <-. }
  by injection H as <-.
Qed.

(** An iteration appends one item: the current tensor if the layer is
    routed, the placeholder otherwise. *)
Lemma step_appends (routs : list bool) (image_size : list nat) (fr fr' : frame)
    (item : nat * (spec * Net.module)) :
  step routs image_size fr item = Ok fr' →
  ∃ routed : bool,
    routs !! item.1 = Some routed ∧
    length (out fr') = S (length (out fr)) ∧
    out fr' !! length (out fr) = Some (if routed then x fr' else EEmpty).
Proof.
  unfold Darknet.step. intros H.
  apply bind_Ok in H as (fr1 & Hd & H).
  apply bind_Ok in H as (routed & Hr & H). injection H as <-. cbn.
  apply dispatch_out_length in Hd.
  exists routed. split; [|split].
  - unfold Py.getitem, Py.norm_index in Hr.
    destruct (decide (0 <= Z.of_nat item.1 < Z.of_nat (length routs))%Z) as [Hin|Hout].
    + rewrite Nat2Z.id in Hr. cbn [mbind result_bind] in Hr.
      by destruct (routs !! item.1) as [r|]; simplify_eq.
    + rewrite decide_False in Hr by lia. done.
  - rewrite length_app. cbn. lia.
  - rewrite <- Hd. rewrite lookup_app_r by done.
    by rewrite Nat.sub_diag.
Qed.

Lemma run_layers_S (self : Darknet.t) (input : tensor R) (k : nat)
    (item : nat * (spec * Net.module)) :
  items self !! k = Some item →
  run_layers self input (S k) =
    run_layers self input k ≫=
      fun fr => step (routs self) (image_size_of input) fr item.
Proof.
  intros Hk. unfold Darknet.run_layers.
  rewrite (take_S_r _ _ _ Hk), for_each_app.
  destruct (Py.for_each _ _ (take k _)) as [fr|e]; [|done].
  cbn. by destruct (step _ _ _ _).
Qed.

Lemma run_layers_out_length (self : Darknet.t) (input : tensor R) (k : nat) (fr : frame) :
  k ≤ length (items self) →
  run_layers self input k = Ok fr → length (out fr) = k.
Proof.
  revert fr. induction k as [|k IH]; intros fr Hk.
  - unfold Darknet.run_layers. rewrite take_0. by intros [= <-].
  - destruct (lookup_lt_is_Some_2 (items self) k) as [item Hitem]; [lia|].
    rewrite (run_layers_S _ _ _ _ Hitem). intros H.
    apply bind_Ok in H as (fr0 & H0 & H).
    apply step_appends in H as (_ & _ & Hlen & _).
    rewrite Hlen. f_equal. apply IH; [lia|done].
Qed.

(** C6. Within a call [forward(input)], once layer [i] has been executed
    the history holds [i + 1] items, and item [i] is the current tensor
    [x] as layer [i] leaves it (the layer's output) if [routs[i]] is true
    and the placeholder [[]] otherwise. The history of every call starts
    empty: it is a local of the call, no part of the model that calls
    share. *)
Theorem history_after_layer (self : Darknet.t) (input : tensor R) (i : nat) (fr : frame) :
  i < length (items self) →
  run_layers self input (S i) = Ok fr →
  out (Darknet.enter self input) = [] ∧
  run_layers self input 0 = Ok (Darknet.enter self input) ∧
  length (out fr) = i + 1 ∧
  ∃ routed : bool,
    routs self !! i = Some routed ∧
    out fr !! i = Some (if routed then x fr else EEmpty).
Proof.
  intros Hi H. split; [done|]. split.
  { unfold Darknet.run_layers. by rewrite take_0. }
  destruct (lookup_lt_is_Some_2 (items self) i Hi) as [item Hitem].
  rewrite (run_layers_S _ _ _ _ Hitem) in H.
  apply bind_Ok in H as (fr0 & H0 & H).
  apply run_layers_out_length in H0; [|lia].
  apply step_appends in H as (routed & Hr & Hlen & Hlast).
  assert (item.1 = i) as Hidx.
  { unfold items, Py.enumerate in Hitem. rewrite list_lookup_imap in Hitem.
    destruct (zip _ _ !! i); [|done]. by injection Hitem as <-. }
  rewrite Hidx in Hr. rewrite H0 in Hlen, Hlast.
  split; [lia|]. by exists routed.
Qed.

End DarknetFacts.

(** ** The training loop *)

Section TrainFacts.
Import Train.

Variable fitness : results → Q.
Variable loss_at : nat → nat → loss.
Variable evaluate : nat → results.
Variable batches_num : nat.
Variable start_epoch : nat.
Variable start_fitness : Q.

Local Abbreviation batch := (Train.batch loss_at batches_num).
Local Abbreviation one_epoch := (Train.one_epoch fitness loss_at evaluate batches_num).
Local Abbreviation after_batches := (Train.after_batches fitness evaluate batches_num).
Local Abbreviation train := (Train.train fitness loss_at evaluate batches_num start_epoch start_fitness).
Local Abbreviation enter := (Train.enter start_fitness).

Lemma loop_app {A} (body : state → A → state * signal) (st : state) (l1 l2 : list A) :
  loop body st (l1 ++ l2) =
    match loop body st l1 with
    | (st', Next) => loop body st' l2
    | r => r
    end.
Proof.
  revert st. induction l1 as [|x l1 IH]; intros st; [done|].
  simpl. destruct (body st x) as [st' [| |]]; [apply IH|done..].
Qed.

(** A batch touches neither [results] nor [best_fitness]. *)
Lemma batch_keeps_results (a : args) (epoch index : nat) (st st' : state) (sig : signal) :
  batch a epoch st index = (st', sig) → cur_results st' = cur_results st.
Proof.
  unfold Train.batch. intros H.
  repeat match type of H with
         | (if ?c then _ else _) = _ => destruct c
         end; by injection H as <- <-.
Qed.

Lemma batches_keep_results (a : args) (epoch : nat) (l : list nat) (st st' : state)
    (sig : signal) :
  loop (batch a epoch) st l = (st', sig) → cur_results st' = cur_results st.
Proof.
  revert st. induction l as [|index l IH]; intros st; simpl.
  - by intros [= <- <-].
  - destruct (batch a epoch st index) as [st1 s1] eqn:Hb.
    apply batch_keeps_results in Hb.
    destruct s1; [intros H; apply IH in H; congruence|by intros [= <- <-]..].
Qed.

(** An epoch that is not the last and completes leaves in [results] what
    its evaluation reported, unless evaluation is switched off. *)
Lemma one_epoch_results (a : args) (epoch : nat) (st st' : state) :
  epoch + 1 ≠ epochs a →
  one_epoch a st epoch = (st', Next) →
  cur_results st' = if notest a then cur_results st else evaluate epoch.
Proof.
  intros Hlast. unfold Train.one_epoch.
  destruct (loop _ _ _) as [st1 s1] eqn:Hb. apply batches_keep_results in Hb.
  destruct s1; [|done..]. unfold Train.after_batches.
  rewrite (bool_decide_false _ Hlast), orb_false_r. cbn [andb].
  intros H. destruct (notest a); cbn [negb] in H;
    repeat match type of H with
           | (if ?c then _ else _) = _ => destruct c eqn:?
           end; try discriminate; injection H as <-; cbn; done.
Qed.

Lemma epochs_results (a : args) (k first : nat) (st st' : state) :
  first + k < epochs a →
  loop (one_epoch a) st (seq first k) = (st', Next) →
  cur_results st' =
    if notest a || bool_decide (k = 0) then cur_results st
    else evaluate (first + k - 1).
Proof.
  revert first st. induction k as [|k IH]; intros first st Hk; simpl.
  - intros [= <-]. by rewrite orb_true_r.
  - destruct (one_epoch a st first) as [st1 s1] eqn:He.
    destruct s1; [|done..]. intros H.
    apply one_epoch_results in He; [|lia].
    apply IH in H; [|lia]. rewrite H, He.
    rewrite orb_false_r.
    destruct (notest a); cbn [orb]; [done|].
    case_bool_decide as Hk0.
    + subst k. f_equal. lia.
    + f_equal. lia.
Qed.

(** C9, as amended. If a run gets to batch [i] of epoch [e] and the total
    loss of that batch is not finite, [train] ends there: its state is
    the state before that batch plus the warning, so no backward pass,
    optimizer step, evaluation or checkpoint follows; and it returns the
    local [results]. That is what the evaluation of the preceding epoch
    reported, or the initial zeros when [e] is the first epoch of the
    run or evaluation is off; it is the most recent evaluation, not the
    best one. *)
Theorem nonfinite_loss_returns_latest_results
    (a : args) (e i : nat) (st1 st2 : state) :
  start_epoch ≤ e < epochs a →
  i < batches_num →
  accumulate a ≠ 0 →
  loop (one_epoch a) enter (seq start_epoch (e - start_epoch)) = (st1, Next) →
  loop (batch a e) st1 (seq 0 i) = (st2, Next) →
  isfinite (loss_at e i) = false →
  train a = (log (Warned e i) st2, Ok (cur_results st2)) ∧
  cur_results st2 =
    if notest a || bool_decide (e = start_epoch) then zero_results
    else evaluate (e - 1).
Proof.
  intros He Hi Hacc Hepochs Hbatches Hloss. split.
  - unfold Train.train, epoch_range.
    replace (epochs a - start_epoch) with ((e - start_epoch) + S (epochs a - S e)) by lia.
    rewrite seq_app, loop_app, Hepochs.
    replace (start_epoch + (e - start_epoch)) with e by lia.
    cbn [seq loop]. unfold Train.one_epoch at 1.
    assert (seq 0 batches_num = seq 0 i ++ i :: seq (S i) (batches_num - S i)) as ->.
    { replace batches_num with (i + S (batches_num - S i)) at 1 by lia.
      by rewrite seq_app. }
    rewrite loop_app, Hbatches. cbn [loop].
    unfold Train.batch at 1.
    rewrite (bool_decide_false _ Hacc), andb_false_r, Hloss. done.
  - apply batches_keep_results in Hbatches. rewrite Hbatches.
    apply epochs_results in Hepochs; [|lia]. rewrite Hepochs. cbn [cur_results].
    destruct (notest a); cbn [orb]; [done|].
    repeat case_bool_decide; try lia; try done.
    f_equal. lia.
Qed.

End TrainFacts.

(** ** The detection head: a feature map of the wrong size, and the modes *)

Section HeadErrors.
Import Tensor YOLOLayer.

Variable cell_stride : list nat → nat * nat → R.

(** X3. A feature map whose channel count is not [na * no] makes [forward]
    raise (the view fails), yet the call has already brought the grid
    cache to the map's resolution. *)
Theorem forward_wrong_channels_raises
    (self : t) (pred : tensor R) (image_size : list nat) (bs c ny0 nx0 : nat) :
  (0 <= nc self)%Z →
  wf pred →
  shape pred = [bs; c; ny0; nx0] →
  0 < bs * ny0 * nx0 →
  c ≠ na self * Z.to_nat (no self) →
  ∃ self' calls,
    forward cell_stride self pred image_size = (self', calls, Raise RuntimeError) ∧
    (self', calls) = ensure_grids cell_stride self image_size (nx0, ny0) ∧
    (nx self', ny self') = (nx0, ny0).
Proof.
  intros Hnc Hwf Hs Hpos Hc. unfold forward. rewrite Hs.
  pose proof (ensure_grids_frame cell_stride self image_size (nx0, ny0)) as Hf.
  destruct (ensure_grids _ _ _ _) as [self' calls]. cbn [fst] in Hf.
  destruct Hf as (Hxy & Ha & Hnc' & _).
  exists self', calls. split; [|done]. f_equal.
  unfold forward_body, reshaped, view.
  assert (na self' = na self) as Hna by (unfold na; by rewrite Ha).
  assert (no self' = no self) as Hno by (unfold no; by rewrite Hnc').
  injection Hxy as Hx Hy. rewrite Hna, Hno, Hx, Hy.
  assert (0 <= no self)%Z as Hno0 by (unfold no; lia).
  rewrite infer_size_nonneg by (repeat constructor; lia).
  cbn [fmap list_fmap numel foldr]. rewrite !Nat2Z.id, Nat.mul_1_r.
  rewrite decide_False; [done|].
  unfold wf in Hwf. rewrite Hwf, Hs. cbn [numel foldr]. rewrite Nat.mul_1_r.
  intros Heq. apply Hc.
  assert (bs * (ny0 * nx0) ≠ 0) as Hne by lia.
  apply (Nat.mul_cancel_l _ _ _ Hne). 
  transitivity (bs * (c * (ny0 * nx0))); [ring|]. rewrite <- Heq. ring.
Qed.

End HeadErrors.

Section HeadModes.
Import Tensor YOLOLayer.

Variable cell_stride : list nat → nat * nat → R.

Lemma ensure_grids_train (mode : bool) (self : t) (image_size : list nat) (ng : nat * nat) :
  ensure_grids cell_stride (train mode self) image_size ng =
    (train mode (ensure_grids cell_stride self image_size ng).1,
     (ensure_grids cell_stride self image_size ng).2).
Proof. unfold ensure_grids. cbn [nx ny train]. by case_decide. Qed.

(** X28. The raw predictions an inference call returns next to the decoded
    ones are what the same call returns in training mode: switching the
    head to training mode changes neither the reshaped tensor nor the
    grid the call caches. *)
Theorem inference_returns_the_training_output
    (self self' : t) (pred io p : tensor R) (image_size : list nat) (calls : list call) :
  forward cell_stride self pred image_size = (self', calls, Ok (OutInfer io p)) →
  forward cell_stride (train true self) pred image_size
    = (train true self', calls, Ok (OutTrain p)).
Proof.
  unfold forward.
  destruct (shape pred) as [|bs [|c [|ny0 [|nx0 [|? ?]]]]]; try by intros [=].
  rewrite ensure_grids_train.
  destruct (ensure_grids cell_stride self image_size (nx0, ny0)) as [s1 calls1].
  cbn [fst snd]. intros H. injection H as -> -> H. f_equal.
  unfold forward_body in *.
  change (reshaped (train true self') bs pred) with (reshaped self' bs pred).
  destruct (reshaped self' bs pred) as [q|e]; [|done]. cbn [mbind result_bind] in *.
  cbn [training train]. destruct (training self'); [done|].
  destruct (grid self') as [g|]; [|done]. cbn [from_option mbind result_bind] in H.
  destruct (decode g q) as [io0|]; [|done]. cbn [mbind result_bind] in H.
  destruct (view _ io0) as [io1|]; [|done]. cbn [mbind result_bind] in H.
  by injection H as <- <-.
Qed.

End HeadModes.

(** ** The graph builder: the routed mask and the errors *)

Section MaskFacts.
Import Config Net Builder Routing.

Variable grad_enabled : bool.
Variable init_bias : nat → nat → R.

Lemma is_str_true (v : value) (s : string) : is_str v s = true → v = VStr s.
Proof. destruct v; try done. cbn. intros H. apply bool_decide_eq_true in H. by subst. Qed.

(** A branch appends to [routs] the marks of its record. *)
Lemma branch_routs (st st' : state) (i : nat) (module : spec) (m : Net.module) :
  branch grad_enabled init_bias st i module = Ok (m, st') →
  routs st' = routs st ++ marks i module.
Proof.
  unfold branch, marks. intros H.
  apply bind_Ok in H as (type & Hty & H). rewrite Hty.
  destruct (is_str type "convolutional") eqn:Hconv.
  { apply bind_Ok in H as (bn & Hbn & H). rewrite Hbn.
    repeat (apply bind_Ok in H as (? & _ & H)).
    destruct (activation _); injection H as <- <-; cbn; done. }
  destruct (is_str type "maxpool") eqn:Hmax.
  { apply is_str_true in Hmax as ->. cbn.
    repeat (apply bind_Ok in H as (? & _ & H)).
    case_decide; injection H as <- <-; by rewrite app_nil_r. }
  destruct (is_str type "avgpool") eqn:Havg.
  { apply is_str_true in Havg as ->. cbn.
    repeat (apply bind_Ok in H as (? & _ & H)).
    injection H as <- <-; by rewrite app_nil_r. }
  destruct (is_str type "semodule") eqn:Hse.
  { apply is_str_true in Hse as ->. cbn.
    repeat (apply bind_Ok in H as (? & _ & H)).
    injection H as <- <-; by rewrite app_nil_r. }
  destruct (is_str type "shuffle") eqn:Hsh.
  { apply is_str_true in Hsh as ->. cbn.
    repeat (apply bind_Ok in H as (? & _ & H)).
    injection H as <- <-; by rewrite app_nil_r. }
  destruct (is_str type "dense") eqn:Hde.
  { apply is_str_true in Hde as ->. cbn.
    repeat (apply bind_Ok in H as (? & _ & H)).
    injection H as <- <-; by rewrite app_nil_r. }
  destruct (is_str type "upsample") eqn:Hup.
  { apply is_str_true in Hup as ->. cbn.
    repeat (apply bind_Ok in H as (? & _ & H)).
    injection H as <- <-; by rewrite app_nil_r. }
  destruct (is_str type "route") eqn:Hro.
  { apply bind_Ok in H as (layers & Hl & H). rewrite Hl.
    apply bind_Ok in H as (? & _ & H). by injection H as <- <-. }
  destruct (is_str type "shortcut") eqn:Hsc.
  { apply bind_Ok in H as (layers & Hl & H). rewrite Hl.
    apply bind_Ok in H as (? & _ & H). by injection H as <- <-. }
  destruct (is_str type "yolo") eqn:Hyo.
  { repeat (apply bind_Ok in H as (? & _ & H)).
    destruct (smart_bias _ _ _ _ _ _); injection H as <- <-; cbn; by rewrite app_nil_r. }
  injection H as <- <-. cbn. by rewrite app_nil_r.
Qed.

Lemma body_routs (st st' : state) (im : nat * spec) :
  body grad_enabled init_bias st im = Ok st' →
  routs st' = routs st ++ marks im.1 im.2.
Proof.
  unfold body. intros H. apply bind_Ok in H as ([m st1] & Hb & H).
  apply branch_routs in Hb. destruct (filters st1); [|done].
  by injection H as <-.
Qed.

Lemma for_each_body_routs (st0 st : state) (l : list (nat * spec)) :
  Py.for_each (body grad_enabled init_bias) st0 l = Ok st →
  routs st = routs st0 ++ mjoin ((fun im => marks im.1 im.2) <$> l).
Proof.
  revert st0. induction l as [|im l IH]; intros st0; simpl.
  - intros [= <-]. by rewrite app_nil_r.
  - destruct (body grad_enabled init_bias st0 im) as [st1|] eqn:Hb; [|done].
    cbn [mbind result_bind]. intros H.
    apply body_routs in Hb. rewrite (IH st1 H), Hb. by rewrite app_assoc.
Qed.

Lemma run_loop_routs (channels : Z) (defs : list spec) (st : state) (r : Z) :
  run_loop grad_enabled init_bias channels defs = Ok st →
  r ∈ routs st ↔ ∃ i d, defs !! i = Some d ∧ r ∈ marks i d.
Proof.
  unfold run_loop. intros H. apply for_each_body_routs in H. rewrite H.
  cbn [routs app]. rewrite list_elem_of_join. split.
  - intros (l & Hr & Hl). apply list_elem_of_fmap in Hl as ([i d] & -> & Hid).
    apply list_elem_of_lookup in Hid as [k Hk].
    unfold Py.enumerate in Hk. rewrite list_lookup_imap in Hk.
    destruct (defs !! k) as [d'|] eqn:Hd; [|done]. injection Hk as <- <-.
    by exists k, d'.
  - intros (i & d & Hd & Hr). exists (marks i d). split; [done|].
    apply list_elem_of_fmap. exists (i, d). split; [done|].
    apply list_elem_of_lookup. exists i. by apply enumerate_lookup.
Qed.

(** The loop [for i in routs: routs_binary[i] = True]. *)
Lemma for_each_setitem_true (rb0 rb : list bool) (ks : list Z) :
  Py.for_each (fun rb i => Py.setitem rb i true) rb0 ks = Ok rb →
  length rb = length rb0 ∧
  (∀ r, r ∈ ks → ∃ k, Py.norm_index (length rb0) r = Ok k) ∧
  ∀ k, rb !! k = Some true ↔
       rb0 !! k = Some true ∨ ∃ r, r ∈ ks ∧ Py.norm_index (length rb0) r = Ok k.
Proof.
  revert rb0. induction ks as [|r ks IH]; intros rb0; simpl.
  - intros [= <-]. split; [done|]. split; [by intros r Hr; apply elem_of_nil in Hr|].
    intros k. split; [by left|]. intros [H|(r & Hr & _)]; [done|].
    by apply elem_of_nil in Hr.
  - destruct (Py.setitem rb0 r true) as [rb1|] eqn:Hset; [|done].
    cbn [mbind result_bind]. intros H.
    destruct (IH rb1 H) as (Hlen & Hall & Hiff).
    unfold Py.setitem in Hset. apply bind_Ok in Hset as (k0 & Hk0 & Hset).
    injection Hset as <-. rewrite length_insert in Hlen, Hall, Hiff.
    assert (k0 < length rb0) as Hk0lt.
    { unfold Py.norm_index in Hk0. repeat case_decide; simplify_eq; lia. }
    split; [done|]. split.
    { intros r' Hr'. apply elem_of_cons in Hr' as [->|Hr']; [by eexists|by apply Hall]. }
    intros k. rewrite Hiff. split.
    + intros [Hk|(r' & Hr' & Hn)].
      * destruct (decide (k = k0)) as [->|Hne].
        -- right. exists r. split; [by left|done].
        -- left. by rewrite list_lookup_insert_ne in Hk.
      * right. exists r'. split; [by right|done].
    + intros [Hk|(r' & Hr' & Hn)].
      * left. destruct (decide (k = k0)) as [->|Hne].
        -- by rewrite list_lookup_insert_eq.
        -- by rewrite list_lookup_insert_ne.
      * apply elem_of_cons in Hr' as [->|Hr'].
        -- left. rewrite Hk0 in Hn. injection Hn as <-.
           by rewrite list_lookup_insert_eq.
        -- right. by exists r'.
Qed.

(** X6. Whenever [create_modules] returns, the routed mask is true exactly at
    the layers some record marks: a convolution without batch
    normalisation marks itself, a route or a shortcut marks the layers it
    names (a negative reference counted back from the record; a mark is
    then read as a Python subscript of the mask). Every mark is a valid
    subscript of the mask. *)
Theorem routed_mask_marks (defs defs' : list spec) (ml : list Net.module)
    (rb : list bool) (printed : list string) :
  create_modules grad_enabled init_bias defs = Ok (defs', ml, rb, printed) →
  (∀ i d r, defs' !! i = Some d → r ∈ marks i d →
     ∃ k, Py.norm_index (length defs') r = Ok k) ∧
  ∀ k, rb !! k = Some true ↔
       ∃ i d r, defs' !! i = Some d ∧ r ∈ marks i d ∧
                Py.norm_index (length defs') r = Ok k.
Proof.
  unfold create_modules. destruct defs as [|hyper_params rest]; [done|].
  intros H.
  apply bind_Ok in H as (channels & _ & H).
  apply bind_Ok in H as (st & Hloop & H).
  apply bind_Ok in H as (i & Hi & H).
  apply bind_Ok in H as (routs_binary & Hrb & H).
  injection H as <- <- <- <-.
  destruct rest as [|d0 rest]; [done|].
  assert (i + 1 = length (d0 :: rest)) as Hn by (injection Hi as <-; cbn; lia).
  rewrite Hn in Hrb. clear Hi Hn i.
  apply for_each_setitem_true in Hrb as (_ & Hall & Hiff).
  rewrite length_replicate in Hall, Hiff.
  split.
  - intros i d r Hd Hr. apply Hall.
    apply (run_loop_routs _ _ _ r Hloop). by exists i, d.
  - intros k. rewrite Hiff. split.
    + intros [Hk|(r & Hr & Hn)].
      * apply lookup_replicate in Hk as [? _]. done.
      * apply (run_loop_routs _ _ _ r Hloop) in Hr as (i & d & Hd & Hr).
        by exists i, d, r.
    + intros (i & d & r & Hd & Hr & Hn). right. exists r. split; [|done].
      apply (run_loop_routs _ _ _ r Hloop). by exists i, d.
Qed.

(** Every layer a record marks is set in the mask. *)
Lemma create_modules_marks_set (defs defs' : list spec) (ml : list Net.module)
    (rb : list bool) (printed : list string) :
  create_modules grad_enabled init_bias defs = Ok (defs', ml, rb, printed) →
  ∀ i d r, defs' !! i = Some d → r ∈ marks i d →
    ∃ k, Py.norm_index (length defs') r = Ok k ∧ rb !! k = Some true.
Proof.
  unfold create_modules. destruct defs as [|hyper_params rest]; [done|].
  intros H.
  apply bind_Ok in H as (channels & _ & H).
  apply bind_Ok in H as (st & Hloop & H).
  apply bind_Ok in H as (i & Hi & H).
  apply bind_Ok in H as (routs_binary & Hrb & H).
  injection H as <- <- <- <-.
  destruct rest as [|d0 rest]; [done|].
  assert (i + 1 = length (d0 :: rest)) as Hn by (injection Hi as <-; cbn; lia).
  rewrite Hn in Hrb. clear Hi Hn i.
  apply for_each_setitem_true in Hrb as (_ & Hall & Hiff).
  rewrite length_replicate in Hall, Hiff.
  intros i d r Hd Hr.
  assert (r ∈ routs st) as Hin by (apply (run_loop_routs _ _ _ r Hloop); by exists i, d).
  destruct (Hall r Hin) as [k Hk]. exists k. split; [done|].
  apply Hiff. right. by exists r.
Qed.

(** X7. A description of fewer than two records never builds: the empty list
    has no header to pop, and a header alone leaves the loop variable [i]
    unbound at [[False] * (i + 1)], unless reading its channel count has
    raised before. *)
Theorem create_modules_needs_a_layer (defs : list spec) :
  length defs < 2 →
  ∃ e, create_modules grad_enabled init_bias defs = Raise e ∧
       (defs = [] → e = IndexError) ∧
       (∀ header channels, defs = [header] →
          get header "channels" ≫= py_int = Ok channels → e = UnboundLocalError "i").
Proof.
  intros Hlen. destruct defs as [|header [|d defs]]; [| |cbn in Hlen; lia].
  - exists IndexError. split; [done|]. split; [done|]. by intros ? ? [=].
  - unfold create_modules.
    destruct (get header "channels" ≫= py_int) as [channels|e] eqn:Hc.
    + exists (UnboundLocalError "i"). split; [done|]. split; [done|]. done.
    + exists e. split; [done|]. split; [done|]. by intros ? ? [= <-]; rewrite Hc.
Qed.

End MaskFacts.

Section BiasFrame.
Import Config Net Builder.

Variable grad_enabled : bool.

Lemma add_from_lookup (P : nat → bool) (d : R) (i k : nat) (b : list R) :
  add_from P d i b !! k = (fun v => if P (i + k) then (v + d)%R else v) <$> b !! k.
Proof.
  revert i k. induction b as [|v b IH]; intros i k; [done|].
  destruct k as [|k]; simpl.
  - by rewrite Nat.add_0_r.
  - rewrite IH. by replace (S i + k) with (i + S k) by lia.
Qed.

Lemma shift_mean_lookup_other (P : nat → bool) (target : R) (b : list R) (k : nat) :
  P k = false → shift_mean P target b !! k = b !! k.
Proof.
  intros HP. unfold shift_mean. destruct (mean _); [|done].
  rewrite add_from_lookup. cbn. rewrite HP. by destruct (b !! k).
Qed.

(** The entries of the bias vector outside the two shifted slices keep
    their values. *)
Lemma shift_biases_frame (na : nat) (no : Z) (bo bc : R) (b b' : list R) :
  shift_biases grad_enabled na no bo bc b = Ok b' →
  (6 <= no)%Z →
  na * Z.to_nat no ≤ length b →
  length b' = length b ∧
  ∀ k, na * Z.to_nat no ≤ k ∨ k mod Z.to_nat no < 4 → b' !! k = b !! k.
Proof.
  intros H Hno Hlen. unfold shift_biases in H.
  apply bind_Ok in H as (s & Hs & H).
  apply infer_size_2_inv in Hs as (Hna & _ & ->).
  rewrite length_take in H.
  replace (Z.to_nat (no * Z.of_nat na)) with (Z.to_nat no * na) in H by lia.
  rewrite Nat.min_l in H by lia.
  rewrite Nat.div_mul in H by lia.
  set (cols := Z.to_nat no) in *.
  rewrite decide_True in H by lia.
  destruct grad_enabled; [done|]. injection H as <-.
  split; [by rewrite !shift_mean_length|].
  intros k Hk.
  rewrite !shift_mean_lookup_other; [done| |].
  - unfold obj_slice. destruct Hk as [Hk|Hk].
    + by rewrite bool_decide_false by lia.
    + rewrite (bool_decide_false (_ = 4)) by lia. apply andb_false_r.
  - unfold cls_slice. destruct Hk as [Hk|Hk].
    + by rewrite bool_decide_false by lia.
    + rewrite (bool_decide_false (5 ≤ _)) by lia. apply andb_false_r.
Qed.

(** X10. The bias initialisation of a yolo record writes to one place only.
    It succeeds only while grad mode is off. When it does, the module
    list has kept its length and every module but the target
    [module_list[j]]; the target is the Sequential it was, its first
    child given the new bias vector and nothing else changed; and in a
    vector of at least [na * no] entries the first four entries of every
    slice of [no] (the box coordinates) and the entries past [na * no]
    are the old ones. *)
Theorem smart_bias_writes_only_its_slices
    (module : spec) (layers : list Z) (yolo_index : Z) (modules : YOLOLayer.t)
    (ml ml' : list Net.module) :
  smart_bias grad_enabled module layers yolo_index modules ml = Ok ml' →
  grad_enabled = false ∧
  ∃ j p name l children b b',
    target_index module layers yolo_index = Ok j ∧
    Py.norm_index (length ml) j = Ok p ∧
    ml !! p = Some (Sequential ((name, l) :: children)) ∧
    bias_of l = Ok (Some b) ∧
    ml' = <[p := Sequential ((name, set_bias b' l) :: children)]> ml ∧
    length b' = length b ∧
    let na := YOLOLayer.na modules in
    let no := Z.to_nat (YOLOLayer.no modules) in
    (na * no ≤ length b →
     ∀ k, na * no ≤ k ∨ k mod no < 4 → b' !! k = b !! k).
Proof.
  intros H. split; [by apply smart_bias_needs_grad_off in H|].
  unfold smart_bias in H.
  apply bind_Ok in H as (bc & Hbc & H).
  apply bind_Ok in H as (j & Hj & H).
  apply bind_Ok in H as (b & Hb & H).
  apply bind_Ok in H as (b' & Hshift & H).
  unfold target_bias in Hb.
  apply bind_Ok in Hb as (target & Ht & Hb).
  apply bind_Ok in Hb as (l & Hl & Hb).
  apply bind_Ok in Hb as (ob & Hob & Hb).
  destruct ob as [b0|]; [|done]. injection Hb as ->.
  unfold set_target_bias in H. rewrite Ht in H. cbn [mbind result_bind] in H.
  unfold Py.getitem in Ht. apply bind_Ok in Ht as (p & Hp & Ht).
  destruct (ml !! p) as [t0|] eqn:Hlk; [|done]. injection Ht as ->.
  unfold Py.setitem in H. rewrite Hp in H. cbn [mbind result_bind] in H.
  injection H as <-.
  destruct target as [[|[name l0] children]|]; try done.
  cbn in Hl. injection Hl as ->.
  exists j, p, name, l, children, b, b'.
  split; [done|]. split; [done|]. split; [done|]. split; [done|]. split; [done|].
  unfold cls_bias in Hbc. case_decide as Hnc; [|done].
  assert (6 <= YOLOLayer.no modules)%Z as Hno by (unfold YOLOLayer.no; lia).
  cbv zeta. split.
  - unfold shift_biases in Hshift.
    apply bind_Ok in Hshift as (s & _ & Hshift).
    destruct s as [|rows [|cols [|? ?]]]; try done.
    case_decide; [|done]. destruct grad_enabled; [done|]. injection Hshift as <-.
    by rewrite !shift_mean_length.
  - intros Hlen. by apply (shift_biases_frame _ _ _ _ _ _ Hshift Hno Hlen).
Qed.

End BiasFrame.

Section BuilderErrors.
Import Config Net Builder.

Variable grad_enabled : bool.
Variable init_bias : nat → nat → R.

(** X9. The [try] block of a yolo record cannot stop the build. When the bias
    of the layer before the head cannot be read (the list is empty, the
    layer is no Sequential, or its first child was built without a bias,
    as a convolution with batch normalisation is), the branch prints the
    warning, leaves the module list as it was and yields the head. *)
Theorem yolo_bias_failure_is_not_fatal
    (st : state) (i : nat) (module : spec) (table anchors : list (Q * Q))
    (mask : list Z) (classes : Z) (e : exn) :
  get module "type" = Ok (VStr "yolo") →
  has module "from" = false →
  get module "anchors" = Ok (VAnchors table) →
  get module "mask" = Ok (VInts mask) →
  Py.comprehension (Py.getitem table) mask = Ok anchors →
  get module "classes" = Ok (VInt classes) →
  target_bias (module_list st) (-1) = Raise e →
  branch grad_enabled init_bias st i module =
    Ok (Single (YOLO (YOLOLayer.init (anchor_tensor anchors) classes
                        (yolo_index st + 1) [])),
        print "WARNING: smart bias initialization failure."
          {| output_filters := output_filters st; module_list := module_list st;
             routs := routs st; yolo_index := (yolo_index st + 1)%Z;
             filters := filters st; stdout := stdout st |}).
Proof.
  intros Hty Hfrom Ha Hm Hsel Hc Hb. unfold branch.
  rewrite Hty. cbn [mbind result_bind].
  change (is_str (VStr "yolo") "convolutional") with false.
  change (is_str (VStr "yolo") "maxpool") with false.
  change (is_str (VStr "yolo") "avgpool") with false.
  change (is_str (VStr "yolo") "semodule") with false.
  change (is_str (VStr "yolo") "shuffle") with false.
  change (is_str (VStr "yolo") "dense") with false.
  change (is_str (VStr "yolo") "upsample") with false.
  change (is_str (VStr "yolo") "route") with false.
  change (is_str (VStr "yolo") "shortcut") with false.
  change (is_str (VStr "yolo") "yolo") with true. cbv iota.
  rewrite Hfrom. cbn [mbind result_bind].
  rewrite Ha. cbn [mbind result_bind as_anchors].
  unfold get_ints, get_int. rewrite Hm. cbn [mbind result_bind as_ints].
  rewrite Hsel. cbn [mbind result_bind].
  rewrite Hc. cbn [mbind result_bind as_int module_list].
  assert (∃ e', smart_bias grad_enabled module [] (yolo_index st + 1)
            (YOLOLayer.init (anchor_tensor anchors) classes (yolo_index st + 1) [])
            (module_list st) = Raise e') as [e' ->]; [|done].
  unfold smart_bias. destruct (cls_bias _) as [bc|e0]; [|by eexists].
  cbn [mbind result_bind]. unfold target_index. rewrite Hfrom.
  cbn [mbind result_bind]. rewrite Hb. by eexists.
Qed.

(** X8. A record without a ["type"] key stops the build with
    [KeyError("type")], wherever it stands, once the records before it
    have been built. *)
Theorem record_without_type_raises
    (header : spec) (before after : list spec) (d : spec) (channels : Z) (st : state) :
  get header "channels" ≫= py_int = Ok channels →
  run_loop grad_enabled init_bias channels before = Ok st →
  d !! "type" = None →
  create_modules grad_enabled init_bias (header :: before ++ d :: after) = Raise (KeyError "type").
Proof.
  intros Hc Hloop Hd. unfold create_modules. rewrite Hc. cbn [mbind result_bind].
  assert (run_loop grad_enabled init_bias channels (before ++ d :: after) = Raise (KeyError "type"))
    as ->; [|done].
  unfold run_loop in *. rewrite enumerate_app, for_each_app, Hloop.
  cbn [mbind result_bind fmap list_fmap Py.enumerate imap Py.for_each].
  cbn [fst snd].
  assert (body grad_enabled init_bias st (length before + 0, d) = Raise (KeyError "type")) as ->; [|done].
  unfold body, branch, get. cbn [fst snd]. by rewrite Hd.
Qed.

End BuilderErrors.

(** ** The detection heads of a model *)

Section YoloLayersFacts.
Import Tensor Config Net Darknet.

Lemma comprehension_app {A B} (f : A → result B) (l1 l2 : list A) :
  Py.comprehension f (l1 ++ l2) =
    ys1 ← Py.comprehension f l1; ys2 ← Py.comprehension f l2; Ok (ys1 ++ ys2).
Proof.
  induction l1 as [|x l1 IH]; simpl.
  - by destruct (Py.comprehension f l2).
  - destruct (f x) as [y|e]; [|done]. cbn [mbind result_bind]. rewrite IH.
    destruct (Py.comprehension f l1) as [ys1|e]; [|done]. cbn [mbind result_bind].
    by destruct (Py.comprehension f l2).
Qed.

Lemma enumerate_snoc {A} (l : list A) (a : A) :
  Py.enumerate (l ++ [a]) = Py.enumerate l ++ [(length l, a)].
Proof. rewrite enumerate_app. cbn. by rewrite Nat.add_0_r. Qed.

(** [get_yolo_layers] on a description with one more record. *)
Lemma get_yolo_layers_snoc (defs : list spec) (d : spec) :
  get_yolo_layers (defs ++ [d]) =
    ys ← get_yolo_layers defs;
    type ← get d "type";
    Ok (ys ++ if is_str type "yolo" then [length defs] else []).
Proof.
  unfold get_yolo_layers. rewrite enumerate_snoc, comprehension_app.
  destruct (Py.comprehension _ (Py.enumerate defs)) as [tagged|e]; [|done].
  cbn [mbind result_bind Py.comprehension fst snd].
  destruct (get d "type") as [type|e]; [|done]. cbn [mbind result_bind].
  rewrite filter_app, fmap_app. do 2 f_equal.
  rewrite filter_cons, filter_nil. cbn [snd].
  destruct (is_str type "yolo"); by case_decide.
Qed.

Lemma get_yolo_layers_nil : get_yolo_layers [] = Ok [].
Proof. done. Qed.

(** X11. [get_yolo_layers] lists, in increasing order, exactly the positions
    of the records whose type is ["yolo"]. *)
Theorem get_yolo_layers_lists_the_yolo_records (defs : list spec) (ys : list nat) :
  get_yolo_layers defs = Ok ys →
  (∀ i, i ∈ ys ↔ ∃ d, defs !! i = Some d ∧ get d "type" = Ok (VStr "yolo")) ∧
  ∀ k1 k2 i1 i2, k1 < k2 → ys !! k1 = Some i1 → ys !! k2 = Some i2 → i1 < i2.
Proof.
  revert ys. induction defs as [|d defs IH] using rev_ind; intros ys.
  - intros [= <-]. split; [|done]. intros i. split.
    + by intros ?%elem_of_nil.
    + by intros (d & ? & _).
  - rewrite get_yolo_layers_snoc. intros H.
    apply bind_Ok in H as (ys0 & H0 & H).
    apply bind_Ok in H as (type & Hty & H). injection H as <-.
    destruct (IH ys0 H0) as [Hmem Hsort].
    assert (∀ i, i ∈ ys0 → i < length defs) as Hlt.
    { intros i Hi. apply Hmem in Hi as (d' & Hd' & _). by eapply lookup_lt_Some. }
    split.
    + intros i. rewrite elem_of_app, Hmem. split.
      * intros [(d' & Hd' & Hy)|Hi].
        -- exists d'. split; [|done]. by apply lookup_app_l_Some.
        -- destruct (is_str type "yolo") eqn:Hyolo; [|by apply elem_of_nil in Hi].
           apply list_elem_of_singleton in Hi as ->.
           exists d. split; [by rewrite lookup_app_r, Nat.sub_diag|].
           rewrite Hty. f_equal. destruct type; try done.
           cbn in Hyolo. apply bool_decide_eq_true in Hyolo. by subst.
      * intros (d' & Hd' & Hy).
        apply lookup_app_Some in Hd' as [Hd'|[Hge Hd']].
        -- left. by exists d'.
        -- right. apply list_lookup_singleton_Some in Hd' as [Hi ->].
           rewrite Hy in Hty. injection Hty as <-. cbn.
           rewrite bool_decide_true by done. apply list_elem_of_singleton. lia.
    + intros k1 k2 i1 i2 Hk H1 H2.
      apply lookup_app_Some in H2 as [H2|[Hge H2]].
      * rewrite lookup_app_l in H1 by (apply lookup_lt_Some in H2; lia). eauto.
      * destruct (is_str type "yolo"); [|done].
        apply list_lookup_singleton_Some in H2 as [Hk2 <-].
        rewrite lookup_app_l in H1 by lia.
        apply Hlt. by eapply list_elem_of_lookup_2.
Qed.

(** X12. [get_yolo_layers] returns exactly when every record has a type, and
    raises [KeyError("type")] otherwise. *)
Theorem get_yolo_layers_needs_types (defs : list spec) :
  (Forall (fun d => is_Some (d !! "type")) defs → ∃ ys, get_yolo_layers defs = Ok ys) ∧
  (¬ Forall (fun d : spec => is_Some (d !! "type")) defs →
   get_yolo_layers defs = Raise (KeyError "type")).
Proof.
  induction defs as [|d defs [IH1 IH2]] using rev_ind.
  - split; [by eexists|]. intros H. by destruct H.
  - rewrite get_yolo_layers_snoc. split.
    + intros H. apply Forall_app in H as [H1 H2].
      destruct (IH1 H1) as [ys ->]. cbn [mbind result_bind].
      apply Forall_singleton in H2 as [ty Hty]. unfold get. rewrite Hty.
      by eexists.
    + intros H. destruct (decide (Forall (fun d : spec => is_Some (d !! "type")) defs))
        as [Hall|Hnot].
      * destruct (IH1 Hall) as [ys ->]. cbn [mbind result_bind].
        unfold get. destruct (d !! "type") as [ty|] eqn:Hty; [|done].
        exfalso. apply H. apply Forall_app. split; [done|].
        apply Forall_singleton. by eexists.
      * by rewrite (IH2 Hnot).
Qed.

End YoloLayersFacts.

Section HeadsOfTheModel.
Import Tensor Config Net Builder.

Variable grad_enabled : bool.
Variable init_bias : nat → nat → R.

(** The one write of the bias initialisation: a Sequential of the module
    list gets its first child's bias replaced. *)
Lemma smart_bias_target (module : spec) (layers : list Z) (yolo_index : Z)
    (modules : YOLOLayer.t) (ml ml' : list Net.module) :
  smart_bias grad_enabled module layers yolo_index modules ml = Ok ml' →
  ∃ p name l children b',
    ml !! p = Some (Sequential ((name, l) :: children)) ∧
    ml' = <[p := Sequential ((name, set_bias b' l) :: children)]> ml.
Proof.
  unfold smart_bias. intros H.
  apply bind_Ok in H as (bc & _ & H).
  apply bind_Ok in H as (j & _ & H).
  apply bind_Ok in H as (b & Hb & H).
  apply bind_Ok in H as (b' & _ & H).
  unfold target_bias in Hb.
  apply bind_Ok in Hb as (target & Ht & Hb).
  apply bind_Ok in Hb as (l & Hl & _).
  unfold set_target_bias in H. rewrite Ht in H. cbn [mbind result_bind] in H.
  unfold Py.getitem in Ht. apply bind_Ok in Ht as (p & Hp & Ht).
  destruct (ml !! p) as [t0|] eqn:Hlk; [|done]. injection Ht as ->.
  unfold Py.setitem in H. rewrite Hp in H. cbn [mbind result_bind] in H.
  injection H as <-.
  destruct target as [[|[name l0] children]|]; try done.
  cbn in Hl. injection Hl as ->. by exists p, name, l, children, b'.
Qed.

(** What a branch does to the heads: a yolo record yields a head whose
    index is the next one, other records yield no head, and the heads
    already in the module list stay as they are. *)
Lemma branch_heads (st st' : state) (i : nat) (module : spec) (m : Net.module)
    (type : value) :
  branch grad_enabled init_bias st i module = Ok (m, st') →
  get module "type" = Ok type →
  (∀ k y, module_list st !! k = Some (Single (YOLO y)) →
          module_list st' !! k = Some (Single (YOLO y))) ∧
  if is_str type "yolo"
  then ∃ y, m = Single (YOLO y) ∧ YOLOLayer.index y = (yolo_index st + 1)%Z ∧
            yolo_index st' = (yolo_index st + 1)%Z
  else yolo_index st' = yolo_index st.
Proof.
  unfold branch. intros H Hty. rewrite Hty in H. cbn [mbind result_bind] in H.
  destruct (is_str type "convolutional") eqn:Hconv.
  { apply is_str_true in Hconv as ->. cbn.
    repeat (apply bind_Ok in H as (? & _ & H)).
    destruct (activation _); injection H as <- <-; cbn; done. }
  destruct (is_str type "maxpool") eqn:Hmax.
  { apply is_str_true in Hmax as ->. cbn.
    repeat (apply bind_Ok in H as (? & _ & H)).
    case_decide; by injection H as <- <-. }
  destruct (is_str type "avgpool") eqn:Havg.
  { apply is_str_true in Havg as ->. cbn.
    repeat (apply bind_Ok in H as (? & _ & H)). by injection H as <- <-. }
  destruct (is_str type "semodule") eqn:Hse.
  { apply is_str_true in Hse as ->. cbn.
    repeat (apply bind_Ok in H as (? & _ & H)). by injection H as <- <-. }
  destruct (is_str type "shuffle") eqn:Hsh.
  { apply is_str_true in Hsh as ->. cbn.
    repeat (apply bind_Ok in H as (? & _ & H)). by injection H as <- <-. }
  destruct (is_str type "dense") eqn:Hde.
  { apply is_str_true in Hde as ->. cbn.
    repeat (apply bind_Ok in H as (? & _ & H)). by injection H as <- <-. }
  destruct (is_str type "upsample") eqn:Hup.
  { apply is_str_true in Hup as ->. cbn.
    repeat (apply bind_Ok in H as (? & _ & H)). by injection H as <- <-. }
  destruct (is_str type "route") eqn:Hro.
  { apply is_str_true in Hro as ->. cbn.
    repeat (apply bind_Ok in H as (? & _ & H)). by injection H as <- <-. }
  destruct (is_str type "shortcut") eqn:Hsc.
  { apply is_str_true in Hsc as ->. cbn.
    repeat (apply bind_Ok in H as (? & _ & H)). by injection H as <- <-. }
  destruct (is_str type "yolo") eqn:Hyo.
  { repeat (apply bind_Ok in H as (? & _ & H)).
    destruct (smart_bias _ _ _ _ _ _) as [ml|e] eqn:Hb; injection H as <- <-;
      cbn [module_list yolo_index print]; (split; [|by eexists]); [|done].
    apply smart_bias_target in Hb as (p & name & l & children & b' & Hp & ->).
    cbn [module_list] in Hp. intros k y Hk.
    destruct (decide (k = p)) as [->|Hne]; [congruence|].
    by rewrite list_lookup_insert_ne. }
  by injection H as <- <-.
Qed.

Lemma run_loop_snoc (channels : Z) (defs : list spec) (d : spec) :
  run_loop grad_enabled init_bias channels (defs ++ [d]) =
    st ← run_loop grad_enabled init_bias channels defs; body grad_enabled init_bias st (length defs, d).
Proof.
  unfold run_loop. rewrite enumerate_snoc, for_each_app.
  destruct (Py.for_each _ _ (Py.enumerate defs)) as [st|e]; [|done].
  cbn [mbind result_bind Py.for_each]. by destruct (body _ _ _).
Qed.

(** After the loop, the [k]-th position [get_yolo_layers] lists holds the
    head with index [k]. *)
Lemma run_loop_heads (channels : Z) (defs : list spec) (st : state) :
  run_loop grad_enabled init_bias channels defs = Ok st →
  ∃ ys, Darknet.get_yolo_layers defs = Ok ys ∧
        yolo_index st = (Z.of_nat (length ys) - 1)%Z ∧
        ∀ k i, ys !! k = Some i →
          ∃ d y, defs !! i = Some d ∧ get d "type" = Ok (VStr "yolo") ∧
                 module_list st !! i = Some (Single (YOLO y)) ∧
                 YOLOLayer.index y = Z.of_nat k.
Proof.
  revert st. induction defs as [|d defs IH] using rev_ind; intros st.
  - intros [= <-]. exists []. by split.
  - rewrite run_loop_snoc. intros H. apply bind_Ok in H as (st0 & H0 & H).
    destruct (IH st0 H0) as (ys & Hys & Hidx & Hheads).
    apply run_loop_lengths in H0 as [Hlen _].
    unfold body in H. apply bind_Ok in H as ([m st1] & Hb & H).
    cbn [fst snd] in Hb.
    assert (∃ type, get d "type" = Ok type) as [type Hty].
    { unfold branch in Hb. apply bind_Ok in Hb as (ty & Hty & _). by exists ty. }
    pose proof (branch_frame _ _ _ _ _ _ _ Hb) as [_ Hlen1].
    apply (branch_heads _ _ _ _ _ type) in Hb as [Hkeep Hnew]; [|done].
    destruct (filters st1); [|done]. injection H as <-.
    cbn [module_list yolo_index].
    rewrite get_yolo_layers_snoc, Hys, Hty. cbn [mbind result_bind].
    eexists. split; [done|].
    destruct (is_str type "yolo") eqn:Hyolo.
    + apply is_str_true in Hyolo as ->.
      destruct Hnew as (y & -> & Hy & Hidx1). split.
      * rewrite Hidx1, Hidx, length_app. cbn. lia.
      * intros k i Hk. apply lookup_app_Some in Hk as [Hk|[Hge Hk]].
        -- destruct (Hheads k i Hk) as (d0 & y0 & Hd0 & Hty0 & Hy0 & Hi0).
           exists d0, y0. split; [by apply lookup_app_l_Some|]. split; [done|].
           split; [|done]. apply lookup_app_l_Some. by apply Hkeep.
        -- apply list_lookup_singleton_Some in Hk as [Hk0 <-].
           exists d, y. split; [by rewrite lookup_app_r, Nat.sub_diag|].
           split; [done|]. split.
           ++ rewrite lookup_app_r by lia. by rewrite Hlen1, Hlen, Nat.sub_diag.
           ++ rewrite Hy, Hidx. lia.
    + rewrite app_nil_r. split; [congruence|].
      intros k i Hk. destruct (Hheads k i Hk) as (d0 & y0 & Hd0 & Hty0 & Hy0 & Hi0).
      exists d0, y0. split; [by apply lookup_app_l_Some|]. split; [done|].
      split; [|done]. apply lookup_app_l_Some. by apply Hkeep.
Qed.

(** X13. In a model that [Darknet.__init__] has built, the [k]-th entry of
    [yolo_layers] is the position of a record of type ["yolo"] whose
    module is a detection head, the one with index [k]. *)
Theorem yolo_layers_name_the_heads (parsed : list spec) (m : Darknet.t) :
  Darknet.init grad_enabled init_bias parsed = Ok m →
  ∀ k i, Darknet.yolo_layers m !! k = Some i →
    ∃ d y,
      Darknet.module_defines m !! i = Some d ∧
      get d "type" = Ok (VStr "yolo") ∧
      Darknet.module_list m !! i = Some (Single (YOLO y)) ∧
      YOLOLayer.index y = Z.of_nat k.
Proof.
  unfold Darknet.init. intros H.
  apply bind_Ok in H as ([[[defs ml] rb] printed] & Hc & H).
  apply bind_Ok in H as (yl & Hyl & H). injection H as <-.
  cbn [Darknet.module_defines Darknet.module_list Darknet.yolo_layers].
  unfold create_modules in Hc. destruct parsed as [|hyper_params rest]; [done|].
  apply bind_Ok in Hc as (channels & _ & Hc).
  apply bind_Ok in Hc as (st & Hloop & Hc).
  apply bind_Ok in Hc as (i0 & _ & Hc).
  apply bind_Ok in Hc as (routs_binary & _ & Hc).
  injection Hc as <- <- <- <-.
  destruct (run_loop_heads _ _ _ Hloop) as (ys & Hys & _ & Hheads).
  rewrite Hys in Hyl. injection Hyl as <-.
  intros k i Hk. by apply Hheads.
Qed.

End HeadsOfTheModel.

Section Wiring.
Import Config Net Builder Routing.

Variable grad_enabled : bool.
Variable init_bias : nat → nat → R.

Lemma set_first_bias_channels (b : list R) (a : Net.module) :
  conv_channels (set_first_bias b a) = conv_channels a.
Proof. destruct a as [[|[name []] children]|]; done. Qed.

Lemma branch_conv (st st' : state) (i : nat) (module : spec) (m : Net.module) :
  branch grad_enabled init_bias st i module = Ok (m, st') →
  (∀ k a, module_list st !! k = Some a →
     ∃ a', module_list st' !! k = Some a' ∧ conv_channels a' = conv_channels a) ∧
  (get module "type" = Ok (VStr "convolutional") → has module "in_features" = false →
   ∃ cout, get_int module "filters" = Ok cout ∧ filters st' = Some cout ∧
           ∃ cin, Py.getitem (output_filters st) (-1) = Ok cin ∧
                  conv_channels m = Some (cin, cout)).
Proof.
  intros H. split.
  - assert (module_list st' = module_list st ∨
            ∃ p name l children b',
              module_list st !! p = Some (Sequential ((name, l) :: children)) ∧
              module_list st' =
                <[p := Sequential ((name, set_bias b' l) :: children)]> (module_list st))
      as [->|(p & name & l & children & b' & Hp & ->)].
    { unfold branch in H. apply bind_Ok in H as (type & _ & H).
      repeat match type of H with
             | (if ?b then _ else _) = Ok _ => destruct b eqn:?
             end;
        repeat (apply bind_Ok in H as (? & _ & H));
        repeat match type of H with
               | (if ?b then _ else _) = Ok _ => destruct b eqn:?
               end;
        try (injection H as <- <-; by left).
      destruct (smart_bias _ _ _ _ _ _) as [ml|e] eqn:Hb; injection H as <- <-;
        cbn [module_list print]; [|by left].
      right. cbn [module_list] in Hb. by apply smart_bias_target in Hb. }
    + intros k a Hk. by exists a.
    + intros k a Hk. destruct (decide (k = p)) as [->|Hne].
      * rewrite Hp in Hk. injection Hk as <-. eexists. split.
        -- apply list_lookup_insert_eq. by eapply lookup_lt_Some.
        -- by destruct l.
      * exists a. by rewrite list_lookup_insert_ne.
  - intros Hty Hin. unfold branch in H. rewrite Hty in H.
    cbn [mbind result_bind] in H.
    change (is_str (VStr "convolutional") "convolutional") with true in H. cbv iota in H.
    rewrite Hin in H.
    apply bind_Ok in H as (bn & _ & H).
    apply bind_Ok in H as (cin & Hcin & H).
    apply bind_Ok in H as (cout & Hcout & H).
    repeat (apply bind_Ok in H as (? & _ & H)).
    exists cout. split; [done|].
    destruct (activation _); injection H as <- <-; cbn [filters];
      (split; [done|]); exists cin; (split; [done|]);
      unfold add_module; case_decide; done.
Qed.

(** X29. The builder wires the channel counts. When the loop of
    [create_modules] has run, [output_filters] holds the input's channel
    count followed by one count per record, and every convolutional
    record that does not give its ["in_features"] has become a Sequential
    whose first child is the convolution from the count declared by the
    layer before it (the input's for layer 0) to its own ["filters"],
    which is the count it declares. *)
Theorem convolutions_chain_channels (channels : Z) (defs : list spec) (st : state) :
  run_loop grad_enabled init_bias channels defs = Ok st →
  length (output_filters st) = S (length defs) ∧
  output_filters st !! 0 = Some channels ∧
  ∀ i d, defs !! i = Some d →
    get d "type" = Ok (VStr "convolutional") → has d "in_features" = false →
    ∃ a cin cout,
      module_list st !! i = Some a ∧ conv_channels a = Some (cin, cout) ∧
      output_filters st !! i = Some cin ∧
      output_filters st !! S i = Some cout ∧
      get_int d "filters" = Ok cout.
Proof.
  revert st. induction defs as [|d defs IH] using rev_ind; intros st.
  - intros [= <-]. cbn. split; [done|]. split; [done|]. intros i d Hd. done.
  - rewrite run_loop_snoc. intros H. apply bind_Ok in H as (st0 & H0 & H).
    destruct (IH st0 H0) as (Hlen & Hfirst & Hall).
    pose proof (run_loop_lengths _ _ _ _ _ H0) as [Hml _].
    unfold body in H. apply bind_Ok in H as ([m st1] & Hb & H). cbn [fst snd] in Hb.
    pose proof (branch_frame _ _ _ _ _ _ _ Hb) as [Hof Hml1].
    apply branch_conv in Hb as [Hkeep Hnew].
    destruct (filters st1) as [f|] eqn:Hf; [|done]. injection H as <-.
    cbn [output_filters module_list]. rewrite Hof.
    split; [rewrite !length_app; cbn; lia|].
    split; [apply lookup_app_l_Some; done|].
    intros i d' Hd' Hty Hin.
    apply lookup_app_Some in Hd' as [Hd'|[Hge Hd']].
    + destruct (Hall i d' Hd' Hty Hin) as (a & cin & cout & Ha & Hc & Hi & HSi & Hfil).
      destruct (Hkeep i a Ha) as (a' & Ha' & Hc').
      exists a', cin, cout. split; [by apply lookup_app_l_Some|].
      split; [congruence|]. split; [by apply lookup_app_l_Some|].
      split; [by apply lookup_app_l_Some|done].
    + apply list_lookup_singleton_Some in Hd' as [Hi <-].
      assert (i = length defs) as -> by lia.
      destruct (Hnew Hty Hin) as (cout & Hfil & Hf' & cin & Hcin & Hc).
      injection Hf' as ->.
      exists m, cin, cout. split.
      { rewrite lookup_app_r by lia. by rewrite Hml1, Hml, Nat.sub_diag. }
      split; [done|]. split.
      { apply lookup_app_l_Some.
        unfold Py.getitem, Py.norm_index in Hcin.
        rewrite decide_False in Hcin by lia. rewrite decide_True in Hcin by lia.
        cbn [mbind result_bind] in Hcin.
        replace (Z.to_nat (Z.of_nat (length (output_filters st0)) + -1))
          with (length defs) in Hcin by lia.
        by destruct (output_filters st0 !! length defs); simplify_eq. }
      split; [|done].
      rewrite lookup_app_r by lia. by rewrite Hlen, Nat.sub_diag.
Qed.

End Wiring.

(** ** The graph builder with grad mode on *)

Section GradMode.
Import Config Net Builder Routing.

Variable init_bias : nat → nat → R.

Lemma unrecognized_is_no_bias_warning (text : string) :
  ("Warning: Unrecognized Layer Type: " ++ text)%string ≠ bias_warning.
Proof. done. Qed.

(** What a branch leaves with grad mode on: the module list as it was,
    the failure warning if and only if the record is of type yolo, and
    for a convolution its module with the bias the constructor drew. *)
Lemma branch_grad_on (st st' : state) (i : nat) (module : spec) (m : Net.module) :
  branch true init_bias st i module = Ok (m, st') →
  module_list st' = module_list st ∧
  length (filter (fun line => line = bias_warning) (stdout st'))
    = length (filter (fun line => line = bias_warning) (stdout st))
      + (if is_yolo module then 1 else 0) ∧
  (get module "type" = Ok (VStr "convolutional") →
   ∀ bn filters,
     get_int module "batch_normalize" = Ok bn →
     get_int module "filters" = Ok filters →
     ∃ l, first_child m = Ok l ∧
          bias_of l = Ok (if decide (bn ≠ 0%Z) then None
                          else Some (fresh_bias init_bias i filters))).
Proof.
  unfold branch. intros H.
  apply bind_Ok in H as (type & Hty & H).
  assert (is_yolo module = is_str type "yolo") as -> by (unfold is_yolo; by rewrite Hty).
  destruct (is_str type "convolutional") eqn:E1.
  { apply is_str_true in E1 as ->.
    change (is_str (VStr "convolutional") "yolo") with false.
    apply bind_Ok in H as (bn & Hbn & H).
    apply bind_Ok in H as (cin & _ & H).
    apply bind_Ok in H as (cout & Hcout & H).
    repeat (apply bind_Ok in H as (? & _ & H)).
    assert (∃ l, first_child m = Ok l ∧
                 bias_of l = Ok (if decide (bn ≠ 0%Z) then None
                                 else Some (fresh_bias init_bias i cout))) as Hm.
    { destruct (activation _); injection H as <- _;
        unfold add_module; case_decide; cbn; by eexists. }
    destruct (activation _); injection H as _ <-; cbn [module_list stdout];
      (split; [done|]); (split; [lia|]);
      intros _ bn' filters' Hbn' Hf'; rewrite Hbn in Hbn'; rewrite Hcout in Hf';
      injection Hbn' as <-; injection Hf' as <-; exact Hm. }
  assert (get module "type" = Ok (VStr "convolutional") →
          ∀ bn filters,
            get_int module "batch_normalize" = Ok bn →
            get_int module "filters" = Ok filters →
            ∃ l, first_child m = Ok l ∧
                 bias_of l = Ok (if decide (bn ≠ 0%Z) then None
                                 else Some (fresh_bias init_bias i filters))) as Hconv.
  { intros Hc. rewrite Hty in Hc. injection Hc as ->. done. }
  repeat match type of H with
         | (if is_str type ?s then _ else _) = Ok _ =>
             let E := fresh "E" in
             destruct (is_str type s) eqn:E;
               [apply is_str_true in E; subst type;
                repeat (apply bind_Ok in H as (? & _ & H));
                repeat match type of H with
                       | (if ?b then _ else _) = Ok _ => destruct b
                       end|]
         end.
  all: try match goal with
           | |- context [is_str (VStr ?s) "yolo"] =>
               let b := eval vm_compute in (is_str (VStr s) "yolo") in
               change (is_str (VStr s) "yolo") with b
           end.
  all: try (injection H as <- <-; cbn [module_list stdout];
            split; [done|]; split; [lia|exact Hconv]).
  - destruct (smart_bias _ _ _ _ _ _) as [ml|e] eqn:Hb.
    { by apply smart_bias_needs_grad_off in Hb. }
    injection H as <- <-. cbn [module_list stdout print].
    split; [done|]. split; [|exact Hconv].
    rewrite filter_app, length_app. done.
  - injection H as <- <-. cbn [module_list stdout print].
    split; [done|]. split; [|exact Hconv].
    rewrite filter_app, length_app.
    rewrite filter_cons_False by apply unrecognized_is_no_bias_warning.
    done.
Qed.

(** X30. Built with grad mode on, as [train] builds its model, no bias
    initialisation takes effect. When the loop of [create_modules] has
    run, it has printed the failure warning once for every record of type
    yolo, and every convolution, whatever records follow it, still
    holds the bias its constructor drew: none under batch normalisation,
    the fresh vector otherwise. *)
Theorem grad_mode_on_leaves_biases_fresh (channels : Z) (defs : list spec) (st : state) :
  run_loop true init_bias channels defs = Ok st →
  length (filter (fun line => line = bias_warning) (stdout st))
    = length (filter (fun d => is_yolo d = true) defs) ∧
  ∀ i d bn filters,
    defs !! i = Some d →
    get d "type" = Ok (VStr "convolutional") →
    get_int d "batch_normalize" = Ok bn →
    get_int d "filters" = Ok filters →
    ∃ a l, module_list st !! i = Some a ∧ first_child a = Ok l ∧
           bias_of l = Ok (if decide (bn ≠ 0%Z) then None
                           else Some (fresh_bias init_bias i filters)).
Proof.
  revert st. induction defs as [|d defs IH] using rev_ind; intros st.
  - intros [= <-]. split; [done|]. intros i d bn f Hd. done.
  - rewrite run_loop_snoc. intros H. apply bind_Ok in H as (st0 & H0 & H).
    destruct (IH st0 H0) as [Hcount Hall].
    pose proof (run_loop_lengths _ _ _ _ _ H0) as [Hml _].
    unfold body in H. apply bind_Ok in H as ([m st1] & Hb & H). cbn [fst snd] in Hb.
    apply branch_grad_on in Hb as (Hkeep & Hprinted & Hnew).
    destruct (filters st1) as [f|]; [|done]. injection H as <-.
    cbn [module_list stdout]. split.
    + rewrite Hprinted, Hcount, filter_app, length_app. f_equal.
      destruct (is_yolo d) eqn:Hy.
      * by rewrite filter_cons_True.
      * rewrite filter_cons_False; [done|]. by rewrite Hy.
    + intros i d' bn filters Hd' Hty Hbn Hf.
      apply lookup_app_Some in Hd' as [Hd'|[Hge Hd']].
      * destruct (Hall i d' bn filters Hd' Hty Hbn Hf) as (a & l & Ha & Hl & Hbias).
        exists a, l. split; [|done]. rewrite Hkeep. by apply lookup_app_l_Some.
      * apply list_lookup_singleton_Some in Hd' as [Hi <-].
        assert (i = length defs) as -> by lia.
        destruct (Hnew Hty bn filters Hbn Hf) as (l & Hl & Hbias).
        exists m, l. split; [|done].
        rewrite lookup_app_r by (rewrite Hkeep; lia).
        by rewrite Hkeep, Hml, Nat.sub_diag.
Qed.

End GradMode.

(** ** The model graph: what [forward] reads, calls and leaves *)

Section ForwardFacts.
Import Tensor Config Net Darknet Routing.

Variable cell_stride : list nat → nat * nat → R.
Variable run : Net.module → tensor R → result (tensor R).
Variable fuse : list Z → bool → tensor R → list entry → result (tensor R).
Variable cat : list (tensor R) → result (tensor R).
Variable interpolate : tensor R → result (tensor R).

Local Abbreviation step := (Darknet.step cell_stride run fuse cat interpolate).
Local Abbreviation dispatch := (Darknet.dispatch cell_stride run fuse cat interpolate).
Local Abbreviation run_layers := (Darknet.run_layers cell_stride run fuse cat interpolate).
Local Abbreviation forward := (Darknet.forward cell_stride run fuse cat interpolate).

Lemma comprehension_length {A B} (f : A → result B) (l : list A) (l' : list B) :
  Py.comprehension f l = Ok l' → length l' = length l.
Proof.
  revert l'. induction l as [|a l IH]; intros l'; simpl.
  - by intros [= <-].
  - intros H. apply bind_Ok in H as (b & _ & H).
    apply bind_Ok in H as (bs & Hbs & H). injection H as <-.
    cbn. f_equal. by apply IH.
Qed.

Lemma items_lookup (self : Darknet.t) (k : nat) (item : nat * (spec * Net.module)) :
  items self !! k = Some item →
  item.1 = k ∧ module_defines self !! k = Some item.2.1 ∧
  module_list self !! k = Some item.2.2.
Proof.
  unfold items, Py.enumerate. rewrite list_lookup_imap. intros H.
  destruct (zip _ _ !! k) as [[d md]|] eqn:Hz; [|done]. injection H as <-.
  apply lookup_zip_with_Some in Hz as (d' & md' & [= <- <-] & Hd & Hmd). done.
Qed.

Lemma items_length (self : Darknet.t) :
  length (module_list self) = length (module_defines self) →
  length (items self) = length (module_defines self).
Proof. intros H. unfold items. rewrite enumerate_length, length_zip. lia. Qed.

(** The route branch leaves the collected head outputs and the modules
    alone. *)
Lemma route_frame (layers : list Z) (fr fr' : frame) :
  Darknet.route cat interpolate layers fr = Ok fr' →
  yolo_out fr' = yolo_out fr ∧ modules fr' = modules fr.
Proof.
  unfold Darknet.route. case_decide as Hone.
  - intros H. do 2 (apply bind_Ok in H as (? & _ & H)). by injection H as <-.
  - destruct (cat_history _ _ _) as [x0|e].
    + by intros [= <-].
    + intros H. do 6 (apply bind_Ok in H as (? & _ & H)). by injection H as <-.
Qed.

(** A layer appends one output to [yolo_out] if its record is of type
    yolo and none otherwise. *)
Lemma dispatch_yolo_out (i : nat) (d : spec) (md : Net.module) (image_size : list nat)
    (fr fr' : frame) :
  dispatch i d md image_size fr = Ok fr' →
  ∃ type, get d "type" = Ok type ∧
    if is_str type "yolo"
    then ∃ o, yolo_out fr' = yolo_out fr ++ [o]
    else yolo_out fr' = yolo_out fr.
Proof.
  unfold Darknet.dispatch. intros H.
  apply bind_Ok in H as (ty & Hty & H). exists ty. split; [done|].
  destruct (is_str ty "convolutional") eqn:Hconv.
  { apply is_str_true in Hconv as ->. cbn in *.
    do 2 (apply bind_Ok in H as (? & _ & H)). by injection H as <-. }
  destruct (is_str ty "upsample") eqn:Hup.
  { apply is_str_true in Hup as ->. cbn in *.
    do 2 (apply bind_Ok in H as (? & _ & H)). by injection H as <-. }
  destruct (is_str ty "maxpool") eqn:Hmax.
  { apply is_str_true in Hmax as ->. cbn in *.
    do 2 (apply bind_Ok in H as (? & _ & H)). by injection H as <-. }
  cbn [orb] in H.
  destruct (is_str ty "shortcut") eqn:Hsc.
  { apply is_str_true in Hsc as ->. cbn.
    unfold call_fusion in H. destruct md as [|[]]; try done.
    do 2 (apply bind_Ok in H as (? & _ & H)). by injection H as <-. }
  destruct (is_str ty "route") eqn:Hro.
  { apply is_str_true in Hro as ->. cbn.
    apply bind_Ok in H as (layers & _ & H). by apply route_frame in H as [? _]. }
  destruct (is_str ty "yolo").
  { unfold call_yolo in H. destruct md as [|[]]; try done.
    do 2 (apply bind_Ok in H as (? & _ & H)). injection H as <-. by eexists. }
  by injection H as <-.
Qed.

Lemma step_yolo_out (routs : list bool) (image_size : list nat) (fr fr' : frame)
    (item : nat * (spec * Net.module)) :
  step routs image_size fr item = Ok fr' →
  ∃ type, get item.2.1 "type" = Ok type ∧
    if is_str type "yolo"
    then ∃ o, yolo_out fr' = yolo_out fr ++ [o]
    else yolo_out fr' = yolo_out fr.
Proof.
  unfold Darknet.step. intros H.
  apply bind_Ok in H as (fr1 & Hd & H).
  apply bind_Ok in H as (routed & _ & H). injection H as <-. cbn [yolo_out].
  by apply dispatch_yolo_out in Hd.
Qed.

(** After [k] layers [yolo_out] holds one output per yolo record among
    the first [k]. *)
Lemma run_layers_yolo_out (self : Darknet.t) (input : tensor R) (k : nat) (fr : frame) :
  k ≤ length (items self) →
  run_layers self input k = Ok fr →
  ∃ ys, get_yolo_layers (take k (module_defines self)) = Ok ys ∧
        length (yolo_out fr) = length ys.
Proof.
  revert fr. induction k as [|k IH]; intros fr Hk.
  - unfold Darknet.run_layers. rewrite !take_0. intros [= <-]. by exists [].
  - destruct (lookup_lt_is_Some_2 (items self) k) as [item Hitem]; [lia|].
    rewrite (run_layers_S _ _ _ _ _ _ _ _ _ Hitem). intros H.
    apply bind_Ok in H as (fr0 & H0 & H).
    destruct (IH fr0) as (ys & Hys & Hlen); [lia|done|].
    apply items_lookup in Hitem as (_ & Hd & _).
    apply step_yolo_out in H as (type & Hty & Hout).
    rewrite (take_S_r _ _ _ Hd), get_yolo_layers_snoc, Hys, Hty.
    cbn [mbind result_bind]. eexists. split; [done|].
    destruct (is_str type "yolo").
    + destruct Hout as [o ->]. rewrite !length_app. cbn. lia.
    + by rewrite app_nil_r, Hout.
Qed.

(** X14. A call of [forward] that returns has collected one head output per
    record of type yolo, the records [get_yolo_layers] lists: that many
    raw predictions come back in training mode, and that many in
    evaluation mode next to the decoded detections. *)
Theorem forward_returns_one_output_per_head
    (self self' : Darknet.t) (input : tensor R) (r : prediction) :
  length (module_list self) = length (module_defines self) →
  forward self input = Ok (r, self') →
  ∃ ys, get_yolo_layers (module_defines self) = Ok ys ∧
        match r with
        | Train yolo_out => length yolo_out = length ys
        | Infer _ p => length p = length ys
        end.
Proof.
  intros Hlen. unfold Darknet.forward. intros H.
  apply bind_Ok in H as (fr & Hrun & H).
  apply bind_Ok in H as (r0 & Hfin & H). injection H as <- <-.
  apply run_layers_yolo_out in Hrun as (ys & Hys & Hout); [|done].
  rewrite (items_length _ Hlen), firstn_all in Hys.
  exists ys. split; [done|].
  unfold finish in Hfin. destruct (training self).
  - by injection Hfin as <-.
  - apply bind_Ok in Hfin as (pairs & Hpairs & Hfin).
    apply comprehension_length in Hpairs.
    destruct pairs as [|pr pairs]; [done|].
    apply bind_Ok in Hfin as (io & _ & Hfin). injection Hfin as <-.
    rewrite <- Hout, <- Hpairs. cbn [length]. f_equal. apply length_fmap.
Qed.

(** X15. A model without a record of type yolo: once its layers have run, a
    call in training mode returns the empty list and a call in evaluation
    mode raises, the unpacking of [zip] over no outputs having nothing to
    bind [io] and [p] to. *)
Theorem forward_without_heads
    (self : Darknet.t) (input : tensor R) (fr : frame) :
  length (module_list self) = length (module_defines self) →
  get_yolo_layers (module_defines self) = Ok [] →
  run_layers self input (length (items self)) = Ok fr →
  if training self
  then ∃ self', forward self input = Ok (Train [], self')
  else forward self input = Raise ValueError.
Proof.
  intros Hlen Hys Hrun. unfold Darknet.forward. rewrite Hrun.
  cbn [mbind result_bind].
  apply run_layers_yolo_out in Hrun as (ys & Hys' & Hout); [|done].
  rewrite (items_length _ Hlen), firstn_all, Hys in Hys'. injection Hys' as <-.
  destruct (yolo_out fr); [|done].
  unfold finish. destruct (training self); [by eexists|done].
Qed.

End ForwardFacts.

Section ForwardCalls.
Import Tensor Config Net Darknet.

Variable cell_stride : list nat → nat * nat → R.
Variable fuse : list Z → bool → tensor R → list entry → result (tensor R).
Variable cat : list (tensor R) → result (tensor R).
Variable interpolate : tensor R → result (tensor R).

Lemma for_each_ext {S A} (body1 body2 : S → A → result S) (s : S) (l : list A) :
  (∀ s x, x ∈ l → body1 s x = body2 s x) →
  Py.for_each body1 s l = Py.for_each body2 s l.
Proof.
  revert s. induction l as [|x l IH]; intros s Hext; [done|].
  simpl. rewrite (Hext s x) by (by left).
  destruct (body2 s x) as [s'|e]; [|done]. cbn [mbind result_bind].
  apply IH. intros s0 x0 Hx0. apply Hext. by right.
Qed.

(** X17. [forward] calls a module as [module(x)] for the records of type
    convolutional, upsample and maxpool only. What the modules built for
    avgpool, semodule, shuffle, dense and unrecognized records compute
    has no bearing on the result: two models of computation that agree on
    the modules of the three types give the same result. *)
Theorem forward_applies_three_kinds_only
    (run1 run2 : Net.module → tensor R → result (tensor R))
    (self : Darknet.t) (input : tensor R) :
  (∀ k d md type x,
     items self !! k = Some (k, (d, md)) →
     get d "type" = Ok type →
     is_str type "convolutional" || is_str type "upsample" || is_str type "maxpool" = true →
     run1 md x = run2 md x) →
  Darknet.forward cell_stride run1 fuse cat interpolate self input =
  Darknet.forward cell_stride run2 fuse cat interpolate self input.
Proof.
  intros Hagree. unfold Darknet.forward, Darknet.run_layers.
  rewrite (for_each_ext _ (Darknet.step cell_stride run2 fuse cat interpolate
                             (routs self) (image_size_of input))); [done|].
  intros fr [k [d md]] Hx.
  apply elem_of_take in Hx as (k' & Hx & _).
  pose proof (items_lookup _ _ _ Hx) as (Hk & _). cbn in Hk. subst k'.
  unfold Darknet.step, Darknet.dispatch. cbn [fst snd].
  destruct (get d "type") as [type|e] eqn:Hty; [|done]. cbn [mbind result_bind].
  destruct (_ || _) eqn:Hkind; [|done].
  destruct (as_tensor (x fr)) as [t|e]; [|done]. cbn [mbind result_bind].
  by rewrite (Hagree k d md type t Hx Hty Hkind).
Qed.

End ForwardCalls.

Section ForwardReads.
Import Tensor Config Net Darknet Routing.

Variable grad_enabled : bool.
Variable init_bias : nat → nat → R.
Variable cell_stride : list nat → nat * nat → R.
Variable run : Net.module → tensor R → result (tensor R).
Variable fuse : list Z → bool → tensor R → list entry → result (tensor R).
Variable cat : list (tensor R) → result (tensor R).
Variable interpolate : tensor R → result (tensor R).

Local Abbreviation step := (Darknet.step cell_stride run fuse cat interpolate).
Local Abbreviation dispatch := (Darknet.dispatch cell_stride run fuse cat interpolate).
Local Abbreviation run_layers := (Darknet.run_layers cell_stride run fuse cat interpolate).

Lemma getitem_inv {A} (l : list A) (k : Z) (a : A) :
  Py.getitem l k = Ok a →
  ∃ p, Py.norm_index (length l) k = Ok p ∧ l !! p = Some a.
Proof.
  unfold Py.getitem. intros H. apply bind_Ok in H as (p & Hp & H).
  exists p. split; [done|]. by destruct (l !! p); simplify_eq.
Qed.

Lemma norm_index_inv (n : nat) (k : Z) (p : nat) :
  Py.norm_index n k = Ok p →
  p < n ∧ ((0 <= k)%Z ∧ p = Z.to_nat k ∨
           (- Z.of_nat n <= k < 0)%Z ∧ p = Z.to_nat (Z.of_nat n + k)).
Proof.
  unfold Py.norm_index.
  destruct (decide (0 <= k < Z.of_nat n)%Z) as [H1|H1].
  - intros [= <-]. split; [lia|]. left. split; [lia|done].
  - destruct (decide (- Z.of_nat n <= k < 0)%Z) as [H2|H2]; [|done].
    intros [= <-]. split; [lia|]. right. split; [lia|done].
Qed.

(** The entry a route of one layer reads is one the mask has set. *)
Lemma route_reads_marked (routs : list bool) (n i : nat) (l0 : Z) (p : nat) :
  i < n →
  (∃ k, Py.norm_index n (if decide (l0 < 0)%Z then (Z.of_nat i + l0)%Z else l0) = Ok k ∧
        routs !! k = Some true) →
  Py.norm_index i l0 = Ok p →
  routs !! p = Some true.
Proof.
  intros Hi (k & Hk & Hr) Hp.
  apply norm_index_inv in Hp as [Hlt Hp]. apply norm_index_inv in Hk as [_ Hk].
  case_decide as Hneg.
  - destruct Hp as [[? ?]|[? ->]]; [lia|].
    destruct Hk as [[_ ->]|[? _]]; [done|lia].
  - destruct Hp as [[_ ->]|[? ?]]; [|lia].
    destruct Hk as [[_ ->]|[? _]]; [done|lia].
Qed.

Lemma dispatch_reads_tensors (defs : list spec) (routs : list bool) (i : nat) (d : spec)
    (md : Net.module) (image_size : list nat) (fr fr' : frame) :
  (∀ r, r ∈ marks i d →
     ∃ k, Py.norm_index (length defs) r = Ok k ∧ routs !! k = Some true) →
  i < length defs →
  length (out fr) = i →
  (∃ t, x fr = ETensor t) →
  routed_are_tensors routs i (out fr) →
  dispatch i d md image_size fr = Ok fr' →
  (∃ t, x fr' = ETensor t) ∧ routed_are_tensors routs i (out fr').
Proof.
  intros Hmarks Hi Hlen Hx Hout. unfold Darknet.dispatch. intros H.
  apply bind_Ok in H as (ty & Hty & H).
  destruct (is_str ty "convolutional" || is_str ty "upsample" || is_str ty "maxpool")
    eqn:Hkind.
  { do 2 (apply bind_Ok in H as (? & _ & H)). injection H as <-. cbn. split; [by eexists|done]. }
  apply orb_false_elim in Hkind as [Hkind _]. apply orb_false_elim in Hkind as [Hconv _].
  destruct (is_str ty "shortcut").
  { unfold call_fusion in H. destruct md as [|[]]; try done.
    do 2 (apply bind_Ok in H as (? & _ & H)). injection H as <-. cbn.
    split; [by eexists|done]. }
  destruct (is_str ty "route") eqn:Hro.
  { apply bind_Ok in H as (layers & Hl & H).
    assert (marks i d = Builder.absolute i layers) as Hm.
    { unfold marks. by rewrite Hty, Hconv, Hro, Hl. }
    unfold Darknet.route in H. case_decide as Hone.
    - apply bind_Ok in H as (l0 & Hl0 & H).
      apply bind_Ok in H as (e0 & He0 & H). injection H as <-. cbn [x out set_x].
      split; [|done].
      destruct layers as [|l0' [|? ?]]; try done. cbn in Hl0. injection Hl0 as ->.
      apply getitem_inv in He0 as (p & Hp & Hlk). rewrite Hlen in Hp.
      assert (routs !! p = Some true) as Hrp.
      { apply (route_reads_marked routs (length defs) i l0 p Hi); [|done].
        apply Hmarks. rewrite Hm. cbn. by left. }
      apply norm_index_inv in Hp as [Hlt _].
      destruct (Hout p Hlt Hrp) as [t Ht]. exists t. congruence.
    - destruct (cat_history _ _ _) as [x0|e].
      + injection H as <-. cbn. split; [by eexists|done].
      + apply bind_Ok in H as (l1 & _ & H).
        apply bind_Ok in H as (e1 & _ & H).
        apply bind_Ok in H as (t1 & _ & H).
        apply bind_Ok in H as (half & _ & H).
        apply bind_Ok in H as (out' & Hset & H).
        apply bind_Ok in H as (x1 & _ & H). injection H as <-. cbn [x out].
        split; [by eexists|].
        unfold Py.setitem in Hset. apply bind_Ok in Hset as (p & Hp & Hset).
        injection Hset as <-. intros j Hj Hr.
        destruct (decide (j = p)) as [->|Hne].
        * exists half. apply list_lookup_insert_eq. lia.
        * rewrite list_lookup_insert_ne by done. by apply Hout. }
  destruct (is_str ty "yolo").
  { unfold call_yolo in H. destruct md as [|[]]; try done.
    do 2 (apply bind_Ok in H as (? & _ & H)). injection H as <-. by cbn. }
  by injection H as <-.
Qed.

(** X18. In a model whose description and routed mask come from one run of
    the builder, [forward] never reads the placeholder. After any number
    of layers the current value [x] is a tensor, and every entry of the
    history whose layer the mask marks is a tensor: what a route reads
    from the history has been stored for it. *)
Theorem forward_reads_stored_tensors
    (parsed : list spec) (self : Darknet.t) (ml : list Net.module)
    (printed : list string) (input : tensor R) (k : nat) (fr : frame) :
  Builder.create_modules grad_enabled init_bias parsed
    = Ok (module_defines self, ml, routs self, printed) →
  k ≤ length (items self) →
  run_layers self input k = Ok fr →
  (∃ t, x fr = ETensor t) ∧
  ∀ j, j < k → routs self !! j = Some true → ∃ t, out fr !! j = Some (ETensor t).
Proof.
  intros Hbuild. pose proof (create_modules_marks_set _ _ _ _ _ _ _ Hbuild) as Hmarks.
  revert fr. induction k as [|k IH]; intros fr Hk.
  - unfold Darknet.run_layers. rewrite take_0. intros [= <-]. cbn.
    split; [by eexists|]. intros j Hj. lia.
  - destruct (lookup_lt_is_Some_2 (items self) k) as [item Hitem]; [lia|].
    rewrite (run_layers_S _ _ _ _ _ _ _ _ _ Hitem). intros H.
    apply bind_Ok in H as (fr0 & H0 & H).
    destruct (IH fr0) as (Hx0 & Hout0); [lia|done|].
    apply run_layers_out_length in H0; [|lia].
    destruct item as [i [d md]].
    apply items_lookup in Hitem as (Hidx & Hd & _). cbn in Hidx, Hd. subst i.
    unfold Darknet.step in H. apply bind_Ok in H as (fr1 & Hdisp & H).
    apply bind_Ok in H as (routed & Hrouted & H). injection H as <-.
    cbn [fst snd x out] in *.
    pose proof (dispatch_out_length _ _ _ _ _ _ _ _ _ _ _ Hdisp) as Hlen1.
    apply (dispatch_reads_tensors (module_defines self) (routs self)) in Hdisp
      as (Hx1 & Hout1); [|by eauto|by eapply lookup_lt_Some|done..].
    split; [done|]. intros j Hj Hr.
    destruct (decide (j = k)) as [->|Hne].
    + rewrite lookup_app_r by lia. rewrite Hlen1, H0, Nat.sub_diag. cbn.
      apply getitem_inv in Hrouted as (p & Hp & Hlk).
      apply norm_index_inv in Hp as [_ [[_ ->]|[? _]]]; [|lia].
      rewrite Nat2Z.id in Hlk. rewrite Hr in Hlk. injection Hlk as <-.
      destruct Hx1 as [t ->]. by eexists.
    + rewrite lookup_app_l by lia. apply Hout1; [lia|done].
Qed.

End ForwardReads.

(** ** Fusing *)

Section FuseFacts.
Import Config Net Fusing.

Variable fuse_conv_and_bn : layer → layer → result layer.

Local Abbreviation fuse_module := (Fusing.fuse_module fuse_conv_and_bn).
Local Abbreviation fuse := (Fusing.fuse fuse_conv_and_bn).

Lemma getitem_at {A} (l : list A) (k : Z) (p : nat) (a : A) :
  Py.norm_index (length l) k = Ok p → l !! p = Some a → Py.getitem l k = Ok a.
Proof. intros Hp Ha. unfold Py.getitem. rewrite Hp. cbn. by rewrite Ha. Qed.

Lemma first_batchnorm_None (children : list (string * layer)) (i : nat) :
  first_batchnorm children i = None ↔ Forall (fun c => is_batchnorm c.2 = false) children.
Proof.
  revert i. induction children as [|[name b] rest IH]; intros i; simpl.
  - split; [constructor|done].
  - destruct (is_batchnorm b) eqn:Hb.
    + split; [done|]. intros H. apply Forall_cons in H as [H _]. cbn in H. congruence.
    + rewrite IH. split; [by constructor|]. by intros [_ ?]%Forall_cons.
Qed.

Lemma first_batchnorm_app (pre rest : list (string * layer)) (i : nat) :
  Forall (fun c => is_batchnorm c.2 = false) pre →
  first_batchnorm (pre ++ rest) i = first_batchnorm rest (i + length pre).
Proof.
  revert i. induction pre as [|[name b] pre IH]; intros i Hpre; simpl.
  - by rewrite Nat.add_0_r.
  - apply Forall_cons in Hpre as [Hb Hpre]. cbn in Hb. rewrite Hb.
    rewrite IH by done. f_equal. lia.
Qed.

Lemma sequential_batchnorm_free (layers : list layer) :
  Forall (fun l => is_batchnorm l = false) layers → batchnorm_free (sequential layers).
Proof.
  intros H. unfold sequential, batchnorm_free.
  apply Forall_forall. intros [name l] Hin.
  apply list_elem_of_lookup in Hin as [i Hi]. rewrite list_lookup_imap in Hi.
  destruct (layers !! i) as [l'|] eqn:Hl; [|done]. injection Hi as _ <-.
  cbn. eapply Forall_lookup_1 in H; [|done]. done.
Qed.

(** A module without a batch normalisation goes through unchanged. *)
Lemma fuse_module_batchnorm_free (a : module) :
  batchnorm_free a → fuse_module a = Ok a.
Proof.
  destruct a as [children|l]; [|done]. intros H.
  unfold Fusing.fuse_module. by rewrite (proj2 (first_batchnorm_None children 0) H).
Qed.

(** X19. [fuse] keeps the layout of the model: as many modules as before, in
    the same places, next to the same description, mask, list of heads
    and mode; and a module none of whose children is a batch
    normalisation (or that is no Sequential) is the module it was. *)
Theorem fuse_keeps_the_layout (self self' : Darknet.t) :
  (fuse self).2 = Ok self' →
  Darknet.module_defines self' = Darknet.module_defines self ∧
  Darknet.routs self' = Darknet.routs self ∧
  Darknet.yolo_layers self' = Darknet.yolo_layers self ∧
  Darknet.training self' = Darknet.training self ∧
  length (Darknet.module_list self') = length (Darknet.module_list self) ∧
  ∀ i a, Darknet.module_list self !! i = Some a → batchnorm_free a →
         Darknet.module_list self' !! i = Some a.
Proof.
  unfold Fusing.fuse. cbn [snd]. intros H.
  apply bind_Ok in H as (fused_list & Hf & H). injection H as <-.
  cbn [Darknet.module_defines Darknet.routs Darknet.yolo_layers Darknet.training
       Darknet.module_list].
  repeat split; try done.
  - by apply comprehension_length in Hf.
  - revert fused_list Hf. generalize (Darknet.module_list self).
    intros l. induction l as [|a0 l IH]; intros fl Hf i a Hi Hfree; [done|].
    simpl in Hf. apply bind_Ok in Hf as (a0' & Ha0 & Hf).
    apply bind_Ok in Hf as (fl' & Hfl' & Hf). injection Hf as <-.
    destruct i as [|i]; cbn in Hi |- *.
    + injection Hi as ->. rewrite (fuse_module_batchnorm_free _ Hfree) in Ha0.
      congruence.
    + by eapply IH.
Qed.

(** A module of the builder's shape with its batch normalisation. *)
Lemma fuse_module_second_child (n0 n1 : string) (c b : layer)
    (post : list (string * layer)) :
  is_batchnorm c = false →
  is_batchnorm b = true →
  fuse_module (Sequential ((n0, c) :: (n1, b) :: post)) =
    fused ← fuse_conv_and_bn c b;
    Ok (sequential (fused :: (snd <$> post))).
Proof.
  intros Hc Hb. unfold Fusing.fuse_module. cbn [first_batchnorm]. rewrite Hc, Hb.
  done.
Qed.

(** X20. What [fuse] makes of a Sequential whose first batch normalisation
    follows a layer [conv]: the fused convolution followed by the
    children after the batch normalisation, renamed by position. The
    children before [conv] are dropped. *)
Theorem fuse_module_keeps_what_follows
    (pre post : list (string * layer)) (n1 n2 : string) (conv b : layer) :
  Forall (fun c => is_batchnorm c.2 = false) pre →
  is_batchnorm conv = false →
  is_batchnorm b = true →
  fuse_module (Sequential (pre ++ (n1, conv) :: (n2, b) :: post)) =
    fused ← fuse_conv_and_bn conv b;
    Ok (sequential (fused :: (snd <$> post))).
Proof.
  intros Hpre Hconv Hb. unfold Fusing.fuse_module.
  rewrite (first_batchnorm_app pre) by done. rewrite Nat.add_0_l.
  cbn [first_batchnorm]. rewrite Hconv, Hb.
  assert (Py.getitem (pre ++ (n1, conv) :: (n2, b) :: post)
            (Z.of_nat (S (length pre)) - 1) = Ok (n1, conv)) as ->.
  { apply (getitem_at _ _ (length pre)).
    - unfold Py.norm_index. rewrite decide_True by (rewrite length_app; cbn; lia).
      f_equal. lia.
    - by rewrite lookup_app_r, Nat.sub_diag. }
  cbn [fmap result_fmap mbind result_bind snd].
  destruct (fuse_conv_and_bn conv b) as [fused|e]; [|done].
  cbn [mbind result_bind]. do 3 f_equal.
  replace (S (S (length pre))) with (length pre + 2) by lia.
  rewrite drop_app_add. done.
Qed.


(** X21. A Sequential that starts with its batch normalisation: the layer
    fused with it is the last child (the batch normalisation itself when
    it is the only child), [a[0 - 1]] being [a[-1]]. *)
Theorem fuse_module_leading_batchnorm
    (name : string) (b : layer) (rest : list (string * layer)) :
  is_batchnorm b = true →
  fuse_module (Sequential ((name, b) :: rest)) =
    fused ← fuse_conv_and_bn (default b (last (snd <$> rest))) b;
    Ok (sequential (fused :: (snd <$> rest))).
Proof.
  intros Hb. unfold Fusing.fuse_module. cbn [first_batchnorm]. rewrite Hb.
  assert (∃ c, Py.getitem ((name, b) :: rest) (Z.of_nat 0 - 1) = Ok c ∧
               c.2 = default b (last (snd <$> rest))) as (c & -> & Hc).
  { destruct (last ((name, b) :: rest)) as [c|] eqn:Hlast;
      [|by rewrite last_cons in Hlast; destruct (last rest)].
    exists c. split.
    - apply (getitem_at _ _ (length rest)).
      + unfold Py.norm_index. rewrite decide_False by lia.
        rewrite decide_True by (cbn [length]; lia). f_equal. cbn [length]. lia.
      + by rewrite <- Hlast, last_lookup.
    - rewrite last_cons in Hlast. rewrite fmap_last.
      destruct (last rest) as [c'|]; by injection Hlast as <-. }
  cbn [fmap result_fmap mbind result_bind]. by rewrite Hc.
Qed.

End FuseFacts.

Section FuseBuilt.
Import Config Net Builder Fusing.

Variable grad_enabled : bool.
Variable init_bias : nat → nat → R.
Variable fuse_conv_and_bn : layer → layer → result layer.

Local Abbreviation fuse_module := (Fusing.fuse_module fuse_conv_and_bn).
Local Abbreviation fuse := (Fusing.fuse fuse_conv_and_bn).

Lemma activation_not_batchnorm (name : value) (l : layer) :
  activation name = Some l → is_batchnorm l = false.
Proof.
  unfold activation.
  repeat match goal with |- context [is_str ?v ?s] => destruct (is_str v s) end;
    by intros [= <-].
Qed.

Lemma set_bias_batchnorm (b : list R) (l : layer) :
  is_batchnorm (set_bias b l) = is_batchnorm l.
Proof. by destruct l. Qed.

Lemma branch_shaped (st st' : state) (i : nat) (module : spec) (m : Net.module) :
  branch grad_enabled init_bias st i module = Ok (m, st') →
  builder_shaped m ∧
  (Forall builder_shaped (module_list st) → Forall builder_shaped (module_list st')).
Proof.
  unfold branch. intros H.
  apply bind_Ok in H as (type & Hty & H).
  destruct (is_str type "convolutional").
  { apply bind_Ok in H as (bn & _ & H).
    repeat (apply bind_Ok in H as (? & _ & H)).
    destruct (activation _) as [act|] eqn:Hact; injection H as <- <-;
      (split; [|done]); unfold add_module;
      try apply activation_not_batchnorm in Hact;
      case_decide; cbn [app].
    - right. eexists _, _, _, _, _. split; [done|]. by repeat constructor.
    - left. by repeat constructor.
    - right. eexists _, _, _, _, _. split; [done|]. by repeat constructor.
    - left. by repeat constructor. }
  destruct (is_str type "maxpool").
  { repeat (apply bind_Ok in H as (? & _ & H)).
    case_decide; injection H as <- <-; (split; [|done]); left; by repeat constructor. }
  destruct (is_str type "avgpool").
  { repeat (apply bind_Ok in H as (? & _ & H)).
    injection H as <- <-; (split; [|done]); left; by repeat constructor. }
  destruct (is_str type "semodule").
  { repeat (apply bind_Ok in H as (? & _ & H)).
    injection H as <- <-; (split; [|done]); left; by repeat constructor. }
  destruct (is_str type "shuffle").
  { repeat (apply bind_Ok in H as (? & _ & H)).
    injection H as <- <-; (split; [|done]); left; by repeat constructor. }
  destruct (is_str type "dense").
  { apply bind_Ok in H as (bn & _ & H).
    repeat (apply bind_Ok in H as (? & _ & H)).
    injection H as <- <-; (split; [|done]); unfold add_module; case_decide; cbn [app].
    - right. eexists _, _, _, _, _. split; [done|]. by repeat constructor.
    - left. by repeat constructor. }
  destruct (is_str type "upsample").
  { repeat (apply bind_Ok in H as (? & _ & H)).
    injection H as <- <-; (split; [|done]); by left. }
  destruct (is_str type "route").
  { repeat (apply bind_Ok in H as (? & _ & H)).
    injection H as <- <-; (split; [|done]); left; by repeat constructor. }
  destruct (is_str type "shortcut").
  { repeat (apply bind_Ok in H as (? & _ & H)).
    injection H as <- <-; (split; [|done]); by left. }
  destruct (is_str type "yolo").
  { repeat (apply bind_Ok in H as (? & _ & H)).
    destruct (smart_bias _ _ _ _ _ _) as [ml|e] eqn:Hb; injection H as <- <-;
      cbn [module_list print]; (split; [by left|]); [|done].
    apply smart_bias_target in Hb as (p & name & l & children & b' & Hp & ->).
    cbn [module_list] in Hp. intros Hall.
    apply Forall_insert; [done|].
    eapply Forall_lookup_1 in Hall; [|exact Hp].
    destruct Hall as [Hfree|(n0 & c & n1 & b & post & Heq & Hc & Hb & Hpost)].
    - left. cbn in Hfree |- *. apply Forall_cons in Hfree as [Hl Hch].
      constructor; [|done]. cbn in Hl |- *. by rewrite set_bias_batchnorm.
    - injection Heq as -> -> ->. right. eexists _, _, _, _, _. split; [done|].
      by rewrite set_bias_batchnorm. }
  injection H as <- <-. split; [|done]. left. by repeat constructor.
Qed.

Lemma run_loop_shaped (channels : Z) (defs : list spec) (st : state) :
  run_loop grad_enabled init_bias channels defs = Ok st → Forall builder_shaped (module_list st).
Proof.
  unfold run_loop.
  apply (for_each_invariant _ (fun st => Forall builder_shaped (module_list st)));
    [|by constructor].
  intros s [i d] s' Hs H. unfold body in H.
  apply bind_Ok in H as ([m s1] & Hb & H). cbn [fst snd] in Hb.
  apply branch_shaped in Hb as [Hm Hkeep].
  destruct (filters s1); [|done]. injection H as <-. cbn [module_list].
  apply Forall_app. split; [by apply Hkeep|by apply Forall_singleton].
Qed.

Lemma fuse_module_shaped (a a' : Net.module) :
  (∀ conv b fused, fuse_conv_and_bn conv b = Ok fused → is_batchnorm fused = false) →
  builder_shaped a → fuse_module a = Ok a' → batchnorm_free a'.
Proof.
  intros Hfused [Hfree|(n0 & c & n1 & b & post & -> & Hc & Hb & Hpost)].
  - rewrite (fuse_module_batchnorm_free _ _ Hfree). by intros [= <-].
  - rewrite (fuse_module_second_child fuse_conv_and_bn n0 n1 c b post Hc Hb).
    intros H. apply bind_Ok in H as (fused & Hf & H). injection H as <-.
    apply sequential_batchnorm_free. constructor; [by eapply Hfused|].
    apply Forall_fmap. done.
Qed.

(** X22. Fusing a model [Darknet.__init__] has built leaves no batch
    normalisation in it, provided a fused convolution is not itself a
    batch normalisation; fusing it once more changes nothing. *)
Theorem fuse_of_a_built_model (parsed : list spec) (m m1 : Darknet.t) :
  (∀ conv b fused, fuse_conv_and_bn conv b = Ok fused → is_batchnorm fused = false) →
  Darknet.init grad_enabled init_bias parsed = Ok m →
  (fuse m).2 = Ok m1 →
  Forall batchnorm_free (Darknet.module_list m1) ∧ (fuse m1).2 = Ok m1.
Proof.
  intros Hfused Hinit Hfuse.
  assert (Forall builder_shaped (Darknet.module_list m)) as Hshaped.
  { unfold Darknet.init in Hinit.
    apply bind_Ok in Hinit as ([[[defs ml] rb] printed] & Hc & Hinit).
    apply bind_Ok in Hinit as (yl & _ & Hinit). injection Hinit as <-.
    cbn [Darknet.module_list].
    unfold create_modules in Hc. destruct parsed as [|hyper_params rest]; [done|].
    apply bind_Ok in Hc as (channels & _ & Hc).
    apply bind_Ok in Hc as (st & Hloop & Hc).
    apply bind_Ok in Hc as (i0 & _ & Hc).
    apply bind_Ok in Hc as (routs_binary & _ & Hc).
    injection Hc as <- <- <- <-. by eapply run_loop_shaped. }
  unfold Fusing.fuse in Hfuse. cbn [snd] in Hfuse.
  apply bind_Ok in Hfuse as (fused_list & Hf & Hfuse). injection Hfuse as <-.
  cbn [Darknet.module_list].
  assert (Forall batchnorm_free fused_list) as Hfree.
  { revert fused_list Hf. induction Hshaped as [|a l Ha _ IH]; intros fl Hf.
    - injection Hf as <-. constructor.
    - simpl in Hf. apply bind_Ok in Hf as (a' & Ha' & Hf).
      apply bind_Ok in Hf as (fl' & Hfl' & Hf). injection Hf as <-.
      constructor; [by eapply fuse_module_shaped|by apply IH]. }
  split; [done|].
  unfold Fusing.fuse. cbn [snd Darknet.module_list Darknet.module_defines Darknet.routs
                            Darknet.yolo_layers Darknet.training].
  assert (Py.comprehension fuse_module fused_list = Ok fused_list) as ->; [|done].
  rewrite <- (list_fmap_id fused_list) at 2. apply comprehension_total.
  eapply Forall_impl; [exact Hfree|]. intros a Ha.
  by apply fuse_module_batchnorm_free.
Qed.

End FuseBuilt.

(** ** The training set-up and the epoch's ends *)

Section GroupFacts.
Import ParamGroups.

Context {P : Type}.

Local Abbreviation is_bias := (fun kv : string * P => contains ".bias" kv.1 = true).
Local Abbreviation is_conv_weight :=
  (fun kv : string * P => contains ".bias" kv.1 = false ∧ contains "Conv2d.weight" kv.1 = true).
Local Abbreviation is_other :=
  (fun kv : string * P => contains ".bias" kv.1 = false ∧ contains "Conv2d.weight" kv.1 = false).

Lemma groups_snoc (ps : list (string * P)) (kv : string * P) :
  groups (ps ++ [kv]) = group (groups ps) kv.
Proof. unfold groups. by rewrite foldl_app. Qed.

(** X23. The three parameter groups split the parameters: [pg2] holds, in
    order, those whose name contains [".bias"], [pg1] those of the others
    whose name contains ["Conv2d.weight"], [pg0] the rest; together they
    hold every parameter once. *)
Theorem groups_split_the_parameters (named_parameters : list (string * P)) :
  ∃ pg0 pg1 pg2,
    groups named_parameters = (pg0, pg1, pg2) ∧
    pg2 = snd <$> filter is_bias named_parameters ∧
    pg1 = snd <$> filter is_conv_weight named_parameters ∧
    pg0 = snd <$> filter is_other named_parameters ∧
    pg0 ++ pg1 ++ pg2 ≡ₚ snd <$> named_parameters.
Proof.
  induction named_parameters as [|kv ps IH] using rev_ind.
  - by exists [], [], [].
  - destruct IH as (pg0 & pg1 & pg2 & Hg & -> & -> & -> & Hperm).
    rewrite groups_snoc, Hg. unfold group.
    rewrite !filter_app, !fmap_app, !filter_cons, !filter_nil.
    destruct (contains ".bias" kv.1) eqn:Hb.
    + eexists _, _, _. split; [done|].
      rewrite decide_True by done.
      rewrite decide_False by (by intros [? _]).
      rewrite decide_False by (by intros [? _]).
      cbn [fmap list_fmap]. rewrite !app_nil_r. repeat split.
      rewrite !app_assoc. by rewrite <- (app_assoc _ _ (snd <$> filter _ ps)), Hperm.
    + destruct (contains "Conv2d.weight" kv.1) eqn:Hc.
      * eexists _, _, _. split; [done|].
        rewrite decide_False by done.
        rewrite decide_True by done.
        rewrite decide_False by (by intros [_ ?]).
        cbn [fmap list_fmap]. rewrite !app_nil_r. repeat split.
        rewrite <- Hperm. rewrite <- !app_assoc. do 2 f_equiv.
        apply Permutation_app_comm.
      * eexists _, _, _. split; [done|].
        rewrite decide_False by done.
        rewrite decide_False by (by intros [_ ?]).
        rewrite decide_True by done.
        cbn [fmap list_fmap]. rewrite !app_nil_r. repeat split.
        rewrite <- Hperm. rewrite <- !app_assoc. f_equiv.
        etrans; [apply Permutation_app_comm|]. by rewrite <- app_assoc.
Qed.

End GroupFacts.

Section CheckpointFacts.
Import Checkpoint.

Context {M O : Type}.

(** X27. An epoch that is not to save ends in an exception, and only such
    an epoch does. With [--nosave] every epoch but the final one, and
    with [--evolve] on top of it every epoch, reaches
    [torch.save(state, ...)] with [state] unbound: the step raises
    UnboundLocalError and writes no file. *)
Theorem save_step_raises_without_save
    (a : Train.args) (e : nat) (best fitness_i : Q) (results_txt : string)
    (ema_model model_now : M) (optimizer_now : O) (fs : files M O) :
  let r := save_step a e best fitness_i results_txt ema_model model_now optimizer_now fs in
  (r.2 ≠ Ok () ↔
   Train.nosave a = true ∧ (e + 1 ≠ Train.epochs a ∨ Train.evolve a = true)) ∧
  (r.2 ≠ Ok () → r = (fs, Raise (UnboundLocalError "state"))).
Proof.
  cbv zeta. unfold save_step.
  destruct (Train.nosave a), (Train.evolve a); cbn [negb orb andb];
    case_bool_decide; cbn [negb orb andb];
    try destruct (Qeq_bool best fitness_i); cbn [snd];
    (split;
     [split;
      [intros Hr; first [by destruct Hr | split; [done|first [by left|by right]]]
      |intros [? [?|?]]; first [done|congruence]]
     |intros Hr; first [done|by destruct Hr]]).
Qed.

End CheckpointFacts.

Section ResumeFacts.
Import Checkpoint.

Context {M : Type}.
Variable load_model : M → result unit.

Local Abbreviation resume := (Checkpoint.resume load_model).

(** A scheduler built on groups that all hold [initial_lr] takes them as
    they are, whatever [last_epoch]. *)
Lemma scheduler_init_initialised (groups : list group) (last_epoch : Z) :
  Forall (fun g => has_initial_lr g = true) groups →
  scheduler_init groups last_epoch = Ok groups.
Proof.
  intros Hall. unfold scheduler_init. case_decide.
  - f_equal. rewrite <- (list_fmap_id groups) at 2.
    apply Forall_fmap_ext_1. eapply Forall_impl; [exact Hall|].
    intros [n i] Hi. cbn in *. by rewrite Hi.
  - destruct (list_find _ groups) as [[i g]|] eqn:Hfind; [|done].
    apply list_find_Some in Hfind as (Hlk & Hg & _).
    apply (Forall_lookup_1 _ _ _ _ Hall) in Hlk. congruence.
Qed.

(** A scheduler that could be built has left [initial_lr] in every group,
    and the groups' parameters alone. *)
Lemma scheduler_init_Ok (groups groups' : list group) (last_epoch : Z) :
  scheduler_init groups last_epoch = Ok groups' →
  params <$> groups' = params <$> groups ∧
  Forall (fun g => has_initial_lr g = true) groups'.
Proof.
  unfold scheduler_init. case_decide.
  - intros [= <-]. split.
    + rewrite <- list_fmap_compose. by apply list_fmap_ext.
    + apply Forall_fmap, Forall_true. done.
  - destruct (list_find _ groups) as [[i g]|] eqn:Hfind; [done|].
    intros [= <-]. split; [done|].
    apply list_find_None in Hfind.
    eapply Forall_impl; [exact Hfind|]. intros g Hg. cbn in Hg.
    by destruct (has_initial_lr g).
Qed.

(** The optimizer of a run whose set-up has succeeded: the three groups
    of the fresh one, each with [initial_lr]. *)
Lemma resume_groups (pg0 pg1 pg2 : nat)
    (weights : option (checkpoint M (list group)))
    (start_epoch : Z) (best_fitness : option Q) (groups : list group) :
  resume (fresh_optimizer pg0 pg1 pg2) weights = Ok (start_epoch, best_fitness, groups) →
  groups = [Group pg0 true; Group pg1 true; Group pg2 true].
Proof.
  unfold Checkpoint.resume. intros H.
  apply bind_Ok in H as ([[start best] groups0] & H0 & H).
  apply bind_Ok in H as (groups1 & Hs & H). injection H as <- <- <-.
  apply scheduler_init_Ok in Hs as [Hparams Hall].
  assert (params <$> groups0 = [pg0; pg1; pg2]) as Hown.
  { destruct weights as [state|]; [|by injection H0 as <- <- <-].
    apply bind_Ok in H0 as (? & _ & H0).
    apply bind_Ok in H0 as ([best' groups'] & Hg & H0). injection H0 as <- <- <-.
    destruct (optimizer state) as [saved|]; [|by injection Hg as <- <-].
    apply bind_Ok in Hg as (loaded & Hload & Hg). injection Hg as <- <-.
    unfold load_state_dict in Hload. case_decide as Heq; [|done].
    injection Hload as <-. by rewrite <- Heq. }
  rewrite Hown in Hparams.
  destruct groups1 as [|[n0 i0] [|[n1 i1] [|[n2 i2] [|? ?]]]]; try done.
  injection Hparams as -> -> ->.
  apply Forall_cons in Hall as [H0' Hall]. apply Forall_cons in Hall as [H1' Hall].
  apply Forall_cons in Hall as [H2' _]. cbn in *. by subst.
Qed.

(** X26. Resuming from what an epoch has saved. Take a run whose set-up
    has succeeded (a fresh start or a resumed one), so that its optimizer
    holds the three parameter groups with the key [initial_lr] the
    scheduler gave them, and an epoch [e] of it that saves. A later run
    of the same model that loads [checkpoint.pth] starts at epoch [e + 1]
    with the saved best fitness and the saved groups, unless [e] was the
    final epoch: that file holds no optimizer state, the fresh optimizer
    has no [initial_lr], and the scheduler's constructor raises KeyError,
    so the run does not start. [model_best.pth] is written exactly when
    the epoch's fitness equals the best one, and a run that loads it
    starts from epoch 0 with best fitness 0, as a fresh run does. *)
Theorem resume_after_save
    (a : Train.args) (e : nat) (best fitness_i : Q) (results_txt : string)
    (ema_model model_now : M) (pg0 pg1 pg2 : nat)
    (weights : option (checkpoint M (list group)))
    (start_epoch : Z) (best_fitness : option Q) (groups : list group)
    (fs fs' : files M (list group)) :
  resume (fresh_optimizer pg0 pg1 pg2) weights = Ok (start_epoch, best_fitness, groups) →
  save_step a e best fitness_i results_txt ema_model model_now groups fs = (fs', Ok ()) →
  load_model ema_model = Ok () →
  load_model model_now = Ok () →
  (∃ ck, checkpoint_pth fs' = Some ck ∧
         model ck = ema_model ∧ training_results ck = Some results_txt ∧
         resume (fresh_optimizer pg0 pg1 pg2) (Some ck) =
           if bool_decide (e + 1 = Train.epochs a)
           then Raise (KeyError "param 'initial_lr' is not specified in param_groups[0] when resuming an optimizer")
           else Ok ((Z.of_nat e + 1)%Z, Some best, groups)) ∧
  (if Qeq_bool best fitness_i
   then ∃ ck, model_best_pth fs' = Some ck ∧ model ck = model_now ∧
              resume (fresh_optimizer pg0 pg1 pg2) (Some ck) = Ok (0%Z, Some 0%Q, groups) ∧
              resume (fresh_optimizer pg0 pg1 pg2) None = Ok (0%Z, Some 0%Q, groups)
   else model_best_pth fs' = model_best_pth fs).
Proof.
  intros Hsetup Hsave Hema Hnow.
  apply resume_groups in Hsetup as ->.
  unfold save_step in Hsave. destruct (_ || _); [|done].
  assert (∀ last_epoch,
            scheduler_init [Group pg0 true; Group pg1 true; Group pg2 true] last_epoch
            = Ok [Group pg0 true; Group pg1 true; Group pg2 true]) as Hkeep.
  { intros last_epoch. apply scheduler_init_initialised. by repeat constructor. }
  assert (resume (fresh_optimizer pg0 pg1 pg2)
            (Some {| epoch := Z.of_nat e; best_fitness := Some best;
                     training_results := Some results_txt; model := ema_model;
                     optimizer := if bool_decide (e + 1 = Train.epochs a) then None
                                  else Some [Group pg0 true; Group pg1 true; Group pg2 true] |})
          = if bool_decide (e + 1 = Train.epochs a)
            then Raise (KeyError "param 'initial_lr' is not specified in param_groups[0] when resuming an optimizer")
            else Ok ((Z.of_nat e + 1)%Z, Some best,
                     [Group pg0 true; Group pg1 true; Group pg2 true])) as Hlast.
  { unfold Checkpoint.resume. cbn [model epoch optimizer Checkpoint.best_fitness].
    rewrite Hema. cbn [mbind result_bind].
    case_bool_decide; cbn [mbind result_bind].
    - unfold scheduler_init. rewrite decide_False by lia. done.
    - unfold load_state_dict. cbn [fmap list_fmap fresh_optimizer params].
      rewrite decide_True by done. cbn [mbind result_bind].
      rewrite Hkeep. done. }
  assert (resume (fresh_optimizer pg0 pg1 pg2)
            (Some {| epoch := (-1)%Z; best_fitness := None; training_results := None;
                     model := model_now; optimizer := None |})
          = Ok (0%Z, Some 0%Q, [Group pg0 true; Group pg1 true; Group pg2 true])) as Hbest.
  { unfold Checkpoint.resume. cbn [model epoch optimizer Checkpoint.best_fitness].
    rewrite Hnow. done. }
  destruct (Qeq_bool best fitness_i); injection Hsave as <-; cbn.
  - split; [by eexists|]. eexists. split; [done|]. split; [done|]. by split.
  - split; [by eexists|]. done.
Qed.

End ResumeFacts.

Section BatchFacts.
Import Train.

Variable loss_at : nat → nat → loss.
Variable batches_num : nat.

Local Abbreviation batch := (Train.batch loss_at batches_num).

Lemma loop_batches (a : args) (epoch : nat) (st : state) (first n : nat) :
  accumulate a ≠ 0 →
  (∀ i, first ≤ i < first + n → isfinite (loss_at epoch i) = true) →
  loop (batch a epoch) st (seq first n) =
    ({| cur_results := cur_results st; best_fitness := best_fitness st;
        trace := trace st ++
          (index ← seq first n;
           Backward epoch index ::
             if decide ((index + batches_num * epoch) mod accumulate a = 0)
             then [OptimizerStep (index + batches_num * epoch)] else []) |}, Next).
Proof.
  intros Hacc. revert st first. induction n as [|n IH]; intros st first Hfin.
  - cbn. rewrite app_nil_r. by destruct st.
  - cbn [seq loop]. unfold Train.batch at 1.
    rewrite (bool_decide_false _ Hacc), andb_false_r.
    rewrite Hfin by lia. cbn [negb].
    rewrite decide_False by done.
    case_decide as Hstep.
    + rewrite IH by (intros i Hi; apply Hfin; lia).
      cbn [cur_results best_fitness trace log]. do 2 f_equal.
      cbn [mbind list_bind]. rewrite decide_True by done. by rewrite <- !app_assoc.
    + rewrite IH by (intros i Hi; apply Hfin; lia).
      cbn [cur_results best_fitness trace log]. do 2 f_equal.
      cbn [mbind list_bind]. rewrite decide_False by done. by rewrite <- !app_assoc.
Qed.

(** X24. An epoch whose losses are all finite runs one backward pass per
    batch, in order, and steps the optimizer after exactly those batches
    whose number [ni = index + batches_num * epoch], counted from the
    start of training, is a multiple of [accumulate]: after the very
    first batch of a run, then after every [accumulate]-th one. The batch
    loop then falls through to the epoch's end with [results] and
    [best_fitness] untouched. *)
Theorem batches_step_every_accumulate (a : args) (epoch : nat) (st : state) :
  accumulate a ≠ 0 →
  (∀ i, i < batches_num → isfinite (loss_at epoch i) = true) →
  loop (batch a epoch) st (seq 0 batches_num) =
    ({| cur_results := cur_results st; best_fitness := best_fitness st;
        trace := trace st ++
          (index ← seq 0 batches_num;
           Backward epoch index ::
             if decide ((index + batches_num * epoch) mod accumulate a = 0)
             then [OptimizerStep (index + batches_num * epoch)] else []) |}, Next).
Proof.
  intros Hacc Hfin. apply loop_batches; [done|]. intros i Hi. apply Hfin. lia.
Qed.

End BatchFacts.

Section WarmupFacts.
Import Prebias.

Variable lr0 momentum : Q.
Variable scheduled_lr : nat → Q.

Local Abbreviation during := (Prebias.during lr0 momentum scheduled_lr).
Local Abbreviation epoch_head := (Prebias.epoch_head lr0 momentum).

(** Once the warm-up is over nothing but the scheduler moves the
    state. *)
Lemma during_after_warmup (e k : nat) (st : state) :
  prebias st = false →
  during e k st =
    {| prebias := false; gr := gr st;
       bias_lr := if decide (k = 0) then bias_lr st else scheduled_lr (e + k - 1);
       bias_momentum := bias_momentum st |}.
Proof.
  revert e st. induction k as [|k IH]; intros e st Hp.
  - cbn. unfold Prebias.epoch_head. rewrite Hp. destruct st. cbn in *. by subst.
  - cbn [Prebias.during]. unfold Prebias.epoch_head at 1. rewrite Hp.
    rewrite IH by done. cbn. f_equal.
    destruct (decide (k = 0)) as [->|Hk].
    + f_equal. lia.
    + f_equal. lia.
Qed.

Lemma during_warmup (e k : nat) (st : state) :
  prebias st = true → e ≤ 3 →
  prebias (during e k st) = bool_decide (e + k < 3) ∧
  gr (during e k st) = (if decide (e + k < 3) then gr st else 1%Q) ∧
  bias_lr (during e k st) =
    (if decide (e + k < 3) then (1 # 10)%Q
     else if decide (e + k = 3) then lr0 else scheduled_lr (e + k - 1)).
Proof.
  revert e st. induction k as [|k IH]; intros e st Hp He.
  - cbn. unfold Prebias.epoch_head. rewrite Hp. rewrite Nat.add_0_r.
    destruct (decide (e = 3)) as [->|Hne].
    + cbn. done.
    + rewrite (bool_decide_false (e = 3)) by done. cbn.
      rewrite bool_decide_true by lia. rewrite !decide_True by lia. done.
  - cbn [Prebias.during]. destruct (decide (e = 3)) as [->|Hne].
    + rewrite during_after_warmup
        by (unfold Prebias.epoch_tail, Prebias.epoch_head; rewrite Hp; done).
      cbn. rewrite bool_decide_false by lia. rewrite !decide_False by lia.
      split; [done|]. split.
      * unfold Prebias.epoch_head. by rewrite Hp.
      * destruct (decide (k = 0)) as [->|Hk]; f_equal; lia.
    + destruct (IH (S e) (Prebias.epoch_tail scheduled_lr e (epoch_head e st)))
        as (H1 & H2 & H3).
      * unfold Prebias.epoch_tail, Prebias.epoch_head. rewrite Hp. cbn.
        by rewrite bool_decide_false.
      * lia.
      * replace (e + S k) with (S e + k) by lia. rewrite H1, H2, H3.
        split; [done|]. split; [|done].
        unfold Prebias.epoch_tail, Prebias.epoch_head. rewrite Hp. cbn.
        by rewrite bool_decide_false.
Qed.

(** X25. The warm-up of the biases, in closed form. In a run that starts at
    epoch 0 the biases train at learning rate 0.1 and the GIoU loss ratio
    [model.gr] is 0 during epochs 0, 1 and 2; epoch 3 switches the ratio
    to 1 and the rate to [lr0], and from then on the scheduler alone sets
    the rate. A run that starts at a later epoch (one resumed from a
    checkpoint) never warms up and keeps [model.gr = 0] throughout. *)
Theorem warmup_ends_at_epoch_3 (start_epoch k : nat) (lr : Q) (m : option Q) :
  let st := during start_epoch k (enter start_epoch lr m) in
  gr st = (if decide (start_epoch = 0 ∧ 3 ≤ k) then 1%Q else 0%Q) ∧
  prebias st = bool_decide (start_epoch = 0 ∧ k < 3) ∧
  bias_lr st =
    (if decide (start_epoch = 0 ∧ k < 3) then (1 # 10)%Q
     else if decide (start_epoch = 0 ∧ k = 3) then lr0
     else if decide (k = 0) then lr
     else scheduled_lr (start_epoch + k - 1)).
Proof.
  cbv zeta. destruct (decide (start_epoch = 0)) as [->|Hne].
  - destruct (during_warmup 0 k (enter 0 lr m)) as (H1 & H2 & H3); [done|lia|].
    cbn [Nat.add] in *. rewrite H1, H2, H3. cbn [gr enter].
    repeat case_decide; repeat case_bool_decide; try lia; try done;
      try (exfalso; tauto); try (f_equal; lia).
  - rewrite during_after_warmup by (unfold enter; cbn; by rewrite bool_decide_false).
    cbn. rewrite bool_decide_false by tauto.
    repeat case_decide; try done; exfalso; tauto.
Qed.

End WarmupFacts.

(** ** Concrete runs *)

Import Tensor Config Net Builder Sample.

(** C9 as stated fails on the sample run: [train] returns the results of
    epoch 1, while the best results evaluated so far (and the fitness the
    run itself recorded as best) are those of epoch 0. *)
Lemma nan_run_returns_latest_not_best :
  nan_run.2 = Ok (nan_run_evaluate 1) ∧
  Train.best_of Train.res_mAP
    (Train.evaluations nan_run_evaluate (Train.trace nan_run.1))
    = Some (nan_run_evaluate 0) ∧
  nan_run_evaluate 1 ≠ nan_run_evaluate 0 ∧
  (Train.res_mAP (nan_run_evaluate 1) < Train.best_fitness nan_run.1)%Q.
Proof.
  split; [by vm_compute|]. split; [by vm_compute|]. split; [by vm_compute|].
  by vm_compute.
Qed.

(** The sample run, seen through C9 as amended: epochs 0 and 1 complete,
    the first batch of epoch 2 has a NaN loss, and [train] returns what
    the evaluation of epoch 1 reported. *)
Lemma nan_run_witness :
  ∃ st,
    Train.loop (Train.one_epoch Train.res_mAP nan_run_loss nan_run_evaluate 1
                  nan_run_args) (Train.enter 0) (seq 0 (2 - 0)) = (st, Train.Next) ∧
    nan_run = (Train.log (Train.Warned 2 0) st, Ok (Train.cur_results st)) ∧
    Train.cur_results st = nan_run_evaluate 1.
Proof.
  eexists. split; [vm_compute; reflexivity|].
  eapply (nonfinite_loss_returns_latest_results Train.res_mAP nan_run_loss
            nan_run_evaluate 1 0 0 nan_run_args 2 0);
    [vm_compute; lia | lia | done | vm_compute; reflexivity
    | vm_compute; reflexivity | reflexivity].
Defined.

(** C2 on the sample head: the all-zero 1x1 map comes back reshaped. *)
Lemma forward_training_witness :
  ∃ p, (YOLOLayer.forward stride32 head zeros_1x1 [32; 32]).2
         = Ok (YOLOLayer.OutTrain p) ∧
       shape p = [1; 1; 1; 1; 6] ∧
       wf p ∧
       data p ≡ₚ data zeros_1x1 ∧
       ∀ b a y x o, b < 1 → a < 1 → y < 1 → x < 1 → o < 6 →
         get5 p b a y x o = get4 zeros_1x1 b (a * 6 + o) y x.
Proof.
  apply (forward_training_pure_reshape stride32 head zeros_1x1 [32; 32] 1 1 1);
    [reflexivity | done | reflexivity | reflexivity].
Defined.

(** C7 on the sample head: a second call at the same resolution makes no
    [create_grids] call and leaves the layer as it was; a second call at
    another resolution rebuilds the grid for it. *)
Lemma grid_cache_witness :
  (∃ s1 c1 r1 s2 c2 r2,
     YOLOLayer.forward stride32 head zeros_1x1 [32; 32] = (s1, c1, r1) ∧
     YOLOLayer.forward stride32 s1 zeros_1x1 [32; 32] = (s2, c2, r2) ∧
     c1 = [([32; 32], (1, 1))] ∧ c2 = [] ∧ s2 = s1) ∧
  (∃ s1 c1 r1 s2 c2 r2,
     YOLOLayer.forward stride32 head zeros_1x1 [32; 32] = (s1, c1, r1) ∧
     YOLOLayer.forward stride32 s1 zeros_2x2 [64; 64] = (s2, c2, r2) ∧
     c2 = [([64; 64], (2, 2))] ∧
     (YOLOLayer.nx s2, YOLOLayer.ny s2) = (2, 2)).
Proof.
  split.
  - do 6 eexists. split; [reflexivity|]. split; [reflexivity|].
    split; [reflexivity|].
    destruct (grid_cache_reuse_and_rebuild stride32 head _ _ zeros_1x1 zeros_1x1
                [32; 32] [32; 32] _ _ _ _ 1 6 1 1 1 6 1 1
                eq_refl eq_refl eq_refl eq_refl) as [Hsame _].
    destruct (Hsame eq_refl) as (Hc & Hs & _). by split.
  - do 6 eexists. split; [reflexivity|]. split; [reflexivity|].
    destruct (grid_cache_reuse_and_rebuild stride32 head _ _ zeros_1x1 zeros_2x2
                [32; 32] [64; 64] _ _ _ _ 1 6 1 1 1 6 2 2
                eq_refl eq_refl eq_refl eq_refl) as [_ Hother].
    destruct (Hother ltac:(done)) as (Hc & _ & Hxy & _). by split.
Defined.

(** C1 on the sample head in evaluation mode: on the all-zero 1x1 map
    with 32-pixel cells the decoded centre is (16, 16), the middle of
    cell (0, 0), which spans [0, 32). *)
Lemma forward_inference_witness :
  ∃ self' calls io p,
    YOLOLayer.forward stride32 head_eval zeros_1x1 [32; 32]
      = (self', calls, Ok (YOLOLayer.OutInfer io p)) ∧
    shape io = [1; 1; 6] ∧
    get3 io 0 0 0 = 16%R ∧ get3 io 0 0 1 = 16%R ∧
    (0 <= get3 io 0 0 0 < 32)%R ∧ (0 <= get3 io 0 0 1 < 32)%R.
Proof.
  do 4 eexists. split; [reflexivity|].
  destruct (forward_inference_decode stride32 head_eval _ zeros_1x1 _ _ [32; 32] _
              eq_refl eq_refl)
    as (g & bs & c & ny0 & nx0 & nO & Hg & Hs & Hsp & Hsio & Hall).
  injection Hg as <-. injection Hs as <- <- <- <-. injection Hsp as <-.
  split; [exact Hsio|].
  destruct (Hall 0 0 0 0 0) as (_ & _ & _ & _ & _ & Hx); [vm_compute; lia..|].
  destruct (Hall 0 0 0 0 1) as (_ & _ & _ & _ & _ & Hy); [vm_compute; lia..|].
  destruct Hx as [Hx _]; [lia | reflexivity | unfold stride32; cbn; lra |].
  destruct Hy as [Hy _]; [lia | reflexivity | unfold stride32; cbn; lra |].
  match goal with
  | |- context [get3 ?io 0 0 0] =>
      assert (get3 io 0 0 0 = (INR 0 * 32 + 32 / 2)%R) as Hx' by exact Hx;
      assert (get3 io 0 0 1 = (INR 0 * 32 + 32 / 2)%R) as Hy' by exact Hy
  end.
  rewrite Hx', Hy'. cbn [INR]. repeat split; lra.
Defined.

(** C5 as stated fails on the description whose convolution has five
    channels only, built with grad mode off (the one mode in which a bias
    initialisation succeeds at all): the build returns without a
    warning, so the bias initialisation succeeded, on an all-zero bias;
    it has split the five entries into one row of five, shifted entry 4
    and found no entry 5 and onward to shift. The slices of size 6 of the
    claim have no class entries in the vector: their mean does not exist
    (torch computes NaN), it is not [log(1 / (1 - 0.99))]. *)
Lemma short_bias_has_no_class_entries :
  ∃ ml rb b',
    create_modules false zero_bias short_net = Ok ([conv 5; yolo], ml, rb, []) ∧
    smart_bias false yolo [] 0 yolo_head [conv_module 5] = Ok (take 1 ml) ∧
    target_bias ml 0 = Ok b' ∧
    length b' = 5 ∧
    select (cls_slice 1 6) b' = [] ∧
    mean (select (cls_slice 1 6) b') ≠ Some (ln (1 / (1 - 99 / 100))).
Proof.
  do 3 eexists. split; [vm_compute; reflexivity|].
  split; [vm_compute; reflexivity|].
  split; [vm_compute; reflexivity|]. split; [reflexivity|].
  split; [reflexivity|]. done.
Qed.

(** C5 as amended, on the convolution of six channels with grad mode
    off: the objectness entry is -4.5 and the class entry
    [log(1 / (1 - 0.99))]. *)
Lemma smart_bias_witness :
  ∃ ml' b',
    smart_bias false yolo [] 0 yolo_head [conv_module 6] = Ok ml' ∧
    target_bias ml' (-1) = Ok b' ∧
    mean (select (obj_slice 1 6) b') = Some (- (45 / 10))%R ∧
    mean (select (cls_slice 1 6) b') = Some (ln (1 / (1 - 99 / 100))) ∧
    Forall (eq (- (45 / 10))%R) (select (obj_slice 1 6) b') ∧
    Forall (eq (ln (1 / (1 - 99 / 100)))) (select (cls_slice 1 6) b').
Proof.
  eexists.
  destruct (smart_bias_shifts_means false yolo [] 0 yolo_head [conv_module 6] _ eq_refl)
    as (j & b & b' & Hj & Hb & Hb' & H).
  injection Hj as <-. injection Hb as <-.
  exists b'. split; [reflexivity|]. split; [exact Hb'|].
  destruct H as (Hobj & Hcls & Hzero); [vm_compute; lia|].
  destruct Hzero as [Hzo Hzc]; [by repeat constructor|].
  done.
Defined.

(** C10 on the sample description. *)
Lemma init_witness :
  Darknet.init true zero_bias net = Ok model ∧
  net = hyper_params :: Darknet.module_defines model ∧
  length (Darknet.module_list model) = length (Darknet.module_defines model) ∧
  length (Darknet.routs model) = length (Darknet.module_list model) ∧
  length (Darknet.items model) = length (Darknet.module_defines model).
Proof.
  split; [vm_compute; reflexivity|].
  destruct (init_module_defines_aligned true zero_bias net model)
    as (_ & Hml & Hrb & Hitems & _); [vm_compute; reflexivity|].
  split; [reflexivity|]. split; [exact Hml|]. split; [exact Hrb|exact Hitems].
Defined.

(** C6 on the sample model and a one-pixel image: layer 0, a
    convolution without batch normalisation, is routed; after it the
    history holds one item, the current tensor. *)
Lemma history_witness :
  ∃ fr,
    Darknet.run_layers stride32 run fuse cat interpolate model image 1 = Ok fr ∧
    length (Darknet.out fr) = 0 + 1 ∧
    Darknet.out fr !! 0 = Some (Darknet.x fr) ∧
    Darknet.routs model !! 0 = Some true.
Proof.
  eexists. split; [vm_compute; reflexivity|].
  match goal with
  | |- length (Darknet.out ?fr) = _ ∧ _ =>
      destruct (history_after_layer stride32 run fuse cat interpolate model image 0 fr)
        as (_ & _ & Hlen & routed & Hr & Hout);
        [vm_compute; lia | vm_compute; reflexivity |]
  end.
  injection Hr as <-. split; [exact Hlen|]. split; [exact Hout|reflexivity].
Defined.

(** ** Concrete runs of the further properties *)

Import Routing.

(** A closed equation between a run of the model and its result, checked
    by evaluating both sides. *)
Ltac by_evaluation :=
  lazymatch goal with
  | |- _ = ?rhs => vm_cast_no_check (eq_refl rhs)
  end.

(** A three-channel map on the sample head, which expects six: the call
    raises, and the layer it leaves has the 1x1 grid cached. *)
Lemma forward_wrong_channels_witness :
  ∃ self' calls,
    YOLOLayer.forward stride32 head_eval image [32; 32] = (self', calls, Raise RuntimeError) ∧
    (self', calls) = YOLOLayer.ensure_grids stride32 head_eval [32; 32] (1, 1) ∧
    (YOLOLayer.nx self', YOLOLayer.ny self') = (1, 1).
Proof.
  apply (forward_wrong_channels_raises stride32 head_eval image [32; 32] 1 3 1 1);
    [done | reflexivity | reflexivity | lia | vm_compute; lia].
Defined.

(** Two batch-normalised convolutions and a route over the layer before
    it and layer 1: the mask marks layer 1 only. *)
Lemma routed_mask_witness :
  (∀ i d r, [bn_conv 16; bn_conv 32; route_back_and_1] !! i = Some d → r ∈ marks i d →
     ∃ k, Py.norm_index (length [bn_conv 16; bn_conv 32; route_back_and_1]) r = Ok k) ∧
  ∀ k, [false; true; false] !! k = Some true ↔
       ∃ i d r, [bn_conv 16; bn_conv 32; route_back_and_1] !! i = Some d ∧
                r ∈ marks i d ∧
                Py.norm_index (length [bn_conv 16; bn_conv 32; route_back_and_1]) r = Ok k.
Proof.
  apply (routed_mask_marks true zero_bias
           [hyper_params; bn_conv 16; bn_conv 32; route_back_and_1]
           [bn_conv 16; bn_conv 32; route_back_and_1]
           [bn_conv_module 3 16; bn_conv_module 16 32; Sequential []]
           [false; true; false] []).
  by_evaluation.
Defined.

(** A header alone: the loop variable is unbound after the loop. *)
Lemma create_modules_needs_a_layer_witness :
  ∃ e, create_modules true zero_bias [hyper_params] = Raise e ∧
       ([hyper_params] = [] → e = IndexError) ∧
       (∀ header channels, [hyper_params] = [header] →
          get header "channels" ≫= py_int = Ok channels → e = UnboundLocalError "i").
Proof. apply (create_modules_needs_a_layer true zero_bias [hyper_params]). simpl. lia. Defined.

(** The sample head after the six-channel convolution, with grad mode
    off. *)
Lemma smart_bias_writes_witness :
  false = false ∧
  ∃ j p name l children b b',
    target_index yolo [] 0 = Ok j ∧
    Py.norm_index (length [conv_module 6]) j = Ok p ∧
    [conv_module 6] !! p = Some (Sequential ((name, l) :: children)) ∧
    bias_of l = Ok (Some b) ∧
    [shifted_conv_module 6]
      = <[p := Sequential ((name, set_bias b' l) :: children)]> [conv_module 6] ∧
    length b' = length b ∧
    let na := YOLOLayer.na yolo_head in
    let no := Z.to_nat (YOLOLayer.no yolo_head) in
    (na * no ≤ length b →
     ∀ k, na * no ≤ k ∨ k mod no < 4 → b' !! k = b !! k).
Proof.
  apply (smart_bias_writes_only_its_slices false yolo [] 0 yolo_head [conv_module 6]
           [shifted_conv_module 6]).
  by_evaluation.
Defined.

(** A head right after a batch-normalised convolution: no bias to
    initialise, a warning and the build goes on. *)
Lemma yolo_bias_failure_witness :
  branch true zero_bias after_two_convs 2 yolo =
    Ok (Single (YOLO yolo_head),
        print "WARNING: smart bias initialization failure."
          {| output_filters := [3; 16; 32]%Z;
             module_list := [bn_conv_module 3 16; bn_conv_module 16 32];
             routs := []; yolo_index := 0%Z;
             filters := Some 32%Z; stdout := [] |}).
Proof.
  apply (yolo_bias_failure_is_not_fatal true zero_bias after_two_convs 2 yolo
           [(10 # 1, 13 # 1)%Q] [(10 # 1, 13 # 1)%Q] [0%Z] 1 TypeError);
    reflexivity.
Defined.

(** A record without a type after the two convolutions. *)
Lemma record_without_type_witness :
  create_modules true zero_bias
    (hyper_params :: [bn_conv 16; bn_conv 32] ++ untyped :: [yolo])
    = Raise (KeyError "type").
Proof.
  apply (record_without_type_raises true zero_bias hyper_params [bn_conv 16; bn_conv 32]
           [yolo] untyped 3 after_two_convs);
    [reflexivity | by_evaluation | reflexivity].
Defined.

(** After convolutions of 16 and 32 filters, a route over the layer
    before it and layer 1 declares 32 + 32 channels. *)
Lemma route_declared_filters_witness :
  ∃ st', branch true zero_bias after_two_convs 2 route_back_and_1 = Ok (Sequential [], st') ∧
         filters st' = Some 64%Z ∧ routs st' = [1; 1]%Z.
Proof.
  destruct (route_declared_filters true zero_bias after_two_convs 2 route_back_and_1 [-1; 1]%Z)
    as (st' & Hb & Hf & Hr);
    [reflexivity | reflexivity | reflexivity | repeat constructor; lia |].
  exists st'. split; [exact Hb|]. split; [exact Hf|exact Hr].
Defined.

(** An unknown type after the two convolutions repeats their 32
    channels. *)
Lemma unrecognized_layer_witness :
  body true zero_bias after_two_convs (2, reorg) =
    Ok {| output_filters := [3; 16; 32; 32]%Z;
          module_list := [bn_conv_module 3 16; bn_conv_module 16 32; Sequential []];
          routs := []; yolo_index := (-1)%Z; filters := Some 32%Z;
          stdout := ["Warning: Unrecognized Layer Type: reorg"] |}.
Proof.
  apply (unrecognized_layer_after_filters true zero_bias after_two_convs 2 reorg (VStr "reorg") 32);
    reflexivity.
Defined.

(** The sample description: its one yolo record is at position 1. *)
Lemma get_yolo_layers_witness :
  (∀ i, i ∈ [1] ↔ ∃ d, [conv 6; yolo] !! i = Some d ∧ get d "type" = Ok (VStr "yolo")) ∧
  ∀ k1 k2 i1 i2, k1 < k2 → [1] !! k1 = Some i1 → [1] !! k2 = Some i2 → i1 < i2.
Proof.
  apply (get_yolo_layers_lists_the_yolo_records [conv 6; yolo] [1]). by_evaluation.
Defined.

(** The sample model: entry 0 of [yolo_layers] is layer 1, the head with
    index 0. *)
Lemma yolo_layers_witness :
  ∃ d y,
    Darknet.module_defines model !! 1 = Some d ∧
    get d "type" = Ok (VStr "yolo") ∧
    Darknet.module_list model !! 1 = Some (Single (YOLO y)) ∧
    YOLOLayer.index y = Z.of_nat 0.
Proof.
  apply (yolo_layers_name_the_heads true zero_bias net model); [by_evaluation | reflexivity].
Defined.

(** The sample model in training mode returns one raw prediction. *)
Lemma forward_outputs_witness :
  ∃ ys, Darknet.get_yolo_layers (Darknet.module_defines model) = Ok ys ∧
        length [YOLOLayer.OutTrain (Build [1; 1; 1; 1; 6] (replicate 6 0%R))] = length ys.
Proof.
  apply (forward_returns_one_output_per_head stride32 run fuse cat interpolate
           model model_after_forward image
           (Darknet.Train [YOLOLayer.OutTrain (Build [1; 1; 1; 1; 6] (replicate 6 0%R))]));
    [reflexivity | by_evaluation].
Defined.

(** The model without a head, in evaluation mode. *)
Lemma forward_without_heads_witness :
  Darknet.forward stride32 run fuse cat interpolate headless image = Raise ValueError.
Proof.
  apply (forward_without_heads stride32 run fuse cat interpolate headless image
           headless_frame); [reflexivity | by_evaluation | by_evaluation].
Defined.


(** A pooling module that would fail if called: [forward] gives the same
    result, for it never calls it. *)
Lemma forward_applies_witness :
  Darknet.forward stride32 run fuse cat interpolate pooled_model image =
  Darknet.forward stride32 run_without_pooling fuse cat interpolate pooled_model image.
Proof.
  apply (forward_applies_three_kinds_only stride32 fuse cat interpolate
           run run_without_pooling pooled_model image).
  intros k d md type x Hitem Hty Hkind.
  destruct k as [|[|k]]; [| |done].
  - injection Hitem as <- <-. reflexivity.
  - injection Hitem as <- <-. injection Hty as <-. discriminate Hkind.
Defined.

(** The routed model: after its three layers the current value is a
    tensor and so is the entry of layer 1, the one the mask marks. *)
Lemma forward_reads_witness :
  (∃ t, Darknet.x routed_frame = Darknet.ETensor t) ∧
  ∀ j, j < 3 → Darknet.routs routed_model !! j = Some true →
       ∃ t, Darknet.out routed_frame !! j = Some (Darknet.ETensor t).
Proof.
  apply (forward_reads_stored_tensors true zero_bias stride32 run fuse cat interpolate
           routed_net routed_model (Darknet.module_list routed_model) [] image 3
           routed_frame);
    [by_evaluation | vm_compute; lia | by_evaluation].
Defined.

(** Fusing the routed model: the layout stays. *)
Lemma fuse_layout_witness :
  Darknet.module_defines fused_model = Darknet.module_defines routed_model ∧
  Darknet.routs fused_model = Darknet.routs routed_model ∧
  Darknet.yolo_layers fused_model = Darknet.yolo_layers routed_model ∧
  Darknet.training fused_model = Darknet.training routed_model ∧
  length (Darknet.module_list fused_model) = length (Darknet.module_list routed_model) ∧
  ∀ i a, Darknet.module_list routed_model !! i = Some a → Fusing.batchnorm_free a →
         Darknet.module_list fused_model !! i = Some a.
Proof.
  apply (fuse_keeps_the_layout fuse_conv_and_bn routed_model fused_model). by_evaluation.
Defined.

(** A convolution, its batch normalisation and its activation. *)
Lemma fuse_module_witness :
  Fusing.fuse_module fuse_conv_and_bn (bn_conv_module 3 16) = Ok (fused_conv_module 3 16).
Proof.
  apply (fuse_module_keeps_what_follows fuse_conv_and_bn [] [("activation", LeakyReLU)]
           "Conv2d" "BatchNorm2d" (Conv2d 3 16 3 (inl 1%Z) 1 1 None) (BatchNorm2d 16));
    [constructor | reflexivity | reflexivity].
Defined.

(** A Sequential whose only child is a batch normalisation: it is fused
    with itself, which the stand-in refuses. *)
Lemma fuse_module_leading_witness :
  Fusing.fuse_module fuse_conv_and_bn (Sequential [("BatchNorm2d", BatchNorm2d 16)])
    = Raise AttributeError.
Proof.
  apply (fuse_module_leading_batchnorm fuse_conv_and_bn "BatchNorm2d" (BatchNorm2d 16) []).
  reflexivity.
Defined.

(** The routed model as built: fused, it holds no batch normalisation
    and fusing it again gives the same model. *)
Lemma fuse_built_witness :
  Forall Fusing.batchnorm_free (Darknet.module_list fused_model) ∧
  (Fusing.fuse fuse_conv_and_bn fused_model).2 = Ok fused_model.
Proof.
  apply (fuse_of_a_built_model true zero_bias fuse_conv_and_bn routed_net routed_model
           fused_model).
  - intros conv b fused. destruct conv; try done. by intros [= <-].
  - by_evaluation.
  - by_evaluation.
Defined.

(** Saving at the end of epoch 0 of 3, in a run that started afresh,
    with a fitness that is the best: both files are written; a run that
    loads the first resumes at epoch 1, one that loads the second starts
    at epoch 0. *)
Lemma resume_after_save_witness :
  (∃ ck, Some epoch_0_checkpoint = Some ck ∧
         Checkpoint.model ck = 1 ∧ Checkpoint.training_results ck = Some "results" ∧
         Checkpoint.resume load_any (Checkpoint.fresh_optimizer 2 1 1) (Some ck) =
           if bool_decide (0 + 1 = Train.epochs accumulate_2_args)
           then Raise (KeyError "param 'initial_lr' is not specified in param_groups[0] when resuming an optimizer")
           else Ok ((Z.of_nat 0 + 1)%Z, Some (9 # 10)%Q, ready_groups)) ∧
  (if Qeq_bool (9 # 10) (9 # 10)
   then ∃ ck, Some best_checkpoint = Some ck ∧ Checkpoint.model ck = 2 ∧
              Checkpoint.resume load_any (Checkpoint.fresh_optimizer 2 1 1) (Some ck)
                = Ok (0%Z, Some 0%Q, ready_groups) ∧
              Checkpoint.resume load_any (Checkpoint.fresh_optimizer 2 1 1) None
                = Ok (0%Z, Some 0%Q, ready_groups)
   else Some best_checkpoint = None).
Proof.
  apply (resume_after_save load_any accumulate_2_args 0 (9 # 10) (9 # 10) "results" 1 2
           2 1 1 None 0%Z (Some 0%Q) ready_groups
           (Checkpoint.Files None None)
           (Checkpoint.Files (Some epoch_0_checkpoint) (Some best_checkpoint)));
    reflexivity.
Defined.

(** Epoch 1 of a run of three batches per epoch that accumulates two:
    the batches are numbered 3, 4 and 5 and the optimizer steps after
    batch 4. *)
Lemma batches_witness :
  Train.loop (Train.batch finite_loss 3 accumulate_2_args 1) (Train.enter 0) (seq 0 3) =
    ({| Train.cur_results := Train.zero_results; Train.best_fitness := 0;
        Train.trace :=
          [Train.Backward 1 0; Train.Backward 1 1; Train.OptimizerStep 4;
           Train.Backward 1 2] |}, Train.Next).
Proof.
  apply (batches_step_every_accumulate finite_loss 3 accumulate_2_args 1 (Train.enter 0));
    [done | reflexivity].
Defined.

(** The sample head: the raw predictions of an inference call are those
    of the call in training mode. *)
Lemma inference_training_witness :
  ∃ self' calls io p,
    YOLOLayer.forward stride32 head_eval zeros_1x1 [32; 32]
      = (self', calls, Ok (YOLOLayer.OutInfer io p)) ∧
    YOLOLayer.forward stride32 (YOLOLayer.train true head_eval) zeros_1x1 [32; 32]
      = (YOLOLayer.train true self', calls, Ok (YOLOLayer.OutTrain p)).
Proof.
  do 4 eexists. split; [reflexivity|].
  eapply (inference_returns_the_training_output stride32 head_eval). reflexivity.
Defined.

(** The two convolutions: 3 to 16 channels, then 16 to 32. *)
Lemma convolutions_chain_witness :
  length (output_filters after_two_convs) = S (length [bn_conv 16; bn_conv 32]) ∧
  output_filters after_two_convs !! 0 = Some 3%Z ∧
  ∀ i d, [bn_conv 16; bn_conv 32] !! i = Some d →
    get d "type" = Ok (VStr "convolutional") → has d "in_features" = false →
    ∃ a cin cout,
      module_list after_two_convs !! i = Some a ∧ conv_channels a = Some (cin, cout) ∧
      output_filters after_two_convs !! i = Some cin ∧
      output_filters after_two_convs !! S i = Some cout ∧
      get_int d "filters" = Ok cout.
Proof.
  apply (convolutions_chain_channels true zero_bias 3 [bn_conv 16; bn_conv 32] after_two_convs).
  by_evaluation.
Defined.

(** The sample description built with grad mode on: one warning for its
    one head, and the convolution keeps its all-zero bias. *)
Lemma grad_mode_on_witness :
  length (filter (fun line => line = bias_warning) (stdout after_net))
    = length (filter (fun d => is_yolo d = true) [conv 6; yolo]) ∧
  ∀ i d bn filters,
    [conv 6; yolo] !! i = Some d →
    get d "type" = Ok (VStr "convolutional") →
    get_int d "batch_normalize" = Ok bn →
    get_int d "filters" = Ok filters →
    ∃ a l, module_list after_net !! i = Some a ∧ first_child a = Ok l ∧
           bias_of l = Ok (if decide (bn ≠ 0%Z) then None
                           else Some (fresh_bias zero_bias i filters)).
Proof.
  apply (grad_mode_on_leaves_biases_fresh zero_bias 3 [conv 6; yolo] after_net).
  by_evaluation.
Defined.
